(** * Pet Express scraper and recommendation agents: a shallow embedding

  Source files modelled here:
  - [utils/http_utils.py]              ([HttpUtils])
  - [scrapers/pet_express_scraper.py]  ([PetExpressScraper])
  - [agents/recommendation_agent.py]   ([RecommendationAgent])

  Conventions.  Python [str] values are modelled by [string]: a character
  of the model is the Python character with the same code point, from 0 to
  255.  On these characters [str.lower], [str.strip] and [str.split] are
  Python's: the lower-casing covers the capital letters of Latin-1, the
  white space includes U+0085 and U+00A0.  A function that may raise returns a
  [result]; [try ... except Exception] is [try_catch].  External
  collaborators (the HTTP transport, the HTML parser, [urljoin], the
  language model, the review search, the PetBacker scraper) are section
  variables: every theorem holds for all of their behaviours. *)

From Stdlib Require Import ZArith QArith Qminmax Bool List Lia.
From Stdlib Require Import Strings.String Strings.Ascii.
From Stdlib Require Import Numbers.DecimalString.
From Stdlib Require Import Sorting.Sorted Sorting.Permutation.
Import ListNotations.

Local Open Scope string_scope.
Local Open Scope Z_scope.

(* ===================================================================== *)
(** * Exceptions *)
(* ===================================================================== *)

Module Exc.

(** The exception classes that occur in the modelled code.  All of them
    derive from Python's [Exception]. *)
Inductive exn : Type :=
| ValidationError          (* pydantic: a field constraint failed *)
| ValueError               (* urllib.parse.urljoin, float() *)
| ConnectError             (* httpx.ConnectError *)
| ReadTimeout              (* httpx.ReadTimeout *)
| ConnectTimeout           (* httpx.ConnectTimeout *)
| OtherError (msg : string)  (* any other Exception subclass *)
| PlainException (msg : string). (* raise Exception(msg) *)

Inductive result (A : Type) : Type :=
| Ok (a : A)
| Raise (e : exn).
Arguments Ok {A} a.
Arguments Raise {A} e.

Definition bind {A B} (c : result A) (k : A -> result B) : result B :=
  match c with
  | Ok a => k a
  | Raise e => Raise e
  end.

(** [try: c except Exception as e: h e] *)
Definition try_catch {A} (c : result A) (h : exn -> result A) : result A :=
  match c with
  | Ok a => Ok a
  | Raise e => h e
  end.

End Exc.
Import Exc.

Declare Scope exc_scope.
Delimit Scope exc_scope with exc.
Notation "x <- c ;; k" := (bind c (fun x => k))
(at level 61, c at next level, right associativity) : exc_scope.

(* ===================================================================== *)
(** * Python string operations *)
(* ===================================================================== *)

Module PyStr.

(** The characters that [str.lower()] changes: [A] to [Z] and the capital
    letters of Latin-1, U+00C0 to U+00DE without the multiplication sign
    U+00D7.  Each lies 32 below its lower-case form. *)
Definition is_upper (c : ascii) : bool :=
  let n := nat_of_ascii c in
  ((65 <=? n) && (n <=? 90)
   || (192 <=? n) && (n <=? 222) && negb (n =? 215))%nat.

(** The class [[a-zA-Z0-9]] of the regular expressions. *)
Definition is_alnum (c : ascii) : bool :=
  let n := nat_of_ascii c in
  ((48 <=? n) && (n <=? 57) || (65 <=? n) && (n <=? 90)
   || (97 <=? n) && (n <=? 122))%nat.

(** [c.isspace()]: the characters that [str.strip()] removes, on which
    [str.split()] splits and that [\s] matches: U+0009 to U+000D, U+001C to
    U+0020, U+0085 and U+00A0. *)
Definition is_space (c : ascii) : bool :=
  let n := nat_of_ascii c in
  ((9 <=? n) && (n <=? 13) || (28 <=? n) && (n <=? 32)
   || (n =? 133) || (n =? 160))%nat.

Definition lower_char (c : ascii) : ascii :=
  if is_upper c then ascii_of_nat (nat_of_ascii c + 32) else c.

Fixpoint map_chars (f : ascii -> ascii) (s : string) : string :=
  match s with
  | EmptyString => EmptyString
  | String c s' => String (f c) (map_chars f s')
  end.

(** [s.lower()] *)
Definition lower (s : string) : string := map_chars lower_char s.

(** [s.startswith(p)] *)
Fixpoint startswith (p s : string) : bool :=
  match p with
  | EmptyString => true
  | String a p' =>
      match s with
      | EmptyString => false
      | String b s' => Ascii.eqb a b && startswith p' s'
      end
  end.

(** [pat in s] *)
Fixpoint contains (pat s : string) : bool :=
  if startswith pat s then true
  else match s with
       | EmptyString => false
       | String _ s' => contains pat s'
       end.

(** [s.count(pat)]: occurrences found left to right without overlap.
    [skip] is the number of characters still covered by the last match. *)
Fixpoint count_from (pat : string) (skip : nat) (s : string) : nat :=
  match skip with
  | S k =>
      match s with
      | EmptyString => O
      | String _ s' => count_from pat k s'
      end
  | O =>
      if startswith pat s then
        S (match s with
           | EmptyString => O
           | String _ s' => count_from pat (String.length pat - 1) s'
           end)
      else
        match s with
        | EmptyString => O
        | String _ s' => count_from pat O s'
        end
  end.

Definition count (pat s : string) : nat := count_from pat O s.

(** [s.split(sep)] for a non-empty [sep]; [cur] is the piece being read. *)
Fixpoint split_from (sep : string) (skip : nat) (cur s : string)
  : list string :=
  match skip with
  | S k =>
      match s with
      | EmptyString => [cur]
      | String _ s' => split_from sep k cur s'
      end
  | O =>
      match s with
      | EmptyString => [cur]
      | String c s' =>
          if startswith sep s then
            cur :: split_from sep (String.length sep - 1) EmptyString s'
          else
            split_from sep O (cur ++ String c EmptyString) s'
      end
  end.

Definition split (sep s : string) : list string :=
  split_from sep O EmptyString s.

Fixpoint lstrip_with (drop : ascii -> bool) (s : string) : string :=
  match s with
  | EmptyString => EmptyString
  | String c s' => if drop c then lstrip_with drop s' else s
  end.

(** Drops the trailing characters satisfying [drop]. *)
Fixpoint rstrip_with (drop : ascii -> bool) (s : string) : string :=
  match s with
  | EmptyString => EmptyString
  | String c s' =>
      match rstrip_with drop s' with
      | EmptyString => if drop c then EmptyString else String c EmptyString
      | r => String c r
      end
  end.

Definition strip_with (drop : ascii -> bool) (s : string) : string :=
  rstrip_with drop (lstrip_with drop s).

(** [s.strip()] *)
Definition strip (s : string) : string := strip_with is_space s.

(** [s.strip('-')] *)
Definition strip_dash (s : string) : string :=
  strip_with (Ascii.eqb "-"%char) s.

(** [re.sub(r'[^a-zA-Z0-9]', '-', s)] *)
Definition sub_non_alnum (s : string) : string :=
  map_chars (fun c => if is_alnum c then c else "-"%char) s.

(** [s[:n]] for [n >= 0] *)
Definition take (n : nat) (s : string) : string := String.substring 0 n s.

(** Python truthiness of a string. *)
Definition truthy (s : string) : bool :=
  match s with EmptyString => false | _ => true end.

Fixpoint drop (n : nat) (s : string) : string :=
  match n, s with
  | O, _ => s
  | S k, EmptyString => EmptyString
  | S k, String _ s' => drop k s'
  end.

(** Splits at the first ["/"]: the text before it and, when there is one,
    the text after it. *)
Fixpoint break_slash (s : string) : string * option string :=
  match s with
  | EmptyString => (EmptyString, None)
  | String c s' =>
      if Ascii.eqb c "/"%char then (EmptyString, Some s')
      else let (a, b) := break_slash s' in (String c a, b)
  end.

(** [str(n)] for an integer. *)
Definition str_of_int (n : Z) : string :=
  NilEmpty.string_of_int (Z.to_int n).

End PyStr.

(* ===================================================================== *)
(** * utils/http_utils.py *)
(* ===================================================================== *)

Module HttpUtils.

(** [httpx.Response], reduced to what the code and its callers read. *)
Record Response : Type := mkResponse {
  status_code : Z;
  text : string
}.

(** What one [await client.get(full_url, params=params)] can do: produce a
    response, or raise. *)
Inductive attempt : Type :=
| Responded (r : Response)
| Failed (e : exn).

(** What [get_async] does in the end. *)
Inductive outcome : Type :=
| Returned (r : Response)
| Raised (e : exn).

(** [except (httpx.ConnectError, httpx.ReadTimeout, httpx.ConnectTimeout)] *)
Definition caught (e : exn) : bool :=
  match e with
  | ConnectError | ReadTimeout | ConnectTimeout => true
  | _ => false
  end.

Section Client.

(** [self.base_url] *)
Variable base_url : string.

(** The transport: the outcome of the [n]-th request (counting from 0)
    that this call sends to [full_url] with [params]. *)
Variable params_t : Type.
Variable client_get : string -> params_t -> nat -> attempt.

Definition full_url_of (url : string) : string :=
  if PyStr.startswith "http" url then url else base_url ++ url.

(** The [while retry_count < max_retries] loop.  [sent] counts the
    requests issued so far; the result carries the final count.  [fuel]
    bounds the number of iterations; [None] means the fuel ran out. *)
Fixpoint retry_loop (fuel : nat) (full_url : string) (params : params_t)
         (max_retries retry_count : Z) (sent : nat)
  : option (outcome * nat) :=
  if retry_count <? max_retries then
    match fuel with
    | O => None
    | S fuel' =>
        match client_get full_url params sent with
        | Responded response =>
            if status_code response =? 200 then
              Some (Returned response, S sent)
            else if negb (status_code response =? 429)
                    && negb ((500 <=? status_code response)
                             && (status_code response <? 600)) then
              Some (Returned response, S sent)
            else
              retry_loop fuel' full_url params max_retries
                         (retry_count + 1) (S sent)
        | Failed e =>
            if caught e then
              let retry_count := retry_count + 1 in
              if retry_count >=? max_retries then
                Some (Raised e, S sent)
              else
                retry_loop fuel' full_url params max_retries
                           retry_count (S sent)
            else
              Some (Raised e, S sent)
        end
    end
  else
    Some (Raised (PlainException
                    ("Failed to get response after "
                     ++ PyStr.str_of_int max_retries ++ " retries")),
          sent).

(** [HttpClient.get_async(url, params, max_retries)]: the outcome and
    the number of requests sent. *)
Definition get_async (url : string) (params : params_t)
           (max_retries : Z) : option (outcome * nat) :=
  retry_loop (Z.to_nat max_retries) (full_url_of url) params
             max_retries 0 0.

End Client.

(** The default of the [max_retries] parameter. *)
Definition default_max_retries : Z := 3.

(** The transient conditions of the specification: connection failure,
    read timeout, connect timeout, HTTP 429, HTTP 5xx. *)
Definition retryable_status (s : Z) : bool :=
  (s =? 429) || ((500 <=? s) && (s <=? 599)).

Definition retryable (a : attempt) : bool :=
  match a with
  | Responded r => retryable_status (status_code r)
  | Failed ConnectError | Failed ReadTimeout | Failed ConnectTimeout => true
  | Failed _ => false
  end.

End HttpUtils.

(* ===================================================================== *)
(** * scrapers/pet_express_scraper.py *)
(* ===================================================================== *)

Module PetExpressScraper.

Definition BASE_URL : string := "https://www.petexpress.com.ph".

(** The parse tree that BeautifulSoup hands to the code: text nodes and
    tags with their classes, their other attributes and their children. *)
#[warnings="-register-all"] Inductive node : Type :=
| Text (s : string)
| Tag (name : string) (classes : list string)
      (attrs : list (string * string)) (children : list node).

(** A selector [name.class], the only form the extractor uses. *)
Definition selector : Type := (string * string)%type.

Definition matches (sel : selector) (n : node) : bool :=
  match n with
  | Text _ => false
  | Tag name classes _ _ =>
      String.eqb name (fst sel)
      && existsb (String.eqb (snd sel)) classes
  end.

(** The nodes below [n], in document order. *)
Fixpoint descendants (n : node) : list node :=
  match n with
  | Text _ => []
  | Tag _ _ _ children =>
      flat_map (fun c => c :: descendants c) children
  end.

(** [n.select(sel)] *)
Definition select (sel : selector) (n : node) : list node :=
  filter (matches sel) (descendants n).

(** [n.select_one(sel)] *)
Definition select_one (sel : selector) (n : node) : option node :=
  hd_error (select sel n).

(** [n.text] *)
Fixpoint text (n : node) : string :=
  match n with
  | Text s => s
  | Tag _ _ _ children =>
      fold_right (fun c acc => text c ++ acc) EmptyString children
  end.

Fixpoint assoc (k : string) (l : list (string * string)) : option string :=
  match l with
  | [] => None
  | (k', v) :: l' => if String.eqb k k' then Some v else assoc k l'
  end.

(** [n.get(attr, default)] *)
Definition get (n : node) (attr default : string) : string :=
  match n with
  | Text _ => default
  | Tag _ _ attrs _ =>
      match assoc attr attrs with
      | Some v => v
      | None => default
      end
  end.

(** One entry of the list that [extract_product_data] returns. *)
Record Product : Type := mkProduct {
  product_id : option string;
  title : string;
  url : string;
  image_url : option string;
  price : string;
  compare_price : option string;
  on_sale : bool;
  in_stock : bool
}.

(** What the body of the [for card in product_cards] loop did. *)
Inductive card_step : Type :=
| Skipped                 (* [continue]: the card has no link *)
| Appended (p : Product).

Section Extract.

(** [BeautifulSoup(html_content, 'html5lib')]: html5lib builds a tree for
    every input string. *)
Variable parse_html : string -> node.

(** [urllib.parse.urljoin]; it raises [ValueError] on some malformed
    references. *)
Variable urljoin : string -> string -> result string.

Local Open Scope exc_scope.

(** The body of the [try] block for one card. *)
Definition process_card (card : node) : result card_step :=
  match select_one ("a", "product-item__image-wrapper") card with
  | None => Ok Skipped
  | Some product_link =>
      product_url <- urljoin BASE_URL (get product_link "href" "") ;;
      product_id <-
        (if PyStr.contains "products/" product_url then
           match nth_error (PyStr.split "products/" product_url) 1 with
           | Some piece => Ok (Some piece)
           | None => Raise (OtherError "IndexError")
           end
         else Ok None) ;;
      let title_elem := select_one ("a", "product-item__title") card in
      let title :=
        match title_elem with
        | Some e => PyStr.strip (text e)
        | None => "Unknown Title"
        end in
      let img_elem :=
        select_one ("img", "product-item__primary-image") card in
      let image_url :=
        match img_elem with
        | Some e =>
            Some (if PyStr.startswith "//" (get e "data-src" "")
                  then "https:" ++ get e "data-src" ""
                  else get e "data-src" "")
        | None => None
        end in
      let price_elem := select_one ("span", "price") card in
      let price :=
        match price_elem with
        | Some e => PyStr.strip (text e)
        | None => "Price not available"
        end in
      let compare_price_elem :=
        select_one ("span", "price--compare") card in
      let on_sale :=
        match compare_price_elem with Some _ => true | None => false end in
      let compare_price :=
        match compare_price_elem with
        | Some e => Some (PyStr.strip (text e))
        | None => None
        end in
      let sold_out_elem :=
        select_one ("span", "product-item__label--sold-out") card in
      let in_stock :=
        negb (match sold_out_elem with Some _ => true | None => false end) in
      Ok (Appended (mkProduct product_id title product_url image_url
                              price compare_price on_sale in_stock))
  end.

(** The [for] loop with its [try ... except Exception: continue]. *)
Fixpoint process_cards (cards : list node) (products : list Product)
  : result (list Product) :=
  match cards with
  | [] => Ok products
  | card :: rest =>
      step <- try_catch (process_card card) (fun _ => Ok Skipped) ;;
      match step with
      | Skipped => process_cards rest products
      | Appended p => process_cards rest (products ++ [p])
      end
  end.

Definition extract_product_data (html_content : string)
  : result (list Product) :=
  let soup := parse_html html_content in
  let product_cards := select ("div", "product-item") soup in
  process_cards product_cards [].

(** What one card contributes to the result. *)
Definition card_products (card : node) : list Product :=
  match process_card card with
  | Ok (Appended p) => [p]
  | Ok Skipped => []
  | Raise _ => []
  end.

End Extract.

End PetExpressScraper.

(* ===================================================================== *)
(** * Python floats and the built-in [sorted] *)
(* ===================================================================== *)

Module PyFloat.

(** A Python [float]: a finite value, an infinity, or NaN.  The modelled
    code only compares floats and adds small integers and halves, which is
    exact, so finite values are rationals. *)
Inductive pyfloat : Type :=
| Fin (q : Q)
| PosInf
| NegInf
| NaN.

Definition Qlt_bool (a b : Q) : bool := negb (Qle_bool b a).

(** [a < b] *)
Definition lt (a b : pyfloat) : bool :=
  match a, b with
  | NaN, _ | _, NaN => false
  | Fin x, Fin y => Qlt_bool x y
  | NegInf, NegInf => false
  | NegInf, _ => true
  | PosInf, _ => false
  | Fin _, PosInf => true
  | Fin _, NegInf => false
  end.

(** [a <= b] *)
Definition le (a b : pyfloat) : bool :=
  match a, b with
  | NaN, _ | _, NaN => false
  | Fin x, Fin y => Qle_bool x y
  | NegInf, _ => true
  | _, PosInf => true
  | PosInf, _ => false
  | Fin _, NegInf => false
  end.

(** [a == b] *)
Definition eq (a b : pyfloat) : bool :=
  match a, b with
  | Fin x, Fin y => Qeq_bool x y
  | PosInf, PosInf => true
  | NegInf, NegInf => true
  | _, _ => false
  end.

(** [min(a, b)]: Python keeps [a] unless [b < a]. *)
Definition min (a b : pyfloat) : pyfloat := if lt b a then b else a.

(** [min(a, b)] on finite values. *)
Definition qmin (a b : Q) : Q := if Qlt_bool b a then b else a.

(** Truthiness of an optional float: [None] and zero are false. *)
Definition truthy (r : option pyfloat) : bool :=
  match r with
  | None => false
  | Some f => negb (eq f (Fin 0))
  end.

End PyFloat.

Module PySorted.

Section Sorted.

Context {A : Type}.
Variable key : A -> Q.

(** Inserts [x] before the first element whose key is not smaller. *)
Fixpoint insert (x : A) (l : list A) : list A :=
  match l with
  | [] => [x]
  | y :: l' =>
      if Qle_bool (key x) (key y) then x :: l else y :: insert x l'
  end.

(** A stable ascending sort, standing for [list.sort]. *)
Definition sort (l : list A) : list A := fold_right insert [] l.

(** [sorted(l, key=key, reverse=True)]: CPython reverses the list, sorts
    it in ascending order and reverses the result, which keeps elements
    with equal keys in their original order. *)
Definition sorted_reverse (l : list A) : list A := rev (sort (rev l)).

(** [l] is in descending order of [key]. *)
Definition descending (l : list A) : Prop :=
  StronglySorted (fun a b => (key b <= key a)%Q) l.

(** The elements of [l] whose key equals [s], in the order of [l]. *)
Definition with_key (s : Q) (l : list A) : list A :=
  filter (fun x => Qeq_bool (key x) s) l.

End Sorted.

End PySorted.

(* ===================================================================== *)
(** * agents/recommendation_agent.py *)
(* ===================================================================== *)

Module RecommendationAgent.

Import PyFloat.

(** An optional credential is usable when it is a non-empty string. *)
Definition truthy_key (k : option string) : bool :=
  match k with
  | Some s => PyStr.truthy s
  | None => false
  end.

(** [a or b] on optional strings. *)
Definition py_or (a b : option string) : option string :=
  if truthy_key a then a else b.

(** ** Models *)

Module ProductReview.
Record t : Type := mk {
  product_id : string;
  title : string;
  source : string;
  content : string;
  rating : option pyfloat
}.
End ProductReview.

Module ProductRecommendation.
Record t : Type := mk {
  product_id : string;
  title : string;
  url : string;
  price : string;
  image_url : option string;
  rating : option pyfloat;
  reviews : list string;
  recommendation_reason : string;
  suitability_score : Q
}.

(** The pydantic constructor as the code calls it: [product_id] must be a
    string, and [suitability_score: float = Field(ge=0, le=10)] must
    satisfy both comparisons. *)
Definition create (product_id : option string) (title url price : string)
           (image_url : option string) (reviews : list string)
           (recommendation_reason : string) (suitability_score : pyfloat)
  : result t :=
  match product_id, suitability_score with
  | Some pid, Fin q =>
      if le (Fin 0) (Fin q) && le (Fin q) (Fin 10) then
        Ok (mk pid title url price image_url None reviews
               recommendation_reason q)
      else Raise ValidationError
  | _, _ => Raise ValidationError
  end.
End ProductRecommendation.

Module GroomerRecommendation.
Record t : Type := mk {
  groomer_id : string;
  name : string;
  url : string;
  location : string;
  services : list string;
  rating : option pyfloat;
  reviews : list string;
  recommendation_reason : string;
  suitability_score : Q;
  image_url : option string;
  contact_info : option string
}.

(** The pydantic constructor: [suitability_score: float = Field(ge=0,
    le=10)]. *)
Definition create (groomer_id name url location : string)
           (services : list string) (rating : option pyfloat)
           (reviews : list string) (recommendation_reason : string)
           (suitability_score : pyfloat) (image_url : option string)
           (contact_info : option string) : result t :=
  match suitability_score with
  | Fin q =>
      if le (Fin 0) (Fin q) && le (Fin q) (Fin 10) then
        Ok (mk groomer_id name url location services rating reviews
               recommendation_reason q image_url contact_info)
      else Raise ValidationError
  | _ => Raise ValidationError
  end.
End GroomerRecommendation.

Module RecommendationResponse.
Record t : Type := mk {
  query : string;
  dog_breed : string;
  age : string;
  recommendations : list ProductRecommendation.t;
  groomer_recommendations : option (list GroomerRecommendation.t);
  summary : string;
  groomer_summary : option string
}.

(** [summary: str] is required; the other fields are well typed by
    construction. *)
Definition create (query dog_breed age : string)
           (recommendations : list ProductRecommendation.t)
           (groomer_recommendations : option (list GroomerRecommendation.t))
           (summary groomer_summary : option string) : result t :=
  match summary with
  | Some text =>
      Ok (mk query dog_breed age recommendations groomer_recommendations
             text groomer_summary)
  | None => Raise ValidationError
  end.
End RecommendationResponse.

(** What the language model's JSON answer contributes to a product
    analysis; [None] stands for an absent key. *)
Record ProductAnalysis : Type := mkProductAnalysis {
  pa_suitability_score : option pyfloat;
  pa_recommendation_reason : option string;
  pa_key_benefits : list string;
  pa_cautions : list string
}.

Record GroomerAnalysis : Type := mkGroomerAnalysis {
  ga_suitability_score : option pyfloat;
  ga_recommendation_reason : option string
}.

(** ** The rule-based product score *)

Definition breed_synonyms (dog_breed : string) : list string :=
  let b := PyStr.lower dog_breed in
  if String.eqb b "bulldog" then
    ["english bulldog"; "british bulldog"; "brachycephalic"; "flat-faced";
     "short-snout"]
  else if String.eqb b "german shepherd" then
    ["gsd"; "alsatian"; "shepherd"; "police dog"]
  else if String.eqb b "labrador" then
    ["lab"; "retriever"; "labrador retriever"]
  else if String.eqb b "poodle" then
    ["toy poodle"; "miniature poodle"; "standard poodle"]
  else if String.eqb b "shih tzu" then
    ["shitzu"; "chrysanthemum dog"; "small breeds"]
  else [].

Definition breed_terms (dog_breed : string) : list string :=
  PyStr.lower dog_breed :: breed_synonyms dog_breed.

Definition age_terms (age : string) : list string :=
  PyStr.lower age ::
  (if String.eqb (PyStr.lower age) "puppy" then
     ["young"; "growing"; "junior"; "youth"]
   else if String.eqb (PyStr.lower age) "adult" then
     ["mature"; "grown"; "senior"]
   else []).

(** [all_review_content]: every review's content followed by a space. *)
Definition all_review_content (reviews : list ProductReview.t) : string :=
  fold_left (fun acc review => acc ++ ProductReview.content review ++ " ")
            reviews EmptyString.

(** [any(term in text for term in terms)] *)
Definition any_in (terms : list string) (text : string) : bool :=
  existsb (fun term => PyStr.contains term text) terms.

(** The [breed_mentions] and [age_mentions] loops. *)
Definition mentions (terms : list string) (text : string) : nat :=
  fold_left (fun n term =>
               if PyStr.contains term text
               then (n + PyStr.count term text)%nat else n)
            terms O.

Definition nutrition_terms (dog_breed : string) : list string :=
  let b := PyStr.lower dog_breed in
  if String.eqb b "bulldog" then
    ["joint"; "hip"; "breath"; "skin"; "allergies"; "cooling"; "grain-free"]
  else if String.eqb b "german shepherd" then
    ["joint"; "hip"; "digestive"; "gut"; "protein"; "calcium"]
  else [].

Definition nutrition_score (dog_breed text : string) : Q :=
  fold_left (fun acc term =>
               if PyStr.contains term text then (acc + (1 # 2))%Q else acc)
            (nutrition_terms dog_breed) 0%Q.

(** The score accumulated by the rules, before the floor and the cap. *)
Definition rule_total (title : string) (reviews : list ProductReview.t)
           (dog_breed age : string) : Q :=
  let text := PyStr.lower (all_review_content reviews) in
  let breed_in_title := any_in (breed_terms dog_breed) (PyStr.lower title) in
  let breed_mentions := mentions (breed_terms dog_breed) text in
  let age_in_title := any_in (age_terms age) (PyStr.lower title) in
  let age_mentions := mentions (age_terms age) text in
  let suitability_score := 0%Q in
  let suitability_score :=
    if breed_in_title then (suitability_score + 3)%Q
    else suitability_score in
  let suitability_score :=
    if (0 <? breed_mentions)%nat then
      (suitability_score
       + inject_Z (Z.of_nat (Nat.min 3 breed_mentions)))%Q
    else suitability_score in
  let suitability_score :=
    if age_in_title then (suitability_score + 2)%Q
    else suitability_score in
  let suitability_score :=
    if (0 <? age_mentions)%nat then
      (suitability_score + inject_Z (Z.of_nat (Nat.min 2 age_mentions)))%Q
    else suitability_score in
  (suitability_score + qmin 2 (nutrition_score dog_breed text))%Q.

(** [if suitability_score < 2: suitability_score = 2] *)
Definition floor_score (suitability_score : Q) : Q :=
  if Qlt_bool suitability_score 2 then 2%Q else suitability_score.

Definition product_reason (suitability_score : Q) (dog_breed age : string)
  : string :=
  if Qle_bool 8 suitability_score then
    "Highly recommended for " ++ dog_breed ++ " " ++ age
    ++ "s. Reviews specifically mention this product working well for your breed."
  else if Qle_bool 6 suitability_score then
    "Good match for " ++ dog_breed ++ " " ++ age
    ++ "s based on multiple positive reviews and product details."
  else if Qle_bool 4 suitability_score then
    "May be suitable for " ++ dog_breed ++ " " ++ age
    ++ "s. Some reviews indicate compatibility but limited specific information available."
  else
    "Limited evidence this product is ideal for " ++ dog_breed ++ " " ++ age
    ++ "s. Contains some nutritional elements that could benefit your dog, but consider alternatives specifically formulated for "
    ++ dog_breed ++ "s.".

(** The rule-based part of [analyze_product_suitability]. *)
Definition rule_based_product (product : PetExpressScraper.Product)
           (reviews : list ProductReview.t) (dog_breed age : string)
  : result ProductRecommendation.t :=
  let title := PetExpressScraper.title product in
  let suitability_score := floor_score (rule_total title reviews dog_breed age) in
  let recommendation_reason := product_reason suitability_score dog_breed age in
  let review_texts := map ProductReview.content reviews in
  let review_texts :=
    match review_texts with
    | [] => ["No specific reviews found for this product."]
    | _ => review_texts
    end in
  ProductRecommendation.create
    (PetExpressScraper.product_id product) title
    (PetExpressScraper.url product) (PetExpressScraper.price product)
    (PetExpressScraper.image_url product)
    review_texts recommendation_reason
    (min (Fin 10) (Fin suitability_score)).

Definition join_lines (l : list string) : string :=
  String.concat (String (ascii_of_nat 10) EmptyString) l.

Definition newline : string := String (ascii_of_nat 10) EmptyString.

Section ProductAgent.

(** [os.environ.get("OPENAI_API_KEY")] *)
Variable env_openai_api_key : option string.

(** The language-model call of [analyze_product_suitability] with its
    [json.loads] and [float(...)]: the parsed answer, or an exception. *)
Variable complete_product_json :
  string -> PetExpressScraper.Product -> list ProductReview.t ->
  string -> string -> result ProductAnalysis.

(** How Python prints a float inside an f-string. *)
Variable float_str : pyfloat -> string.

Local Open Scope exc_scope.

Definition structured_review (review : ProductReview.t) : string :=
  let formatted_review := "Source: " ++ ProductReview.title review ++ newline in
  let formatted_review :=
    if truthy (ProductReview.rating review) then
      formatted_review ++ "Rating: "
      ++ match ProductReview.rating review with
         | Some r => float_str r
         | None => EmptyString
         end ++ "/5" ++ newline
    else formatted_review in
  formatted_review ++ "Content: "
  ++ PyStr.take 300 (ProductReview.content review) ++ "...".

(** The body of the [try] block of [analyze_product_suitability]. *)
Definition ai_product (openai_api_key : string)
           (product : PetExpressScraper.Product)
           (reviews : list ProductReview.t) (dog_breed age : string)
  : result ProductRecommendation.t :=
  ai_analysis <-
    complete_product_json openai_api_key product reviews dog_breed age ;;
  let suitability_score :=
    match pa_suitability_score ai_analysis with
    | Some f => f
    | None => Fin 7
    end in
  let recommendation_reason :=
    match pa_recommendation_reason ai_analysis with
    | Some r => r
    | None => "AI-analyzed product for " ++ dog_breed ++ " " ++ age ++ "s."
    end in
  let key_benefits := pa_key_benefits ai_analysis in
  let cautions := pa_cautions ai_analysis in
  let formatted_reason := recommendation_reason in
  let formatted_reason :=
    match key_benefits with
    | [] => formatted_reason
    | _ => formatted_reason ++ newline ++ newline ++ "Key Benefits:"
           ++ newline
           ++ join_lines (map (fun benefit => "• " ++ benefit) key_benefits)
    end in
  let formatted_reason :=
    match cautions with
    | [] => formatted_reason
    | _ => formatted_reason ++ newline ++ newline ++ "Considerations:"
           ++ newline
           ++ join_lines (map (fun caution => "• " ++ caution) cautions)
    end in
  let structured_reviews := map structured_review reviews in
  ProductRecommendation.create
    (PetExpressScraper.product_id product)
    (PetExpressScraper.title product)
    (PetExpressScraper.url product) (PetExpressScraper.price product)
    (PetExpressScraper.image_url product)
    (firstn 3 structured_reviews) formatted_reason
    (min (Fin 10) suitability_score).

(** [RecommendationAgent.analyze_product_suitability]; [self_key] is
    [self.openai_api_key]. *)
Definition analyze_product_suitability (self_key : option string)
           (product : PetExpressScraper.Product)
           (reviews : list ProductReview.t) (dog_breed age : string)
           (api_key : option string) : result ProductRecommendation.t :=
  let openai_api_key := py_or api_key (py_or self_key env_openai_api_key) in
  let rule_based := rule_based_product product reviews dog_breed age in
  match openai_api_key with
  | Some k =>
      if PyStr.truthy k then
        try_catch (ai_product k product reviews dog_breed age)
                  (fun _ => rule_based)
      else rule_based
  | None => rule_based
  end.

End ProductAgent.

(** ** GroomerAgent *)

(** One dictionary returned by [search_petbacker_groomers]; [None] stands
    for an absent key. *)
Record ScrapedGroomer : Type := mkScrapedGroomer {
  sg_name : option string;
  sg_url : option string;
  sg_about : option string;
  sg_rating : option pyfloat;
  sg_reviews : option (list string);
  sg_services : option (list string);
  sg_location : option string;
  sg_contact_info : option string;
  sg_image_url : option string;
  sg_breed_compatibility : option pyfloat
}.

(** The dictionary that [analyze_groomer_suitability] receives; [None]
    stands for an absent key. *)
Record GroomerData : Type := mkGroomerData {
  gd_title : option string;
  gd_url : option string;
  gd_id : option string;
  gd_content : option string;
  gd_rating : option pyfloat;
  gd_reviews : option (list string);
  gd_services : option (list string);
  gd_location : option string;
  gd_contact_info : option string;
  gd_image_url : option string;
  gd_breed_compatibility : option pyfloat
}.

(** [d.get(key, default)] *)
Definition get {A} (v : option A) (default : A) : A :=
  match v with
  | Some a => a
  | None => default
  end.

Definition mock_groomer (dog_breed : string) : GroomerData :=
  mkGroomerData
    (Some ("Professional " ++ dog_breed ++ " Groomer"))
    (Some "https://www.petbacker.ph/s/dog-grooming/manila--metro-manila--philippines")
    None
    (Some ("We specialize in grooming " ++ dog_breed
           ++ " dogs with over 5 years of experience. Our services include bathing, haircuts, nail trimming, and more."))
    (Some (Fin (48 # 10)))
    (Some ["Great experience with my " ++ dog_breed ++ "!";
           "Very professional service"])
    (Some ["Full Grooming"; "Bathing"; "Nail Trimming"])
    (Some "Manila, Philippines")
    (Some "Contact via petbacker.ph")
    None
    (Some (Fin 8)).

(** The conversion loop of [search_for_groomers]. *)
Definition convert_groomer (location : string) (groomer : ScrapedGroomer)
  : GroomerData :=
  mkGroomerData
    (Some (get (sg_name groomer) "Unknown Groomer"))
    (Some (get (sg_url groomer) ""))
    None
    (Some (get (sg_about groomer) ""))
    (Some (get (sg_rating groomer) (Fin 0)))
    (Some (get (sg_reviews groomer) []))
    (Some (get (sg_services groomer) []))
    (Some (get (sg_location groomer) location))
    (Some (get (sg_contact_info groomer) "Contact via petbacker.ph"))
    (Some (get (sg_image_url groomer) ""))
    (Some (get (sg_breed_compatibility groomer) (Fin 7))).

(** [re.sub(r'[^a-zA-Z0-9]', '-', s.lower()).strip('-')] *)
Definition slug (s : string) : string :=
  PyStr.strip_dash (PyStr.sub_non_alnum (PyStr.lower s)).

Definition profile_patterns : list string :=
  ["/profile/"; "/philippines/grooming/"; "/ph/pet-sitter/"; "/pet-sitter/";
   "/groomer/"].

(** [is_profile_url] *)
Definition is_profile_url (url : string) : bool :=
  existsb (fun pattern => PyStr.contains pattern url) profile_patterns.

Definition slash_free (s : string) : bool :=
  PyStr.truthy s && negb (PyStr.contains "/" s).

(** A match of [/s/[^/]+/([^/]+)$] that starts at the first character of
    [s]: group 1.  The group is the whole last segment, because [[^/]]
    also matches a final newline. *)
Definition match_listing_at (s : string) : option string :=
  if PyStr.startswith "/s/" s then
    match PyStr.break_slash (PyStr.drop 3 s) with
    | (service, Some location) =>
        if PyStr.truthy service && slash_free location
        then Some location else None
    | (_, None) => None
    end
  else None.

(** [re.search(r'/s/[^/]+/([^/]+)$', url)]: group 1 of the leftmost
    match. *)
Fixpoint search_listing_location (url : string) : option string :=
  match match_listing_at url with
  | Some location => Some location
  | None =>
      match url with
      | EmptyString => None
      | String _ rest => search_listing_location rest
      end
  end.

(** The URL that [analyze_groomer_suitability] puts in its result. *)
Definition groomer_url (groomer_data : GroomerData) (dog_breed : string)
  : string :=
  let title := get (gd_title groomer_data) "Unknown Groomer" in
  let url := get (gd_url groomer_data) "" in
  if negb (PyStr.truthy url) then
    let formatted_location := "manila--metro-manila--philippines" in
    let breed_slug := slug dog_breed in
    "https://www.petbacker.ph/pet-sitter/" ++ breed_slug ++ "-specialist/"
    ++ formatted_location
  else
    if negb (is_profile_url url) then
      let groomer_id_str := get (gd_id groomer_data) "" in
      let title_slug := slug title in
      if PyStr.truthy groomer_id_str
         && negb (PyStr.contains "groomer-" groomer_id_str) then
        "https://www.petbacker.ph/profile/" ++ groomer_id_str
      else if PyStr.contains "/philippines/grooming/" url then url
      else if PyStr.contains "petbacker.ph/s/" url then
        let location :=
          match search_listing_location url with
          | Some l => l
          | None => "metro-manila--philippines"
          end in
        "https://www.petbacker.ph/philippines/grooming/" ++ location ++ "/"
        ++ title_slug
      else url
    else url.

Definition service_keywords : list (string * string) :=
  [("bath", "Bathing"); ("groom", "Full Grooming");
   ("haircut", "Haircut & Styling"); ("nail", "Nail Trimming");
   ("trim", "Trimming"); ("shampoo", "Specialized Shampoo Treatment");
   ("brush", "Brushing & De-shedding"); ("teeth", "Teeth Cleaning");
   ("ear", "Ear Cleaning")].

Definition extract_services (content : string) : list string :=
  fold_left (fun services kw =>
               if PyStr.contains (fst kw) (PyStr.lower content) then
                 if existsb (String.eqb (snd kw)) services then services
                 else (services ++ [snd kw])%list
               else services)
            service_keywords [].

Definition experience_indicators : list string :=
  ["experience"; "professional"; "certified"; "trained"; "specialist"].

(** The rule-based groomer score, accumulated from [start] and capped. *)
Definition groomer_rule_score (start : Q) (dog_breed title content : string)
  : Q :=
  let suitability_score := start in
  let suitability_score :=
    if PyStr.contains (PyStr.lower dog_breed) (PyStr.lower content)
       || PyStr.contains (PyStr.lower dog_breed) (PyStr.lower title)
    then (suitability_score + 5)%Q else suitability_score in
  let suitability_score :=
    fold_left (fun acc indicator =>
                 if PyStr.contains indicator (PyStr.lower content)
                 then (acc + 1)%Q else acc)
              experience_indicators suitability_score in
  qmin 10 suitability_score.

Definition groomer_reason (suitability_score : pyfloat) (dog_breed : string)
  : string :=
  if le (Fin 7) suitability_score then
    "Highly recommended groomer for " ++ dog_breed
    ++ " dogs with specialized experience."
  else if le (Fin 5) suitability_score then
    "Good groomer with some experience handling " ++ dog_breed ++ " dogs."
  else
    "General pet groomer that may be able to handle " ++ dog_breed ++ " dogs.".

Section GroomerAgent.

Variable env_openai_api_key : option string.

(** [scrapers.petbacker_scraper.search_petbacker_groomers]: its API tier
    and HTML tier reach the network; it returns a list or raises. *)
Variable search_petbacker_groomers :
  string -> string -> Z -> result (list ScrapedGroomer).

(** The language-model call of [analyze_groomer_suitability] with its
    [json.loads] and [float(...)]. *)
Variable complete_groomer_json :
  string -> string -> string -> list string -> string ->
  result GroomerAnalysis.

(** The three [re.search] calls that read the location, the rating and
    the contact out of the free text. *)
Variable search_location : string -> option string.
Variable search_rating : string -> option pyfloat.
Variable search_contact : string -> option string.

Local Open Scope exc_scope.

(** [GroomerAgent.search_for_groomers] *)
Definition search_for_groomers (dog_breed location : string)
           (max_results : Z) : result (list GroomerData) :=
  let attempt :=
    groomers <- search_petbacker_groomers dog_breed location max_results ;;
    Ok (map (convert_groomer location) groomers) in
  match attempt with
  | Ok (r :: results) => Ok (r :: results)
  | Ok [] | Raise _ => Ok [mock_groomer dog_breed]
  end.

(** The score and the reason computed by [analyze_groomer_suitability]. *)
Definition groomer_score (groomer_data : GroomerData) (dog_breed : string)
           (api_key : option string) : pyfloat * string :=
  let title := get (gd_title groomer_data) "Unknown Groomer" in
  let content := get (gd_content groomer_data) "" in
  let services := extract_services content in
  let openai_api_key := py_or api_key env_openai_api_key in
  let rule_based (start : Q) : pyfloat :=
    Fin (groomer_rule_score start dog_breed title content) in
  if truthy_key openai_api_key
     && match gd_breed_compatibility groomer_data with
        | None => true
        | Some _ => false
        end
  then
    match complete_groomer_json (get openai_api_key "") title content
                                services dog_breed with
    | Ok ai_analysis =>
        (get (ga_suitability_score ai_analysis) (Fin 7),
         get (ga_recommendation_reason ai_analysis)
             ("AI-analyzed groomer for " ++ dog_breed ++ " dogs."))
    | Raise _ =>
        let suitability_score := rule_based 0%Q in
        (suitability_score, groomer_reason suitability_score dog_breed)
    end
  else
    let suitability_score := get (gd_breed_compatibility groomer_data) (Fin 0) in
    let suitability_score :=
      if eq suitability_score (Fin 0) then
        match suitability_score with
        | Fin q => rule_based q
        | _ => suitability_score
        end
      else suitability_score in
    (suitability_score, groomer_reason suitability_score dog_breed).

(** [GroomerAgent.analyze_groomer_suitability] *)
Definition analyze_groomer_suitability (groomer_data : GroomerData)
           (dog_breed : string) (api_key : option string)
  : result GroomerRecommendation.t :=
  let title := get (gd_title groomer_data) "Unknown Groomer" in
  let url := groomer_url groomer_data dog_breed in
  let content := get (gd_content groomer_data) "" in
  let groomer_id := PyStr.strip_dash (PyStr.sub_non_alnum url) in
  let location := get (search_location content) "Philippines" in
  let services := extract_services content in
  let rating := search_rating content in
  let reviews := [content] in
  let image_url : option string := None in
  let contact_info := search_contact content in
  let (suitability_score, recommendation_reason) :=
    groomer_score groomer_data dog_breed api_key in
  GroomerRecommendation.create groomer_id title url location services
    rating reviews recommendation_reason suitability_score image_url
    contact_info.

End GroomerAgent.

(** ** get_product_recommendations *)

(** [l[:k]] for any integer [k]. *)
Definition slice_to {A} (k : Z) (l : list A) : list A :=
  if 0 <=? k then firstn (Z.to_nat k) l
  else firstn (Z.to_nat (Z.of_nat (List.length l) + k)) l.

Definition breed_specialist_url (dog_breed : string) : string :=
  "https://www.petbacker.ph/pet-sitter/" ++ slug dog_breed
  ++ "-specialist/manila--metro-manila--philippines".

Definition fallback_groomer (dog_breed : string)
  : result GroomerRecommendation.t :=
  GroomerRecommendation.create
    "fallback-groomer" (dog_breed ++ " Grooming Specialist")
    (breed_specialist_url dog_breed) "Philippines"
    ["Full Grooming"; "Bathing"; "Nail Trimming"] (Some (Fin (45 # 10)))
    ["Specializes in " ++ dog_breed ++ " grooming and care."]
    ("General pet groomer that may be able to handle " ++ dog_breed
     ++ " dogs.")
    (Fin (65 # 10)) None (Some "Contact via petbacker.ph").

Definition fallback_groomer_summary (dog_breed : string) : string :=
  "We found a groomer that may be suitable for your " ++ dog_breed
  ++ ". Please contact them directly for more specific information about their experience with your dog breed.".

Definition fallback_error_groomer (dog_breed : string)
  : result GroomerRecommendation.t :=
  GroomerRecommendation.create
    "fallback-error-groomer" (dog_breed ++ " Grooming Service")
    "https://www.petbacker.ph/s/dog-grooming/manila--metro-manila--philippines"
    "Philippines"
    ["Full Grooming"; "Bathing"; "Nail Trimming"] (Some (Fin 4))
    ["General grooming service that accepts all dog breeds."]
    ("General pet groomer that accepts all dog breeds including "
     ++ dog_breed ++ ".")
    (Fin 5) None (Some "Contact via petbacker.ph").

Section Pipeline.

Variable env_openai_api_key : option string.
Variable complete_product_json :
  string -> PetExpressScraper.Product -> list ProductReview.t ->
  string -> string -> result ProductAnalysis.
Variable float_str : pyfloat -> string.
Variable search_petbacker_groomers :
  string -> string -> Z -> result (list ScrapedGroomer).
Variable complete_groomer_json :
  string -> string -> string -> list string -> string ->
  result GroomerAnalysis.
Variable search_location : string -> option string.
Variable search_rating : string -> option pyfloat.
Variable search_contact : string -> option string.

(** [ReviewScraper(tavily_api_key).search_for_reviews(product_title,
    dog_breed, age, max_results)]: the reviews found, or an exception. *)
Variable search_for_reviews :
  option string -> string -> string -> string -> Z ->
  result (list ProductReview.t).

(** The two summary writers.  Both catch their own exceptions; [None] is
    a completion without text. *)
Variable generate_recommendations_summary :
  string -> string -> string -> list ProductRecommendation.t ->
  option string -> option string.
Variable generate_groomer_summary :
  string -> list GroomerRecommendation.t -> option string -> option string.

Local Open Scope exc_scope.

(** The loop over [products_to_process]: the recommendations in the order
    in which the products were analysed; a product whose analysis raises
    is left out. *)
Definition analyze_products (products_to_process : list PetExpressScraper.Product)
           (dog_breed age : string) (tavily_api_key openai_api_key : option string)
  : list ProductRecommendation.t :=
  fold_left
    (fun recommendations product =>
       let product_title := PetExpressScraper.title product in
       let product_reviews :=
         match search_for_reviews tavily_api_key product_title dog_breed
                                  age 5 with
         | Ok found => found
         | Raise _ => []
         end in
       match analyze_product_suitability env_openai_api_key
               complete_product_json float_str openai_api_key product
               product_reviews dog_breed age openai_api_key with
       | Ok recommendation => (recommendations ++ [recommendation])%list
       | Raise _ => recommendations
       end)
    products_to_process [].

(** The loop over [groomer_results]. *)
Definition analyze_groomers (groomer_results : list GroomerData)
           (dog_breed : string) (openai_api_key : option string)
  : list GroomerRecommendation.t :=
  fold_left
    (fun groomer_recommendations groomer_data =>
       match analyze_groomer_suitability env_openai_api_key
               complete_groomer_json search_location search_rating
               search_contact groomer_data dog_breed openai_api_key with
       | Ok groomer => (groomer_recommendations ++ [groomer])%list
       | Raise _ => groomer_recommendations
       end)
    groomer_results [].

(** The [if include_groomers:] block: the groomer list and its summary. *)
Definition groomer_block (dog_breed : string) (openai_api_key : option string)
  : result (list GroomerRecommendation.t * option string) :=
  try_catch
    (groomer_results <-
       search_for_groomers search_petbacker_groomers dog_breed
                           "Philippines" 3 ;;
     match groomer_results with
     | _ :: _ =>
         match analyze_groomers groomer_results dog_breed openai_api_key with
         | (_ :: _) as groomer_recommendations =>
             let groomer_recommendations :=
               PySorted.sorted_reverse
                 GroomerRecommendation.suitability_score
                 groomer_recommendations in
             Ok (groomer_recommendations,
                 generate_groomer_summary dog_breed groomer_recommendations
                                          openai_api_key)
         | [] =>
             fallback <- fallback_groomer dog_breed ;;
             Ok ([fallback], Some (fallback_groomer_summary dog_breed))
         end
     | [] =>
         fallback <- fallback_groomer dog_breed ;;
         Ok ([fallback], Some (fallback_groomer_summary dog_breed))
     end)
    (fun _ =>
       fallback <- fallback_error_groomer dog_breed ;;
       Ok ([fallback],
           Some ("We found a general grooming service that should be able to accommodate your "
                 ++ dog_breed ++ "."))).

Definition get_product_recommendations
           (products : list PetExpressScraper.Product)
           (query dog_breed age : string)
           (tavily_api_key openai_api_key : option string)
           (max_products : Z) (include_groomers : bool)
  : result RecommendationResponse.t :=
  let products_to_process :=
    slice_to (Z.min (Z.of_nat (List.length products)) max_products) products in
  let recommendations :=
    analyze_products products_to_process dog_breed age tavily_api_key
                     openai_api_key in
  let sorted_recommendations :=
    PySorted.sorted_reverse ProductRecommendation.suitability_score
                            recommendations in
  let summary :=
    generate_recommendations_summary query dog_breed age
                                     sorted_recommendations openai_api_key in
  groomers <-
    (if include_groomers then
       block <- groomer_block dog_breed openai_api_key ;;
       Ok (Some (fst block), snd block)
     else Ok (None, None)) ;;
  RecommendationResponse.create query dog_breed age sorted_recommendations
    (fst groomers) summary (snd groomers).

End Pipeline.

End RecommendationAgent.

(* ===================================================================== *)
(** * The specification's own formulas *)
(* ===================================================================== *)

Module Spec.

Import RecommendationAgent.

(** "Floor: if total < 2, clamp up to 2.  Ceiling: clamp to 10." *)
Definition clamp_2_10 (total : Q) : Q :=
  if PyFloat.Qlt_bool total 2 then 2%Q
  else if PyFloat.Qlt_bool 10 total then 10%Q
  else total.

(** "+5 if breed name appears in groomer name/description; +1 per matched
    experience keyword". *)
Definition groomer_bonus (dog_breed title content : string) : Q :=
  ((if PyStr.contains (PyStr.lower dog_breed) (PyStr.lower content)
       || PyStr.contains (PyStr.lower dog_breed) (PyStr.lower title)
    then 5 else 0)
   + inject_Z (Z.of_nat (List.length
       (filter (fun indicator =>
                  PyStr.contains indicator (PyStr.lower content))
               experience_indicators))))%Q.

(** "Given a listing-shaped URL, output is always profile-shaped ... never
    left as the original listing URL", for the groomers that
    [analyze_groomer_suitability] returns. *)
Definition listing_url_always_rewritten : Prop :=
  forall env_openai_api_key complete_groomer_json search_location
         search_rating search_contact groomer_data dog_breed api_key g,
    is_profile_url (get (gd_url groomer_data) "") = false ->
    analyze_groomer_suitability env_openai_api_key complete_groomer_json
      search_location search_rating search_contact groomer_data dog_breed
      api_key = Ok g ->
    is_profile_url (GroomerRecommendation.url g) = true
    /\ GroomerRecommendation.url g <> get (gd_url groomer_data) "".

End Spec.

(* ===================================================================== *)
(** * Sample inputs *)
(* ===================================================================== *)

Module Samples.

Import RecommendationAgent.

(** A transport that answers 503, then times out, then answers 404. *)
Definition flaky_then_404 (_ : string) (_ : unit) (k : nat)
  : HttpUtils.attempt :=
  match k with
  | O => HttpUtils.Responded (HttpUtils.mkResponse 503 "unavailable")
  | S O => HttpUtils.Failed ReadTimeout
  | _ => HttpUtils.Responded (HttpUtils.mkResponse 404 "not found")
  end.

Definition sample_card (href title : string) : PetExpressScraper.node :=
  PetExpressScraper.Tag "div" ["product-item"] []
    [PetExpressScraper.Tag "a" ["product-item__image-wrapper"]
       [("href", href)] [];
     PetExpressScraper.Tag "a" ["product-item__title"] []
       [PetExpressScraper.Text title]].

(** A page with four cards: a complete one, one without a link, one whose
    link makes [urljoin] raise, and a last complete one. *)
Definition sample_page (_ : string) : PetExpressScraper.node :=
  PetExpressScraper.Tag "html" [] []
    [sample_card "/products/kibble" " Kibble ";
     PetExpressScraper.Tag "div" ["product-item"] []
       [PetExpressScraper.Tag "span" ["price"] []
          [PetExpressScraper.Text "P100"]];
     sample_card "//[" "Broken";
     sample_card "/products/treats" "Treats"].

Definition sample_urljoin (base ref : string) : result string :=
  if PyStr.startswith "//" ref then Raise ValueError else Ok (base ++ ref).

Definition product (id title : string) : PetExpressScraper.Product :=
  PetExpressScraper.mkProduct (Some id) title
    ("https://www.petexpress.com.ph/products/" ++ id) None "P500" None
    false true.

Definition review (content : string) : ProductReview.t :=
  ProductReview.mk "p" "Review" "petnutritionreview.com" content
                   (Some (PyFloat.Fin (42 # 10))).

(** Reviews that earn every bonus of the rules for a bulldog puppy. *)
Definition bulldog_reviews : list ProductReview.t :=
  [review
     "My bulldog puppy loves it: joint and hip support, fresh breath, skin fine, no allergies. Bulldog owners with a young, growing bulldog agree."].

(** A language model that always fails. *)
Definition model_down {A B C D E F} (_ : A) (_ : B) (_ : C) (_ : D) (_ : E)
  : result F :=
  Raise (OtherError "APIConnectionError").

(** A language model that scores every product 12.5. *)
Definition model_overshoots (_ : string) (_ : PetExpressScraper.Product)
           (_ : list ProductReview.t) (_ _ : string)
  : result ProductAnalysis :=
  Ok (mkProductAnalysis (Some (PyFloat.Fin (125 # 10))) None
                        ["Joint support"] []).

(** A language model that scores every groomer 9. *)
Definition model_groomer_9 (_ _ _ : string) (_ : list string) (_ : string)
  : result GroomerAnalysis :=
  Ok (mkGroomerAnalysis (Some (PyFloat.Fin 9)) (Some "Breed specialist.")).

Definition no_float_str (_ : PyFloat.pyfloat) : string := "4.2".

Definition no_match {A} (_ : string) : option A := None.

(** A groomer as the fallback tier of [search_for_groomers] builds it,
    on the host of the specification's scenario C. *)
Definition scenario_c_groomer : GroomerData :=
  mkGroomerData (Some "Professional poodle Groomer")
    (Some "https://site/s/dog-grooming/manila--metro-manila--philippines")
    None (Some "We specialize in grooming poodle dogs.") None None None
    None None None (Some (PyFloat.Fin 8)).

(** A review search without results. *)
Definition no_reviews (_ : option string) (_ _ _ : string) (_ : Z)
  : result (list ProductReview.t) :=
  Ok [].

(** A PetBacker scraper that finds two groomers with the same seed. *)
Definition two_groomers (_ _ : string) (_ : Z)
  : result (list ScrapedGroomer) :=
  Ok [mkScrapedGroomer (Some "Anna") (Some "https://www.petbacker.ph/profile/1")
        (Some "") None None None None None None (Some (PyFloat.Fin 7));
      mkScrapedGroomer (Some "Ben") (Some "https://www.petbacker.ph/profile/2")
        (Some "") None None None None None None (Some (PyFloat.Fin 9));
      mkScrapedGroomer (Some "Cleo") (Some "https://www.petbacker.ph/profile/3")
        (Some "") None None None None None None (Some (PyFloat.Fin 7))].

Definition fixed_summary {A} (_ _ _ : string) (_ : list A) (_ : option string)
  : option string :=
  Some "summary".

Definition fixed_groomer_summary {A} (_ : string) (_ : list A)
           (_ : option string) : option string :=
  Some "groomer summary".

Definition three_products : list PetExpressScraper.Product :=
  [product "a" "Puppy Chow"; product "b" "Labrador Adult Formula";
   product "c" "Senior Mix"; product "d" "Adult Labrador Bites"].

(** A groomer dictionary without a [breed_compatibility] seed. *)
Definition unseeded_groomer : GroomerData :=
  mkGroomerData (Some "Poodle Parlor")
    (Some "https://www.petbacker.ph/profile/77") (Some "77")
    (Some "Certified professional groomers, trained with every poodle cut.")
    None None None None None None None.

End Samples.

(* ===================================================================== *)
(** * Vocabulary for the further properties *)
(* ===================================================================== *)

Module Text.

Definition first_char (s : string) : option ascii :=
  match s with
  | EmptyString => None
  | String c _ => Some c
  end.

Fixpoint last_char (s : string) : option ascii :=
  match s with
  | EmptyString => None
  | String c EmptyString => Some c
  | String _ s' => last_char s'
  end.

(** [s] neither starts nor ends with a character satisfying [p]. *)
Definition clean_ends (p : ascii -> bool) (s : string) : Prop :=
  (forall c, first_char s = Some c -> p c = false)
  /\ (forall c, last_char s = Some c -> p c = false).

(** Every character of [s] satisfies [p]. *)
Fixpoint all_chars (p : ascii -> bool) (s : string) : bool :=
  match s with
  | EmptyString => true
  | String c s' => p c && all_chars p s'
  end.

Definition is_lower_alnum (c : ascii) : bool :=
  let n := nat_of_ascii c in
  ((48 <=? n) && (n <=? 57) || (97 <=? n) && (n <=? 122))%nat.

Definition is_dash (c : ascii) : bool := Ascii.eqb "-"%char c.

(** The characters of a slug: lower-case letters, digits and dashes. *)
Definition slug_char (c : ascii) : bool := is_lower_alnum c || is_dash c.

(** The characters of a groomer identifier. *)
Definition id_char (c : ascii) : bool := PyStr.is_alnum c || is_dash c.

End Text.

(* ===================================================================== *)
(** * scrapers/pet_express_scraper.py: the fetching functions *)
(* ===================================================================== *)

Module PyList.

(** A slice bound as Python normalises it for a list of length [len]. *)
Definition bound (len : nat) (i : Z) : nat :=
  if i <? 0 then Z.to_nat (Z.max 0 (Z.of_nat len + i))
  else Nat.min (Z.to_nat i) len.

(** [l[a:b]] *)
Definition slice {A} (a b : Z) (l : list A) : list A :=
  let lo := bound (List.length l) a in
  let hi := bound (List.length l) b in
  firstn (hi - lo) (skipn lo l).

(** [s.split()]: the maximal runs of non-whitespace characters; [cur] is
    the run being read. *)
Fixpoint split_ws_from (cur s : string) : list string :=
  match s with
  | EmptyString => if PyStr.truthy cur then [cur] else []
  | String c s' =>
      if PyStr.is_space c then
        if PyStr.truthy cur then cur :: split_ws_from EmptyString s'
        else split_ws_from EmptyString s'
      else split_ws_from (cur ++ String c EmptyString) s'
  end.

Definition split_ws (s : string) : list string :=
  split_ws_from EmptyString s.

End PyList.

Module PetExpressFetch.

Import PetExpressScraper.

(** A product dictionary after [search_products] added its two keys. *)
Record SearchHit : Type := mkSearchHit {
  product : Product;
  search_query : string;
  relevance_score : Z
}.

(** The relevance score that [search_products] gives to a title. *)
Definition relevance (query title : string) : Z :=
  let relevance_score := 0 in
  if PyStr.truthy title
     && PyStr.contains (PyStr.lower query) (PyStr.lower title) then
    let title_words := PyList.split_ws (PyStr.lower title) in
    let query_words := PyList.split_ws (PyStr.lower query) in
    let relevance_score :=
      if existsb (fun qw => existsb (fun tw => String.eqb qw tw) title_words)
                 query_words
      then relevance_score + 10 else relevance_score in
    fold_left (fun relevance_score qw =>
                 if existsb (fun tw => PyStr.contains qw tw) title_words
                 then relevance_score + 5 else relevance_score)
              query_words relevance_score
  else relevance_score.

Definition by_relevance (hit : SearchHit) : Q :=
  inject_Z (relevance_score hit).

Section Fetch.

Variable parse_html : string -> node.
Variable urljoin : string -> string -> result string.

(** [urllib.parse.quote_plus] *)
Variable quote_plus : string -> string.

(** [await client.get(url)] on the client of [get_async_client]: a
    response, or an exception of the transport. *)
Variable client_get : string -> result HttpUtils.Response.

Local Open Scope exc_scope.

Definition search_url (query : string) : string :=
  BASE_URL ++ "/search?q=" ++ quote_plus query
  ++ "&type=product&options%5Bprefix%5D=last".

(** The search hits in ranking order, before pagination. *)
Definition ranked_hits (query : string) (products : list Product)
  : list SearchHit :=
  PySorted.sorted_reverse by_relevance
    (map (fun p => mkSearchHit p query (relevance query (title p)))
         products).

(** [search_products(query, page, limit)] *)
Definition search_products (query : string) (page limit : Z)
  : result (list SearchHit) :=
  if negb (PyStr.truthy query) then Raise ValueError
  else
    response <- client_get (search_url query) ;;
    if negb (HttpUtils.status_code response =? 200) then
      Raise (PlainException
               ("Failed to search products: HTTP "
                ++ PyStr.str_of_int (HttpUtils.status_code response)))
    else
      products <-
        extract_product_data parse_html urljoin (HttpUtils.text response) ;;
      let products := ranked_hits query products in
      let start_idx := (page - 1) * limit in
      let end_idx := start_idx + limit in
      let paginated_products :=
        PyList.slice start_idx
          (Z.min end_idx (Z.of_nat (List.length products))) products in
      Ok paginated_products.

Definition collection_url (category : option string) (page : Z) : string :=
  match category with
  | Some (String c rest) =>
      BASE_URL ++ "/collections/" ++ String c rest ++ "?page="
      ++ PyStr.str_of_int page
  | _ => BASE_URL ++ "/collections/all?page=" ++ PyStr.str_of_int page
  end.

(** [get_all_products(category, page, limit)] *)
Definition get_all_products (category : option string) (page limit : Z)
  : result (list Product) :=
  let url := collection_url category page in
  response <- client_get url ;;
  if negb (HttpUtils.status_code response =? 200) then
    Raise (PlainException
             ("Failed to fetch products: HTTP "
              ++ PyStr.str_of_int (HttpUtils.status_code response)))
  else
    products <-
      extract_product_data parse_html urljoin (HttpUtils.text response) ;;
    let start_idx := (page - 1) * limit in
    let end_idx := start_idx + limit in
    Ok (PyList.slice start_idx
          (Z.min end_idx (Z.of_nat (List.length products))) products).

End Fetch.

End PetExpressFetch.

(* ===================================================================== *)
(** * agents/recommendation_agent.py: ReviewScraper *)
(* ===================================================================== *)

Module ReviewScraper.

Import RecommendationAgent.

(** [\w]: the letters, the digits and the underscore.  Among the characters
    above U+007F these are the ordinal indicators U+00AA and U+00BA, the
    superscript digits U+00B2, U+00B3 and U+00B9, the micro sign U+00B5, the
    fractions U+00BC to U+00BE, and the letters U+00C0 to U+00FF without the
    multiplication sign U+00D7 and the division sign U+00F7. *)
Definition is_word (c : ascii) : bool :=
  let n := nat_of_ascii c in
  PyStr.is_alnum c || Ascii.eqb c "_"%char
  || ((n =? 170) || (n =? 178) || (n =? 179) || (n =? 181) || (n =? 185)
      || (n =? 186) || (188 <=? n) && (n <=? 190)
      || (192 <=? n) && negb (n =? 215) && negb (n =? 247))%nat.

(** The characters whose upper-case form is one character of the model:
    [a] to [z] and the small letters U+00E0 to U+00FE without the division
    sign U+00F7; each lies 32 above its upper-case form. *)
Definition is_lower (c : ascii) : bool :=
  let n := nat_of_ascii c in
  ((97 <=? n) && (n <=? 122)
   || (224 <=? n) && (n <=? 254) && negb (n =? 247))%nat.

(** The title-case form of a first character.  That of the sharp s U+00DF
    is two characters; those of the micro sign U+00B5 and of U+00FF lie
    above U+00FF and have no character in the model, which keeps both. *)
Definition title_char (c : ascii) : string :=
  if is_lower c then String (ascii_of_nat (nat_of_ascii c - 32)) EmptyString
  else if (nat_of_ascii c =? 223)%nat then "Ss"
  else String c EmptyString.

(** [s.capitalize()] *)
Definition capitalize (s : string) : string :=
  match s with
  | EmptyString => EmptyString
  | String c rest => title_char c ++ PyStr.lower rest
  end.

(** [s.replace(' ', '-')] *)
Definition spaces_to_dashes (s : string) : string :=
  PyStr.map_chars (fun c => if Ascii.eqb c " "%char then "-"%char else c) s.

(** The number of characters up to and including the first [")"], when
    one comes before any newline: what [\(.*?\)] matches after a ["("]. *)
Fixpoint close_offset (s : string) : option nat :=
  match s with
  | EmptyString => None
  | String c s' =>
      if Ascii.eqb c ")"%char then Some 1%nat
      else if Ascii.eqb c (ascii_of_nat 10) then None
      else option_map S (close_offset s')
  end.

(** [re.sub(r'\(.*?\)', '', s)]; [skip] counts the characters of the
    current match that remain to be removed. *)
Fixpoint remove_parenthesised (skip : nat) (s : string) : string :=
  match s with
  | EmptyString => EmptyString
  | String c s' =>
      match skip with
      | S k => remove_parenthesised k s'
      | O =>
          if Ascii.eqb c "("%char then
            match close_offset s' with
            | Some n => remove_parenthesised n s'
            | None => String c (remove_parenthesised O s')
            end
          else String c (remove_parenthesised O s')
      end
  end.

(** [re.sub(r'[^\w\s]', ' ', s)] *)
Definition blank_punctuation (s : string) : string :=
  PyStr.map_chars
    (fun c => if is_word c || PyStr.is_space c then c else " "%char) s.

Definition clean_title (product_title : string) : string :=
  let clean_title := PyStr.strip (remove_parenthesised O product_title) in
  PyStr.strip (blank_punctuation clean_title).

(** [_get_breed_nutritional_needs] *)
Definition get_breed_nutritional_needs (breed : string) : string :=
  let b := PyStr.lower breed in
  if String.eqb b "german shepherd" then
    "higher protein for muscle maintenance and joint support ingredients."
  else if String.eqb b "labrador" then
    "balanced nutrition with weight management formulas as they tend to gain weight easily."
  else if String.eqb b "bulldog" then
    "foods that support joint health and are easy to digest due to their sensitive stomachs."
  else if String.eqb b "poodle" then
    "high-quality proteins and ingredients for coat health and energy needs."
  else if String.eqb b "shih tzu" then
    "easily digestible ingredients and smaller kibble size appropriate for their mouth size."
  else if String.eqb b "golden retriever" then
    "formulas that support coat health and joint function as they age."
  else if String.eqb b "beagle" then
    "portion-controlled nutrition as they can be prone to obesity."
  else if String.eqb b "chihuahua" then
    "calorie-dense nutrition in small kibble sizes appropriate for their tiny mouths."
  else if String.eqb b "boxer" then
    "high-protein diets that support their muscular build and active lifestyle."
  else if String.eqb b "dachshund" then
    "weight management formulas to prevent excess weight that can strain their backs."
  else
    "a balanced diet with quality proteins and appropriate vitamins and minerals.".

(** [_get_age_specific_advice] *)
Definition get_age_specific_advice (breed age : string) : string :=
  if String.eqb (PyStr.lower age) "puppy" then
    "puppies need higher protein and calcium levels for growth, and this food provides appropriate levels for healthy development."
  else if existsb (String.eqb (PyStr.lower breed))
                  ["german shepherd"; "labrador"; "golden retriever";
                   "bulldog"] then
    "adult large breeds need joint support, which this food appears to provide through glucosamine and chondroitin content."
  else if existsb (String.eqb (PyStr.lower breed))
                  ["shih tzu"; "chihuahua"; "dachshund"] then
    "adult small breeds need calorie-dense nutrition to support their higher metabolism, which this food offers."
  else
    "adult dogs need balanced nutrition to maintain health and prevent obesity, which this food seems to provide.".

Definition rating (tenths : Z) : option PyFloat.pyfloat :=
  Some (PyFloat.Fin (tenths # 10)).

(** The reviews made up when there is no Tavily key, before the cut to
    [max_results]. *)
Definition mock_reviews (product_title dog_breed age : string)
  : list ProductReview.t :=
  let clean_title := clean_title product_title in
  let product_id := spaces_to_dashes (PyStr.lower clean_title) in
  let mock_reviews :=
    [ProductReview.mk product_id ("Review: " ++ clean_title)
       "petnutritionreview.com"
       ("This dog food product contains high-quality ingredients suitable for most dogs. "
        ++ "It has a good balance of proteins, fats, and carbohydrates needed for daily nutrition. "
        ++ (if PyStr.truthy dog_breed then
              "Many " ++ dog_breed
              ++ " owners have reported positive results with this food. "
            else "")
        ++ (if PyStr.truthy age then
              "The kibble size and texture is appropriate for " ++ age
              ++ " dogs. "
            else "")
        ++ "Overall, it's a quality product with good nutrition value.")
       (rating 42);
     ProductReview.mk product_id ("Ingredients Analysis: " ++ clean_title)
       "dogfoodanalyst.com"
       ("The main ingredients in this food appear to be high-quality protein sources followed by whole grains or vegetables. "
        ++ "It contains essential vitamins and minerals for complete nutrition. "
        ++ "The protein content is appropriate for maintaining muscle mass. "
        ++ (if PyStr.truthy dog_breed then
              "There are no obvious ingredients that would be problematic for most "
              ++ dog_breed ++ "s. "
            else "")
        ++ (if PyStr.truthy age then
              "The calorie content is appropriate for " ++ age ++ " dogs. "
            else ""))
       (rating 39)] in
  let mock_reviews :=
    if PyStr.truthy dog_breed then
      (mock_reviews ++
       [ProductReview.mk product_id
          (dog_breed ++ " Owner Experience with " ++ clean_title)
          "breedspecificpetfoods.com"
          ("As a " ++ dog_breed
           ++ " owner, I found this food worked well for my dog's specific needs. "
           ++ dog_breed ++ "s often need "
           ++ get_breed_nutritional_needs dog_breed ++ " "
           ++ "This food seems to address these needs reasonably well. "
           ++ (if PyStr.truthy age then
                 "My " ++ age ++ " " ++ dog_breed
                 ++ " had good energy levels and digestion while on this food. "
               else "")
           ++ "I would recommend trying this for your " ++ dog_breed
           ++ ", but always monitor for individual reactions.")
          (rating 40)])%list
    else mock_reviews in
  if PyStr.truthy age then
    (mock_reviews ++
     [ProductReview.mk product_id
        ("Is " ++ clean_title ++ " Good for " ++ capitalize age ++ " Dogs?")
        "dogagenutrition.net"
        ("This food contains appropriate nutrition levels for " ++ age
         ++ " dogs. "
         ++ (if PyStr.truthy dog_breed then
               "For " ++ age ++ " " ++ dog_breed
               ++ "s, it's important to note that "
               ++ get_age_specific_advice dog_breed age
             else
               "For " ++ age
               ++ " dogs in general, this food provides good nutrition. ")
         ++ "The protein and fat ratios seem well-balanced for " ++ age
         ++ " dogs' needs. "
         ++ "I've seen good results with " ++ age
         ++ " dogs on this food, with healthy coats and appropriate energy levels.")
        (rating 41)])%list
  else mock_reviews.

Section Search.

(** The Tavily branch of [search_for_reviews]: web searches and the
    reading of their results. *)
Variable tavily_reviews :
  string -> string -> string -> string -> Z -> result (list ProductReview.t).

(** [ReviewScraper(tavily_api_key).search_for_reviews(product_title,
    dog_breed, age, max_results)] *)
Definition search_for_reviews (tavily_api_key : option string)
           (product_title dog_breed age : string) (max_results : Z)
  : result (list ProductReview.t) :=
  match tavily_api_key with
  | Some (String c key) =>
      tavily_reviews (String c key) product_title dog_breed age max_results
  | _ => Ok (slice_to max_results (mock_reviews product_title dog_breed age))
  end.

End Search.

(** [s] holds at least [k] occurrences of [p] that do not overlap. *)
Inductive occurs (p : string) : nat -> string -> Prop :=
| occurs_0 s : occurs p 0 s
| occurs_S k x y : occurs p k y -> occurs p (S k) (x ++ p ++ y).

End ReviewScraper.

(* ===================================================================== *)
(** * scrapers/pet_express_scraper.py: the product page *)
(* ===================================================================== *)

Module PetExpressDetails.

Import PetExpressScraper.

(** One step of a selector: [name] or [name.class]. *)
Definition compound : Type := (string * option string)%type.

Definition matches_compound (sel : compound) (n : node) : bool :=
  match n with
  | Text _ => false
  | Tag name classes _ _ =>
      String.eqb name (fst sel)
      && match snd sel with
         | Some c => existsb (String.eqb c) classes
         | None => true
         end
  end.

(** The ancestors still to be found once [n] has been passed. *)
Definition advance (pending : list compound) (n : node) : list compound :=
  match pending with
  | sel :: rest => if matches_compound sel n then rest else pending
  | [] => []
  end.

(** [n.select('a b ... last')] with descendant combinators: the nodes
    below [n], in document order, that match [last] and lie below nodes
    matching the ancestor steps in their order.  [pending] lists the
    ancestor steps not yet found on the way down. *)
Fixpoint select_below (pending : list compound) (last : compound) (n : node)
  : list node :=
  match n with
  | Text _ => []
  | Tag _ _ _ children =>
      flat_map
        (fun c =>
           ((match pending with
             | [] => if matches_compound last c then [c] else []
             | _ :: _ => []
             end)
            ++ select_below (advance pending c) last c)%list)
        children
  end.

(** [d[k] = v] on a dict kept as the list of its items in insertion
    order. *)
Fixpoint dict_set (k v : string) (d : list (string * string))
  : list (string * string) :=
  match d with
  | [] => [(k, v)]
  | (k', v') :: d' =>
      if String.eqb k k' then (k', v) :: d' else (k', v') :: dict_set k v d'
  end.

(** The dictionary that [extract_product_details] returns when its [try]
    block runs to the end. *)
Record ProductDetails : Type := mkProductDetails {
  title : string;
  description : option string;
  price : string;
  compare_price : option string;
  on_sale : bool;
  images : list string;
  in_stock : bool;
  variants : list string;
  specifications : list (string * string)
}.

(** The [for img in image_elems] loop. *)
Definition collect_images (image_elems : list node) : list string :=
  fold_left
    (fun images img =>
       let img_url := get img "data-zoom" (get img "src" "") in
       if PyStr.truthy img_url then
         let img_url :=
           if PyStr.startswith "//" img_url then "https:" ++ img_url
           else img_url in
         (images ++ [img_url])%list
       else images)
    image_elems [].

(** The [for variant in variant_elems] loop. *)
Definition collect_variants (variant_elems : list node) : list string :=
  fold_left
    (fun variants variant =>
       let variant_name :=
         match select_one ("div", "block-swatch__item-text") variant with
         | Some e => Some (PyStr.strip (text e))
         | None => None
         end in
       match variant_name with
       | Some (String c rest) => (variants ++ [String c rest])%list
       | _ => variants
       end)
    variant_elems [].

(** The [for row in specs_table] loop. *)
Definition collect_specs (specs_table : list node)
  : list (string * string) :=
  fold_left
    (fun specs row =>
       let cells := select_below [] ("td", None) row in
       match cells with
       | [cell0; cell1] =>
           let key := PyStr.strip (text cell0) in
           let value := PyStr.strip (text cell1) in
           dict_set key value specs
       | _ => specs
       end)
    specs_table [].

Section Details.

Variable parse_html : string -> node.

(** [client.get(url)] *)
Variable client_get : string -> result HttpUtils.Response.

Local Open Scope exc_scope.

(** [extract_product_details(html_content)]; no step of its [try] block
    raises on a parse tree. *)
Definition extract_product_details (html_content : string)
  : ProductDetails :=
  let soup := parse_html html_content in
  let title :=
    match select_one ("h1", "product-meta__title") soup with
    | Some e => PyStr.strip (text e)
    | None => "Unknown Title"
    end in
  let description_elem :=
    select_one ("div", "product-meta__description-content") soup in
  let description :=
    match description_elem with
    | Some e => Some (PyStr.strip (text e))
    | None => None
    end in
  let price_elem := select_one ("span", "product-meta__price") soup in
  let price :=
    match price_elem with
    | Some e => PyStr.strip (text e)
    | None => "Price not available"
    end in
  let compare_price_elem :=
    select_one ("span", "product-meta__price--compare") soup in
  let compare_price :=
    match compare_price_elem with
    | Some e => Some (PyStr.strip (text e))
    | None => None
    end in
  let on_sale :=
    match compare_price_elem with Some _ => true | None => false end in
  let image_elems :=
    select_below [("div", Some "product-gallery__carousel-item")]
                 ("img", None) soup in
  let images := collect_images image_elems in
  let sold_out_elem :=
    select_one ("span", "product-form__inventory--sold-out") soup in
  let in_stock :=
    negb (match sold_out_elem with Some _ => true | None => false end) in
  let variant_elems := select ("div", "block-swatch") soup in
  let variants := collect_variants variant_elems in
  let specs_table :=
    select_below [("div", Some "product-meta__table"); ("table", None)]
                 ("tr", None) soup in
  let specs := collect_specs specs_table in
  mkProductDetails title description price compare_price on_sale images
                   in_stock variants specs.

(** [get_product_details(product_id)]; [None] is the [return None] of a
    404 answer. *)
Definition get_product_details (product_id : string)
  : result (option ProductDetails) :=
  let url := BASE_URL ++ "/products/" ++ product_id in
  response <- client_get url ;;
  if HttpUtils.status_code response =? 404 then Ok None
  else if negb (HttpUtils.status_code response =? 200) then
    Raise (PlainException
             ("Failed to fetch product details: HTTP "
              ++ PyStr.str_of_int (HttpUtils.status_code response)))
  else Ok (Some (extract_product_details (HttpUtils.text response))).

End Details.

End PetExpressDetails.

(* ===================================================================== *)
(** * api/routes.py *)
(* ===================================================================== *)

Module Routes.

Import PetExpressScraper RecommendationAgent.

(** What a handler gives back: the dictionary it returns, or the
    [HTTPException] it raises. *)
Inductive reply (A : Type) : Type :=
| Body (a : A)
| HTTPException (status_code : Z) (detail : string).
Arguments Body {A} a.
Arguments HTTPException {A} status_code detail.

Record SearchBody : Type := mkSearchBody {
  sb_success : bool;
  sb_query : string;
  sb_count : nat;
  sb_page : Z;
  sb_limit : Z;
  sb_data : list PetExpressFetch.SearchHit
}.

(** The groomer keys of the [/recommend] body. *)
Record GroomerPart : Type := mkGroomerPart {
  groomer_count : nat;
  groomer_recommendations : list GroomerRecommendation.t;
  groomer_summary : string
}.

Record RecommendBody : Type := mkRecommendBody {
  rb_success : bool;
  rb_query : string;
  rb_dog_breed : string;
  rb_age : string;
  rb_count : nat;
  rb_recommendations : list ProductRecommendation.t;
  rb_summary : string;
  rb_groomers : option GroomerPart
}.

Record ProductsBody : Type := mkProductsBody {
  pb_success : bool;
  pb_count : nat;
  pb_page : Z;
  pb_limit : Z;
  pb_data : list Product
}.

Record ProductBody : Type := mkProductBody {
  db_success : bool;
  db_data : PetExpressDetails.ProductDetails
}.

Section Handlers.

Variable parse_html : string -> node.
Variable urljoin : string -> string -> result string.
Variable quote_plus : string -> string.
Variable client_get : string -> result HttpUtils.Response.

(** [os.getenv("TAVILY_API_KEY")] and [os.getenv("OPENAI_API_KEY")] *)
Variable env_tavily_api_key : option string.
Variable env_openai_api_key : option string.

Variable complete_product_json :
  string -> Product -> list ProductReview.t ->
  string -> string -> result ProductAnalysis.
Variable float_str : PyFloat.pyfloat -> string.
Variable search_petbacker_groomers :
  string -> string -> Z -> result (list ScrapedGroomer).
Variable complete_groomer_json :
  string -> string -> string -> list string -> string ->
  result GroomerAnalysis.
Variable search_location : string -> option string.
Variable search_rating : string -> option PyFloat.pyfloat.
Variable search_contact : string -> option string.
Variable tavily_reviews :
  string -> string -> string -> string -> Z -> result (list ProductReview.t).
Variable generate_recommendations_summary :
  string -> string -> string -> list ProductRecommendation.t ->
  option string -> option string.
Variable generate_groomer_summary :
  string -> list GroomerRecommendation.t -> option string -> option string.

(** [str(e)] for the exceptions whose text the model does not carry. *)
Variable exception_text : exn -> string.

(** Whether the class named by an [OtherError] derives from
    [ValueError]. *)
Variable other_is_value_error : string -> bool.

(** [str(e)] *)
Definition str (e : exn) : string :=
  match e with
  | PlainException msg => msg
  | _ => exception_text e
  end.

(** [isinstance(e, ValueError)]; pydantic's [ValidationError] derives
    from [ValueError], httpx's exceptions and [Exception] itself do
    not. *)
Definition is_value_error (e : exn) : bool :=
  match e with
  | ValueError | ValidationError => true
  | OtherError name => other_is_value_error name
  | ConnectError | ReadTimeout | ConnectTimeout | PlainException _ => false
  end.

(** [except ValueError: 400] followed by [except Exception: 500]. *)
Definition value_error_or_500 {A} (e : exn) : reply A :=
  if is_value_error e then HTTPException 400 (str e)
  else HTTPException 500 (str e).

(** [GET /search] *)
Definition search (query : string) (page limit : Z) : reply SearchBody :=
  match PetExpressFetch.search_products parse_html urljoin quote_plus
          client_get query page limit with
  | Ok products =>
      Body (mkSearchBody true query (List.length products) page limit
                         products)
  | Raise e => value_error_or_500 e
  end.

(** [GET /recommend] *)
Definition recommend (query dog_breed age : string)
           (page limit max_recommendations : Z) (include_groomers : bool)
  : reply RecommendBody :=
  match PetExpressFetch.search_products parse_html urljoin quote_plus
          client_get query page limit with
  | Raise e => value_error_or_500 e
  | Ok [] =>
      Body (mkRecommendBody true query dog_breed age 0 []
              ("No products found for search term '" ++ query ++ "'")
              None)
  | Ok products =>
      let tavily_api_key := env_tavily_api_key in
      let openai_api_key := env_openai_api_key in
      match get_product_recommendations env_openai_api_key
              complete_product_json float_str search_petbacker_groomers
              complete_groomer_json search_location search_rating
              search_contact
              (ReviewScraper.search_for_reviews tavily_reviews)
              generate_recommendations_summary generate_groomer_summary
              (map PetExpressFetch.product products) query dog_breed age
              tavily_api_key openai_api_key max_recommendations
              include_groomers with
      | Raise e => value_error_or_500 e
      | Ok recommendations =>
          let groomers :=
            if include_groomers then
              match RecommendationResponse.groomer_recommendations
                      recommendations with
              | Some ((_ :: _) as found) =>
                  Some (mkGroomerPart
                          (List.length found) found
                          match RecommendationResponse.groomer_summary
                                  recommendations with
                          | Some (String c text) => String c text
                          | _ => ""
                          end)
              | _ => None
              end
            else None in
          Body (mkRecommendBody true query dog_breed age
                  (List.length
                     (RecommendationResponse.recommendations recommendations))
                  (RecommendationResponse.recommendations recommendations)
                  (RecommendationResponse.summary recommendations)
                  groomers)
      end
  end.

(** [GET /products] *)
Definition get_products (category : option string) (page limit : Z)
  : reply ProductsBody :=
  match PetExpressFetch.get_all_products parse_html urljoin client_get
          category page limit with
  | Ok products =>
      Body (mkProductsBody true (List.length products) page limit products)
  | Raise e => HTTPException 500 (str e)
  end.

(** [GET /product/{product_id}]; the dictionary of a product page always
    has keys, so only [None] is falsy. *)
Definition get_product (product_id : string) : reply ProductBody :=
  match PetExpressDetails.get_product_details parse_html client_get
          product_id with
  | Ok None => HTTPException 404 "Product not found"
  | Ok (Some product) => Body (mkProductBody true product)
  | Raise e => HTTPException 500 (str e)
  end.

End Handlers.

End Routes.

(* ===================================================================== *)
(** * agents/recommendation_agent.py: the product summary *)
(* ===================================================================== *)

Module RecommendationSummary.

Import RecommendationAgent.

Section Writer.

(** [os.environ.get("OPENAI_API_KEY")] *)
Variable env_openai_api_key : option string.

(** The [try] block of the AI summary: the prompt built from the
    recommendations, the completion and its [message.content], which the
    client types as optional; or the exception raised on the way. *)
Variable complete_summary :
  string -> string -> string -> string -> list ProductRecommendation.t ->
  result (option string).

(** [f"{x:.1f}"] *)
Variable format_score : Q -> string.

(** The template-based summary. *)
Definition template_summary (query dog_breed age : string)
           (recommendations : list ProductRecommendation.t) : string :=
  let sorted_recommendations :=
    PySorted.sorted_reverse ProductRecommendation.suitability_score
                            recommendations in
  match sorted_recommendations with
  | top_recommendation :: _ =>
      let summary :=
        "Based on your search for '" ++ query ++ "' for your " ++ dog_breed
        ++ " " ++ age ++ ", " in
      let summary :=
        summary ++ "we highly recommend "
        ++ ProductRecommendation.title top_recommendation ++ " " in
      let summary :=
        summary ++ "(Suitability Score: "
        ++ format_score
             (ProductRecommendation.suitability_score top_recommendation)
        ++ "/10). " in
      let summary :=
        summary ++ newline ++ newline
        ++ ProductRecommendation.recommendation_reason top_recommendation in
      if (1 <? List.length sorted_recommendations)%nat then
        let summary :=
          summary ++ newline ++ newline ++ "We've also found "
          ++ PyStr.str_of_int
               (Z.of_nat (List.length sorted_recommendations) - 1)
          ++ " other products " in
        summary ++ "that might be suitable for your " ++ dog_breed ++ " "
        ++ age ++ "."
      else summary
  | [] =>
      let summary :=
        "We analyzed products for your " ++ dog_breed ++ " " ++ age
        ++ " based on your search for '" ++ query ++ "', " in
      let summary :=
        summary ++ "but couldn't find highly specific recommendations. " in
      summary
      ++ "The listed products may still be suitable, but you might want to consult with a vet or pet nutritionist."
  end.

(** [RecommendationAgent.generate_recommendations_summary]; [self_key] is
    [self.openai_api_key]. *)
Definition generate_recommendations_summary (self_key : option string)
           (query dog_breed age : string)
           (recommendations : list ProductRecommendation.t)
           (api_key : option string) : option string :=
  match recommendations with
  | [] =>
      Some ("No suitable products found for " ++ dog_breed ++ " " ++ age
            ++ "s based on your search for '" ++ query ++ "'.")
  | _ :: _ =>
      let openai_api_key :=
        py_or api_key (py_or self_key env_openai_api_key) in
      let template :=
        template_summary query dog_breed age recommendations in
      match openai_api_key with
      | Some k =>
          if PyStr.truthy k then
            match complete_summary k query dog_breed age recommendations with
            | Ok content => content
            | Raise _ => Some template
            end
          else Some template
      | None => Some template
      end
  end.

(** The summary writer as [get_product_recommendations] calls it: on the
    agent made with [openai_api_key], with [api_key=openai_api_key]. *)
Definition summary_of_agent (query dog_breed age : string)
           (recommendations : list ProductRecommendation.t)
           (openai_api_key : option string) : option string :=
  generate_recommendations_summary openai_api_key query dog_breed age
                                   recommendations openai_api_key.

End Writer.

End RecommendationSummary.

(* ===================================================================== *)
(** * Further sample inputs *)
(* ===================================================================== *)

Module MoreSamples.

Import RecommendationAgent.

(** A transport that always answers 503. *)
Definition always_503 (_ : string) (_ : unit) (_ : nat) : HttpUtils.attempt :=
  HttpUtils.Responded (HttpUtils.mkResponse 503 "unavailable").

(** A transport that times out once and then fails the TLS handshake. *)
Definition timeout_then_tls_error (_ : string) (_ : unit) (k : nat)
  : HttpUtils.attempt :=
  match k with
  | O => HttpUtils.Failed ReadTimeout
  | _ => HttpUtils.Failed (OtherError "SSLError")
  end.

(** A shop that answers every address with the same page. *)
Definition shop (_ : string) : result HttpUtils.Response :=
  Ok (HttpUtils.mkResponse 200 "<html>").

Definition plain_query (query : string) : string := query.

(** The first product of [Samples.sample_page]. *)
Definition kibble : PetExpressScraper.Product :=
  PetExpressScraper.mkProduct (Some "kibble") "Kibble"
    "https://www.petexpress.com.ph/products/kibble" None
    "Price not available" None false true.

Definition broken_card : PetExpressScraper.node :=
  Samples.sample_card "//[" "Broken".

(** The no-break space U+00A0 and the letters U+00C9 and U+00E9. *)
Definition nbsp : string := String (ascii_of_nat 160) EmptyString.
Definition capital_e_acute : string := String (ascii_of_nat 201) EmptyString.
Definition e_acute : string := String (ascii_of_nat 233) EmptyString.

(** A page whose only card has a title wrapped in no-break spaces. *)
Definition nbsp_page (_ : string) : PetExpressScraper.node :=
  PetExpressScraper.Tag "html" [] []
    [Samples.sample_card "/products/kibble" (nbsp ++ "Kibble" ++ nbsp)].

(** A swatch whose name is wrapped in no-break spaces. *)
Definition nbsp_swatch : PetExpressScraper.node :=
  PetExpressScraper.Tag "div" ["block-swatch"] []
    [PetExpressScraper.Tag "div" ["block-swatch__item-text"] []
       [PetExpressScraper.Text (nbsp ++ "2 kg" ++ nbsp)]].

(** What [search_for_groomers] makes of [Samples.two_groomers]. *)
Definition found_groomers : list GroomerData :=
  match search_for_groomers Samples.two_groomers "poodle" "Philippines" 3 with
  | Ok results => results
  | Raise _ => []
  end.

Definition first_found_groomer : GroomerData :=
  hd (mock_groomer "poodle") found_groomers.

(** A PetBacker scraper that finds nothing. *)
Definition no_groomers (_ _ : string) (_ : Z)
  : result (list ScrapedGroomer) :=
  Ok [].

(** A Tavily branch that is never to be taken. *)
Definition tavily_down (_ _ _ _ : string) (_ : Z)
  : result (list ProductReview.t) :=
  Raise (OtherError "TavilyError").

Definition no_text (_ : exn) : string := "".

(** A completion whose message has no content. *)
Definition completion_without_text (_ _ _ _ : string)
           (_ : list ProductRecommendation.t) : result (option string) :=
  Ok None.

Definition one_decimal (_ : Q) : string := "10.0".

(** The hits of the shop's page for the query "treats". *)
Definition treat_hits : list PetExpressFetch.SearchHit :=
  match PetExpressFetch.search_products Samples.sample_page
          Samples.sample_urljoin plain_query shop "treats" 1 10 with
  | Ok hits => hits
  | Raise _ => []
  end.

Definition never_value_error (_ : string) : bool := false.

End MoreSamples.

(* ===================================================================== *)
(** * Concrete runs of the model *)
(* ===================================================================== *)

Example count_without_overlap : PyStr.count "aa" "aaaaa" = 2%nat.
Proof. reflexivity. Qed.

Example count_empty_pattern : PyStr.count "" "abc" = 4%nat.
Proof. reflexivity. Qed.

Example split_product_url :
  PyStr.split "products/" "https://www.petexpress.com.ph/products/kibble"
  = ["https://www.petexpress.com.ph/"; "kibble"].
Proof. reflexivity. Qed.

Example slug_of_breed : RecommendationAgent.slug "Shih Tzu!" = "shih-tzu".
Proof. reflexivity. Qed.

Example str_of_default_retries :
  PyStr.str_of_int HttpUtils.default_max_retries = "3".
Proof. reflexivity. Qed.

Example listing_location_found :
  RecommendationAgent.search_listing_location
    "https://www.petbacker.ph/s/dog-grooming/manila--metro-manila--philippines"
  = Some "manila--metro-manila--philippines".
Proof. reflexivity. Qed.

Example listing_location_not_last_segment :
  RecommendationAgent.search_listing_location
    "https://www.petbacker.ph/s/dog-grooming/manila/makati" = None.
Proof. reflexivity. Qed.

Example sorted_reverse_keeps_ties :
  PySorted.sorted_reverse (fun x : Q * string => fst x)
    [(1%Q, "a"); (3%Q, "b"); (1%Q, "c"); (3%Q, "d"); (2%Q, "e")]
  = [(3%Q, "b"); (3%Q, "d"); (2%Q, "e"); (1%Q, "a"); (1%Q, "c")].
Proof. reflexivity. Qed.

(** A rule total above 10: every bonus at its cap. *)
Example bulldog_total_is_capped :
  let reviews :=
    [Samples.review
       "My bulldog puppy loves it: joint and hip support, fresh breath, skin fine, no allergies. Bulldog owners with a young, growing bulldog agree."] in
  RecommendationAgent.rule_total "Bulldog Puppy Food" reviews "Bulldog" "puppy"
  = 12%Q
  /\ PyFloat.min (PyFloat.Fin 10)
       (PyFloat.Fin (RecommendationAgent.floor_score
          (RecommendationAgent.rule_total "Bulldog Puppy Food" reviews
                                          "Bulldog" "puppy")))
     = PyFloat.Fin 10.
Proof. split; vm_compute; reflexivity. Qed.

(** A language-model score below zero fails validation inside the [try]
    block, and the rule-based result is returned. *)
Example negative_ai_score_falls_back :
  let model (_ : string) (_ : PetExpressScraper.Product)
            (_ : list RecommendationAgent.ProductReview.t) (_ _ : string) :=
    Ok (RecommendationAgent.mkProductAnalysis
          (Some (PyFloat.Fin (-3))) None [] []) in
  option_map RecommendationAgent.ProductRecommendation.suitability_score
    (match RecommendationAgent.analyze_product_suitability None model
             Samples.no_float_str None
             (Samples.product "b" "Labrador Adult Formula") [] "Labrador"
             "adult" (Some "sk-test") with
     | Ok r => Some r
     | Raise _ => None
     end)
  = Some 5%Q.
Proof. vm_compute. reflexivity. Qed.

(** An unclamped language-model score above 10 makes the groomer analysis
    raise. *)
Example groomer_ai_score_above_10_raises :
  let model (_ _ _ : string) (_ : list string) (_ : string) :=
    Ok (RecommendationAgent.mkGroomerAnalysis (Some (PyFloat.Fin 11)) None) in
  RecommendationAgent.analyze_groomer_suitability (Some "sk-test") model
    Samples.no_match Samples.no_match Samples.no_match
    Samples.unseeded_groomer "poodle" None
  = Raise ValidationError.
Proof. vm_compute. reflexivity. Qed.

(** Lower-casing reaches the capital letters above U+007F. *)
Example lower_of_accented_capital :
  PyStr.lower ("CAF" ++ MoreSamples.capital_e_acute)
  = "caf" ++ MoreSamples.e_acute.
Proof. reflexivity. Qed.

(** [strip] removes the no-break space as well as the ASCII white space. *)
Example strip_removes_no_break_space :
  PyStr.strip (MoreSamples.nbsp ++ " Kibble" ++ MoreSamples.nbsp) = "Kibble".
Proof. reflexivity. Qed.

(** An accented breed is found in a title written in another case. *)
Example accented_breed_in_title :
  RecommendationAgent.rule_total
    ("Croquettes " ++ MoreSamples.capital_e_acute ++ "PAGNEUL") []
    (MoreSamples.capital_e_acute ++ "pagneul") "adult" = 3%Q.
Proof. vm_compute. reflexivity. Qed.

(** The title cleaning keeps accented letters and blanks punctuation. *)
Example clean_title_keeps_accented_letters :
  ReviewScraper.clean_title
    ("Caf" ++ MoreSamples.e_acute ++ " Kibble (New!) 2-in-1"
     ++ MoreSamples.nbsp)
  = "Caf" ++ MoreSamples.e_acute ++ " Kibble  2 in 1".
Proof. vm_compute. reflexivity. Qed.

Example variant_name_without_no_break_space :
  PetExpressDetails.collect_variants [MoreSamples.nbsp_swatch] = ["2 kg"].
Proof. reflexivity. Qed.

(* ===================================================================== *)
(** * Properties of [HttpClient.get_async] *)
(* ===================================================================== *)

Section HttpProps.
Import HttpUtils.

Variable base_url : string.
Variable params_t : Type.
Variable client_get : string -> params_t -> nat -> attempt.

#[local] Abbreviation loop := (retry_loop params_t client_get).

Lemma retryable_status_spec s :
  retryable_status s = true <-> s = 429 \/ 500 <= s <= 599.
Proof.
  unfold retryable_status.
  rewrite orb_true_iff, andb_true_iff, Z.eqb_eq, !Z.leb_le. tauto.
Qed.

(** The two tests of the loop body return exactly the responses whose
    status is not transient. *)
Lemma body_tests_retryable s :
  ((s =? 200) || (negb (s =? 429) && negb ((500 <=? s) && (s <? 600))))
  = negb (retryable_status s).
Proof.
  unfold retryable_status.
  destruct (Z.eqb_spec s 200), (Z.eqb_spec s 429),
           (Z.leb_spec 500 s), (Z.ltb_spec s 600), (Z.leb_spec s 599);
    simpl; try reflexivity; lia.
Qed.

Lemma caught_retryable e : caught e = retryable (Failed e).
Proof. destruct e; reflexivity. Qed.

(** With fuel for the remaining retries the loop produces an outcome. *)
Lemma retry_loop_terminates fuel url params m rc sent :
  (Z.to_nat (m - rc) <= fuel)%nat ->
  exists out n, loop fuel url params m rc sent = Some (out, n).
Proof.
  revert rc sent.
  induction fuel as [|fuel IH]; intros rc sent Hf; simpl.
  - destruct (Z.ltb_spec rc m); [lia | eauto].
  - destruct (Z.ltb_spec rc m); [| eauto].
    destruct (client_get url params sent) as [r | e].
    + destruct (status_code r =? 200); [eauto |].
      destruct (negb _ && negb _); [eauto |].
      apply IH; lia.
    + destruct (caught e); [| eauto].
      destruct (rc + 1 >=? m); [eauto |].
      apply IH; lia.
Qed.

(** What an outcome of the loop says about the requests it sent. *)
Lemma retry_loop_spec fuel url params m : forall rc sent out n,
  loop fuel url params m rc sent = Some (out, n) ->
  (sent <= n)%nat
  /\ Z.of_nat (n - sent) <= Z.max 0 (m - rc)
  /\ (forall k, (sent <= k)%nat -> (S k < n)%nat ->
                retryable (client_get url params k) = true)
  /\ match out with
     | Returned r =>
         exists k, n = S k /\ (sent <= k)%nat
                   /\ client_get url params k = Responded r
                   /\ retryable_status (status_code r) = false
     | Raised e =>
         (exists k, n = S k /\ (sent <= k)%nat
                    /\ client_get url params k = Failed e
                    /\ caught e = false)
         \/ (m - rc <= Z.of_nat (n - sent)
             /\ forall k, (sent <= k)%nat -> (k < n)%nat ->
                          retryable (client_get url params k) = true)
     end.
Proof.
  induction fuel as [|fuel IH]; intros rc sent out n; simpl.
  - destruct (Z.ltb_spec rc m); [discriminate |].
    intros [= <- <-]. rewrite Nat.sub_diag.
    repeat split; try lia. right. split; [simpl; lia | intros; lia].
  - destruct (Z.ltb_spec rc m) as [Hlt | Hge].
    2:{ intros [= <- <-]. rewrite Nat.sub_diag.
        repeat split; try lia. right. split; [simpl; lia | intros; lia]. }
    destruct (client_get url params sent) as [r | e] eqn:Hget.
    + pose proof (body_tests_retryable (status_code r)) as Hb.
      destruct (status_code r =? 200) eqn:H200.
      { intros [= <- <-]. simpl in Hb.
        repeat split; try lia.
        exists sent. repeat split; auto.
        now destruct (retryable_status _). }
      destruct (negb _ && negb _) eqn:Hn.
      { intros [= <- <-]. simpl in Hb.
        repeat split; try lia.
        exists sent. repeat split; auto.
        now destruct (retryable_status _). }
      simpl in Hb.
      assert (Hr : retryable_status (status_code r) = true)
        by now destruct (retryable_status _).
      intros Hl. apply IH in Hl as (Hle & Hbound & Hretry & Hout).
      split; [lia |]. split; [lia |]. split.
      * intros k Hk Hkn. destruct (Nat.eq_dec k sent) as [-> | Hne].
        -- rewrite Hget. exact Hr.
        -- apply Hretry; lia.
      * destruct out as [r' | e'].
        -- destruct Hout as (k & -> & Hk & Hgk & Hnr).
           exists k. repeat split; auto; lia.
        -- destruct Hout as [(k & -> & Hk & Hgk & Hc) | (Hex & Hall)].
           ++ left. exists k. repeat split; auto; lia.
           ++ right. split; [lia |].
              intros k Hk Hkn. destruct (Nat.eq_dec k sent) as [-> | Hne].
              ** rewrite Hget. exact Hr.
              ** apply Hall; lia.
    + destruct (caught e) eqn:Hc.
      2:{ intros [= <- <-]. repeat split; try lia.
          left. exists sent. repeat split; auto. }
      assert (Hr : retryable (Failed e) = true)
        by now rewrite <- caught_retryable.
      destruct (Z.geb_spec (rc + 1) m) as [Hdone | Hmore].
      { intros [= <- <-]. repeat split; try lia.
        right. split; [lia |].
        intros k Hk Hkn. assert (k = sent) as -> by lia.
        now rewrite Hget. }
      intros Hl. apply IH in Hl as (Hle & Hbound & Hretry & Hout).
      split; [lia |]. split; [lia |]. split.
      * intros k Hk Hkn. destruct (Nat.eq_dec k sent) as [-> | Hne].
        -- now rewrite Hget.
        -- apply Hretry; lia.
      * destruct out as [r' | e'].
        -- destruct Hout as (k & -> & Hk & Hgk & Hnr).
           exists k. repeat split; auto; lia.
        -- destruct Hout as [(k & -> & Hk & Hgk & Hc') | (Hex & Hall)].
           ++ left. exists k. repeat split; auto; lia.
           ++ right. split; [lia |].
              intros k Hk Hkn. destruct (Nat.eq_dec k sent) as [-> | Hne].
              ** now rewrite Hget.
              ** apply Hall; lia.
Qed.

(** C10: [get_async] always terminates, and by then it has sent at most
    [max_retries] requests (none when [max_retries] is not positive): it
    either returns a response or raises within that bound. *)
Theorem get_async_terminates_within_max_retries url params max_retries :
  exists out n,
    get_async base_url params_t client_get url params max_retries
    = Some (out, n)
    /\ Z.of_nat n <= Z.max 0 max_retries.
Proof.
  unfold get_async.
  destruct (retry_loop_terminates (Z.to_nat max_retries)
              (full_url_of base_url url) params max_retries 0 0%nat)
    as (out & n & Hl).
  { rewrite Z.sub_0_r. lia. }
  exists out, n. split; [exact Hl |].
  apply retry_loop_spec in Hl as (_ & Hb & _).
  rewrite Z.sub_0_r, Nat.sub_0_r in Hb. exact Hb.
Qed.

(** What the outcome of a call says about the requests it sent. *)
Lemma get_async_outcome url params max_retries out n :
  get_async base_url params_t client_get url params max_retries
  = Some (out, n) ->
  let request := client_get (full_url_of base_url url) params in
  Z.of_nat n <= Z.max 0 max_retries
  /\ (forall k, (S k < n)%nat -> retryable (request k) = true)
  /\ (forall k r,
        Z.of_nat k < max_retries ->
        (forall j, (j < k)%nat -> retryable (request j) = true) ->
        request k = Responded r ->
        retryable_status (status_code r) = false ->
        out = Returned r /\ n = S k)
  /\ ((forall k, Z.of_nat k < max_retries -> retryable (request k) = true) ->
      exists e, out = Raised e).
Proof.
  intros Hl request. unfold get_async in Hl.
  apply retry_loop_spec in Hl as (_ & Hb & Hretry & Hout).
  rewrite Z.sub_0_r, Nat.sub_0_r in *. fold request in Hretry, Hout.
  split; [exact Hb |]. split; [intros k Hk; apply Hretry; lia |]. split.
  - intros k r Hk Hbefore Hget Hnr.
    assert (Hn : (n <= S k)%nat).
    { destruct (Nat.le_gt_cases n (S k)) as [|Hgt]; [assumption |].
      specialize (Hretry k ltac:(lia) Hgt).
      rewrite Hget in Hretry. simpl in Hretry. congruence. }
    destruct out as [r' | e].
    + destruct Hout as (k' & -> & _ & Hget' & Hnr').
      destruct (Nat.eq_dec k' k) as [-> | Hne].
      * split; [congruence | reflexivity].
      * specialize (Hbefore k' ltac:(lia)).
        rewrite Hget' in Hbefore. simpl in Hbefore. congruence.
    + exfalso. destruct Hout as [(k' & -> & _ & Hget' & Hc) | (Hex & Hall)].
      * destruct (Nat.eq_dec k' k) as [-> | Hne]; [congruence |].
        specialize (Hbefore k' ltac:(lia)).
        rewrite Hget', <- caught_retryable in Hbefore. congruence.
      * specialize (Hall k ltac:(lia) ltac:(lia)).
        rewrite Hget in Hall. simpl in Hall. congruence.
  - intros Hall. destruct out as [r | e]; [exfalso | eauto].
    destruct Hout as (k & -> & _ & Hget & Hnr).
    specialize (Hall k ltac:(lia)).
    rewrite Hget in Hall. simpl in Hall. congruence.
Qed.

(** C5: [get_async] produces an outcome after at most [max_retries]
    requests (3 by default); it sends a further request only after a
    connection failure, a read or connect timeout, an HTTP 429 or an HTTP
    5xx; the first response whose status is neither 429 nor 5xx is returned
    as it is, with no request after it; and when every permitted attempt
    was transient the call raises instead of returning. *)
Theorem get_async_retry_policy url params max_retries :
  exists out n,
    get_async base_url params_t client_get url params max_retries
    = Some (out, n)
    /\ let request := client_get (full_url_of base_url url) params in
       Z.of_nat n <= Z.max 0 max_retries
       /\ default_max_retries = 3
       /\ (forall k, (S k < n)%nat -> retryable (request k) = true)
       /\ (forall k r,
             Z.of_nat k < max_retries ->
             (forall j, (j < k)%nat -> retryable (request j) = true) ->
             request k = Responded r ->
             retryable_status (status_code r) = false ->
             out = Returned r /\ n = S k)
       /\ ((forall k, Z.of_nat k < max_retries ->
                      retryable (request k) = true) ->
           exists e, out = Raised e).
Proof.
  destruct (retry_loop_terminates (Z.to_nat max_retries)
              (full_url_of base_url url) params max_retries 0 0%nat)
    as (out & n & Hl).
  { rewrite Z.sub_0_r. lia. }
  exists out, n. split; [exact Hl |].
  destruct (get_async_outcome url params max_retries out n Hl)
    as (H1 & H2 & H3 & H4).
  split; [exact H1 |]. split; [reflexivity |]. split; [exact H2 |].
  split; [exact H3 | exact H4].
Qed.

End HttpProps.

Lemma get_async_retry_policy_witness :
  exists out n,
    HttpUtils.get_async "https://www.petexpress.com.ph" unit
      Samples.flaky_then_404 "/products/x" tt HttpUtils.default_max_retries
    = Some (out, n)
    /\ out = HttpUtils.Returned (HttpUtils.mkResponse 404 "not found")
    /\ n = 3%nat.
Proof.
  destruct (get_async_retry_policy "https://www.petexpress.com.ph" unit
              Samples.flaky_then_404 "/products/x" tt
              HttpUtils.default_max_retries)
    as (out & n & Hrun & _ & _ & _ & Hfirst & _).
  exists out, n. split; [exact Hrun |].
  apply (Hfirst 2%nat (HttpUtils.mkResponse 404 "not found")).
  - reflexivity.
  - intros [|[|j]] Hj; [reflexivity | reflexivity | lia].
  - reflexivity.
  - reflexivity.
Defined.

(* ===================================================================== *)
(** * Properties of [extract_product_data] *)
(* ===================================================================== *)

Section ExtractProps.
Import PetExpressScraper.

Variable parse_html : string -> node.
Variable urljoin : string -> string -> result string.

(** The loop appends, in order, what each card contributes. *)
Lemma process_cards_spec cards : forall products,
  process_cards urljoin cards products
  = Ok (products ++ flat_map (card_products urljoin) cards)%list.
Proof.
  induction cards as [|card rest IH]; intros products; simpl.
  - now rewrite app_nil_r.
  - unfold card_products at 1.
    destruct (process_card urljoin card) as [[|p] | e]; simpl.
    + apply IH.
    + rewrite IH, <- app_assoc. reflexivity.
    + apply IH.
Qed.

(** C6: for every input string [extract_product_data] returns a list and
    does not raise; the list holds, card by card and in document order,
    the record of each card that could be processed; a card without its
    link and a card whose processing raises contribute nothing, and the
    cards after them are still extracted. *)
Theorem extract_product_data_total html_content :
  exists products,
    extract_product_data parse_html urljoin html_content = Ok products
    /\ products
       = flat_map (card_products urljoin)
                  (select ("div", "product-item") (parse_html html_content))
    /\ (forall card,
          select_one ("a", "product-item__image-wrapper") card = None ->
          card_products urljoin card = [])
    /\ (forall card e,
          process_card urljoin card = Raise e ->
          card_products urljoin card = []).
Proof.
  eexists. split; [| split; [reflexivity | split]].
  - unfold extract_product_data. now rewrite process_cards_spec.
  - intros card Hlink. unfold card_products, process_card.
    now rewrite Hlink.
  - intros card e Hraise. unfold card_products. now rewrite Hraise.
Qed.

End ExtractProps.

Lemma extract_product_data_total_witness :
  exists products,
    PetExpressScraper.extract_product_data Samples.sample_page Samples.sample_urljoin "<html>"
    = Ok products
    /\ map PetExpressScraper.title products = ["Kibble"; "Treats"]
    /\ map PetExpressScraper.product_id products
       = [Some "kibble"; Some "treats"]
    /\ PetExpressScraper.card_products Samples.sample_urljoin
         (Samples.sample_card "//[" "Broken") = [].
Proof.
  destruct (extract_product_data_total Samples.sample_page Samples.sample_urljoin "<html>")
    as (products & Hok & Heq & _ & Hraise).
  exists products. split; [exact Hok |].
  subst products. split; [reflexivity |]. split; [reflexivity |].
  apply (Hraise _ ValueError). reflexivity.
Defined.

(* ===================================================================== *)
(** * Properties of [sorted(..., reverse=True)] *)
(* ===================================================================== *)

Section SortedProps.
Import PySorted.

Context {A : Type}.
Variable key : A -> Q.

#[local] Abbreviation ascending :=
  (StronglySorted (fun a b : A => (key a <= key b)%Q)).

Lemma insert_with_key s x l :
  with_key key s (insert key x l) = with_key key s (x :: l).
Proof.
  induction l as [|y l IH]; [reflexivity |].
  simpl. destruct (Qle_bool (key x) (key y)) eqn:Hxy; [reflexivity |].
  simpl. rewrite IH. simpl.
  destruct (Qeq_bool (key y) s) eqn:Hy, (Qeq_bool (key x) s) eqn:Hx;
    try reflexivity.
  exfalso. apply Qeq_bool_iff in Hy, Hx.
  assert (Hle : (key x <= key y)%Q) by (rewrite Hx, Hy; apply Qle_refl).
  apply Qle_bool_iff in Hle. congruence.
Qed.

(** The ascending sort keeps the elements of equal key in their order. *)
Lemma sort_with_key s l : with_key key s (sort key l) = with_key key s l.
Proof.
  induction l as [|x l IH]; [reflexivity |].
  simpl sort. rewrite insert_with_key. simpl. now rewrite IH.
Qed.

Lemma insert_perm x l : Permutation (x :: l) (insert key x l).
Proof.
  induction l as [|y l IH]; simpl; [reflexivity |].
  destruct (Qle_bool (key x) (key y)); [reflexivity |].
  rewrite perm_swap. now constructor.
Qed.

Lemma sort_perm l : Permutation l (sort key l).
Proof.
  induction l as [|x l IH]; simpl; [constructor |].
  rewrite <- insert_perm. now constructor.
Qed.

Lemma insert_ascending x l : ascending l -> ascending (insert key x l).
Proof.
  induction 1 as [|y l Hs IH Hall]; simpl.
  - repeat constructor.
  - destruct (Qle_bool (key x) (key y)) eqn:Hxy.
    + apply Qle_bool_iff in Hxy.
      constructor; [now constructor |].
      constructor; [exact Hxy |].
      eapply Forall_impl; [| exact Hall].
      intros z Hz. simpl in Hz. eapply Qle_trans; eassumption.
    + assert (Hyx : (key y <= key x)%Q).
      { destruct (Qlt_le_dec (key y) (key x)) as [Hlt | Hle].
        - now apply Qlt_le_weak.
        - apply Qle_bool_iff in Hle. congruence. }
      constructor; [exact IH |].
      eapply Permutation_Forall; [apply insert_perm |].
      constructor; assumption.
Qed.

Lemma sort_ascending l : ascending (sort key l).
Proof.
  induction l as [|x l IH]; simpl; [constructor |].
  now apply insert_ascending.
Qed.

Lemma descending_snoc l x :
  descending key l -> Forall (fun y => (key x <= key y)%Q) l ->
  descending key (l ++ [x])%list.
Proof.
  unfold descending. induction 1 as [|y l Hs IH Hall]; intros Hx; simpl.
  - repeat constructor.
  - inversion Hx as [|? ? Hy Hl]; subst.
    constructor; [now apply IH |].
    apply Forall_app. split; [exact Hall | now repeat constructor].
Qed.

(** Reversing an ascending list gives a descending one. *)
Lemma rev_ascending l : ascending l -> descending key (rev l).
Proof.
  induction 1 as [|x l Hs IH Hall]; simpl; [constructor |].
  apply descending_snoc; [exact IH |].
  apply Forall_rev. exact Hall.
Qed.

Lemma sorted_reverse_descending l : descending key (sorted_reverse key l).
Proof. apply rev_ascending, sort_ascending. Qed.

Lemma sorted_reverse_stable s l :
  with_key key s (sorted_reverse key l) = with_key key s l.
Proof.
  unfold sorted_reverse, with_key.
  rewrite filter_rev. fold (with_key key s (sort key (rev l))).
  rewrite sort_with_key. unfold with_key.
  now rewrite filter_rev, rev_involutive.
Qed.

Lemma sorted_reverse_perm l : Permutation l (sorted_reverse key l).
Proof.
  unfold sorted_reverse.
  rewrite <- Permutation_rev, <- sort_perm. apply Permutation_rev.
Qed.

End SortedProps.

(* ===================================================================== *)
(** * Properties of the suitability scores *)
(* ===================================================================== *)

Section ScoreProps.
Import RecommendationAgent PyFloat.

Lemma Qlt_bool_iff a b : Qlt_bool a b = true <-> (a < b)%Q.
Proof.
  unfold Qlt_bool. rewrite negb_true_iff. split.
  - intros H. apply Qnot_le_lt. intros Hle.
    apply Qle_bool_iff in Hle. congruence.
  - intros H. destruct (Qle_bool b a) eqn:E; [| reflexivity].
    apply Qle_bool_iff in E. exfalso. eapply Qlt_not_le; eassumption.
Qed.

Lemma Qlt_bool_false a b : Qlt_bool a b = false <-> (b <= a)%Q.
Proof.
  unfold Qlt_bool. rewrite negb_false_iff. apply Qle_bool_iff.
Qed.

(** A product recommendation that pydantic accepts carries the given
    identifier and a finite score between 0 and 10. *)
Lemma product_create_ok pid title url price image reviews reason f r :
  ProductRecommendation.create pid title url price image reviews reason f
  = Ok r ->
  f = Fin (ProductRecommendation.suitability_score r)
  /\ pid = Some (ProductRecommendation.product_id r)
  /\ (0 <= ProductRecommendation.suitability_score r <= 10)%Q.
Proof.
  unfold ProductRecommendation.create.
  destruct pid as [p|]; [| discriminate].
  destruct f as [q | | |]; try discriminate. simpl.
  destruct (Qle_bool 0 q) eqn:H0; [| discriminate].
  destruct (Qle_bool q 10) eqn:H10; [| discriminate].
  intros [= <-]. simpl.
  apply Qle_bool_iff in H0, H10. auto.
Qed.

Lemma groomer_create_ok id name url loc services rating reviews reason f
      image contact g :
  GroomerRecommendation.create id name url loc services rating reviews
    reason f image contact = Ok g ->
  f = Fin (GroomerRecommendation.suitability_score g)
  /\ GroomerRecommendation.url g = url
  /\ (0 <= GroomerRecommendation.suitability_score g <= 10)%Q.
Proof.
  unfold GroomerRecommendation.create.
  destruct f as [q | | |]; try discriminate. simpl.
  destruct (Qle_bool 0 q) eqn:H0; [| discriminate].
  destruct (Qle_bool q 10) eqn:H10; [| discriminate].
  intros [= <-]. simpl.
  apply Qle_bool_iff in H0, H10. auto.
Qed.

Lemma groomer_create_in_range id name url loc services rating reviews reason
      q image contact :
  (0 <= q <= 10)%Q ->
  GroomerRecommendation.create id name url loc services rating reviews
    reason (Fin q) image contact
  = Ok (GroomerRecommendation.mk id name url loc services rating reviews
          reason q image contact).
Proof.
  intros [H0 H10]. unfold GroomerRecommendation.create. simpl.
  apply Qle_bool_iff in H0, H10. now rewrite H0, H10.
Qed.

(** The floor and the cap of the rule-based path amount to clamping. *)
Lemma floor_then_cap total :
  min (Fin 10) (Fin (floor_score total)) = Fin (Spec.clamp_2_10 total)
  \/ (min (Fin 10) (Fin (floor_score total)) = Fin 10
      /\ (10 <= total)%Q /\ Spec.clamp_2_10 total == 10).
Proof.
  unfold min, floor_score, Spec.clamp_2_10, lt.
  destruct (Qlt_bool total 2) eqn:H2.
  - left. reflexivity.
  - destruct (Qlt_bool total 10) eqn:H10.
    + left. apply Qlt_bool_iff in H10.
      destruct (Qlt_bool 10 total) eqn:H10'; [| reflexivity].
      apply Qlt_bool_iff in H10'. exfalso.
      apply (Qlt_irrefl total). eapply Qlt_trans; eassumption.
    + apply Qlt_bool_false in H10. right.
      split; [reflexivity |]. split; [exact H10 |].
      destruct (Qlt_bool 10 total) eqn:H10'; [reflexivity |].
      apply Qlt_bool_false in H10'. now apply Qle_antisym.
Qed.

Lemma clamp_2_10_range total : (2 <= Spec.clamp_2_10 total <= 10)%Q.
Proof.
  unfold Spec.clamp_2_10.
  destruct (Qlt_bool total 2) eqn:H2; [split; discriminate |].
  destruct (Qlt_bool 10 total) eqn:H10; [split; discriminate |].
  apply Qlt_bool_false in H2, H10. auto.
Qed.

Lemma product_create_in_range pid title url price image reviews reason q :
  (0 <= q <= 10)%Q ->
  ProductRecommendation.create (Some pid) title url price image reviews
    reason (Fin q)
  = Ok (ProductRecommendation.mk pid title url price image None reviews
          reason q).
Proof.
  intros [H0 H10]. unfold ProductRecommendation.create. simpl.
  apply Qle_bool_iff in H0, H10. now rewrite H0, H10.
Qed.

Lemma rule_based_product_score product reviews dog_breed age r :
  rule_based_product product reviews dog_breed age = Ok r ->
  ProductRecommendation.suitability_score r
  == Spec.clamp_2_10
       (rule_total (PetExpressScraper.title product) reviews dog_breed age).
Proof.
  unfold rule_based_product. intros H.
  apply product_create_ok in H as (Hf & _ & _).
  destruct (floor_then_cap
              (rule_total (PetExpressScraper.title product) reviews
                          dog_breed age)) as [E | (E & _ & Hc)];
    rewrite E in Hf; injection Hf as <-.
  - reflexivity.
  - now rewrite Hc.
Qed.

Section Product.

Variable env_openai_api_key : option string.
Variable complete_product_json :
  string -> PetExpressScraper.Product -> list ProductReview.t ->
  string -> string -> result ProductAnalysis.
Variable float_str : pyfloat -> string.

#[local] Abbreviation analyze :=
  (analyze_product_suitability env_openai_api_key complete_product_json
                               float_str).

(** Without a usable credential the analysis is the rule-based one. *)
Lemma analyze_without_key self_key product reviews dog_breed age api_key :
  truthy_key (py_or api_key (py_or self_key env_openai_api_key)) = false ->
  analyze self_key product reviews dog_breed age api_key
  = rule_based_product product reviews dog_breed age.
Proof.
  unfold analyze_product_suitability.
  destruct (py_or api_key _) as [k|]; simpl; [| reflexivity].
  now intros ->.
Qed.

Lemma analyze_product_in_range self_key product reviews dog_breed age
      api_key r :
  analyze self_key product reviews dog_breed age api_key = Ok r ->
  (0 <= ProductRecommendation.suitability_score r <= 10)%Q.
Proof.
  unfold analyze_product_suitability, rule_based_product.
  destruct (py_or api_key _) as [k|].
  - destruct (PyStr.truthy k).
    + unfold ai_product.
      destruct (complete_product_json k product reviews dog_breed age)
        as [a | e]; simpl; intros H.
      * destruct (ProductRecommendation.create _ _ _ _ _ _ _ _) eqn:Hc
          in H; simpl in H.
        -- injection H as <-. now apply product_create_ok in Hc.
        -- now apply product_create_ok in H.
      * now apply product_create_ok in H.
    + intros H. now apply product_create_ok in H.
  - intros H. now apply product_create_ok in H.
Qed.

(** The rule-based analysis of a product with an identifier always
    returns. *)
Lemma rule_based_product_total product reviews dog_breed age id :
  PetExpressScraper.product_id product = Some id ->
  exists r, rule_based_product product reviews dog_breed age = Ok r.
Proof.
  intros Hid. unfold rule_based_product. rewrite Hid.
  set (total := rule_total (PetExpressScraper.title product) reviews
                           dog_breed age).
  destruct (floor_then_cap total) as [E | (E & _)]; rewrite E.
  - rewrite product_create_in_range; [eauto |].
    destruct (clamp_2_10_range total) as [H2 H10]. split; [| exact H10].
    eapply Qle_trans; [| exact H2]. discriminate.
  - rewrite product_create_in_range; [eauto |]. split; discriminate.
Qed.

(** Without an identifier the model class rejects the recommendation. *)
Lemma rule_based_product_without_id product reviews dog_breed age :
  PetExpressScraper.product_id product = None ->
  rule_based_product product reviews dog_breed age = Raise ValidationError.
Proof. intros Hid. unfold rule_based_product. now rewrite Hid. Qed.

Lemma clamp_2_10_cases total :
  ((total < 2)%Q -> Spec.clamp_2_10 total == 2)
  /\ ((10 < total)%Q -> Spec.clamp_2_10 total == 10)
  /\ ((2 <= total <= 10)%Q -> Spec.clamp_2_10 total == total).
Proof.
  unfold Spec.clamp_2_10. repeat split.
  - intros H. apply Qlt_bool_iff in H. now rewrite H.
  - intros H. destruct (Qlt_bool total 2) eqn:E2.
    + apply Qlt_bool_iff in E2. exfalso. apply (Qlt_irrefl total).
      eapply Qlt_trans; [exact E2 |]. eapply Qlt_trans; [| exact H].
      reflexivity.
    + apply Qlt_bool_iff in H. now rewrite H.
  - intros [H2 H10]. destruct (Qlt_bool total 2) eqn:E2.
    + apply Qlt_bool_iff in E2. exfalso. apply (Qlt_irrefl total).
      eapply Qlt_le_trans; eassumption.
    + destruct (Qlt_bool 10 total) eqn:E10; [| reflexivity].
      apply Qlt_bool_iff in E10. exfalso. apply (Qlt_irrefl total).
      eapply Qle_lt_trans; eassumption.
Qed.

(** C3: when [analyze_product_suitability] takes the rule-based path (no
    usable credential, or the AI attempt raised), a product with an
    identifier always gets a recommendation, and its score is the rule
    total clamped to the interval from 2 to 10: a total below 2 becomes 2,
    a total above 10 becomes 10, a total in between is kept.  A product
    without an identifier gets none: the model class raises.  Hence every
    recommendation returned on this path has such a score. *)
Theorem rule_based_score_between_2_and_10 self_key product reviews dog_breed
        age api_key :
  let openai_api_key := py_or api_key (py_or self_key env_openai_api_key) in
  let total :=
    rule_total (PetExpressScraper.title product) reviews dog_breed age in
  truthy_key openai_api_key = false
  \/ (exists k e,
        openai_api_key = Some k
        /\ ai_product complete_product_json float_str k product reviews
                      dog_breed age = Raise e) ->
  (forall id,
     PetExpressScraper.product_id product = Some id ->
     exists r,
       analyze self_key product reviews dog_breed age api_key = Ok r
       /\ (2 <= ProductRecommendation.suitability_score r <= 10)%Q
       /\ ProductRecommendation.suitability_score r
          == Spec.clamp_2_10 total
       /\ ((total < 2)%Q -> ProductRecommendation.suitability_score r == 2)
       /\ ((10 < total)%Q ->
           ProductRecommendation.suitability_score r == 10)
       /\ ((2 <= total <= 10)%Q ->
           ProductRecommendation.suitability_score r == total))
  /\ (PetExpressScraper.product_id product = None ->
      analyze self_key product reviews dog_breed age api_key
      = Raise ValidationError)
  /\ (forall r,
        analyze self_key product reviews dog_breed age api_key = Ok r ->
        (2 <= ProductRecommendation.suitability_score r <= 10)%Q
        /\ ProductRecommendation.suitability_score r
           == Spec.clamp_2_10 total).
Proof.
  intros key total Hpath.
  assert (Hrule : analyze self_key product reviews dog_breed age api_key
                  = rule_based_product product reviews dog_breed age).
  { destruct Hpath as [Hno | (k & e & Hk & Hfail)].
    - now apply analyze_without_key.
    - unfold analyze_product_suitability. fold key. rewrite Hk.
      destruct (PyStr.truthy k); [| reflexivity].
      now rewrite Hfail. }
  rewrite Hrule.
  assert (Hscore : forall r,
             rule_based_product product reviews dog_breed age = Ok r ->
             (2 <= ProductRecommendation.suitability_score r <= 10)%Q
             /\ ProductRecommendation.suitability_score r
                == Spec.clamp_2_10 total).
  { intros r Hr. apply rule_based_product_score in Hr. fold total in Hr.
    split; [| exact Hr]. rewrite Hr. apply clamp_2_10_range. }
  split; [| split].
  - intros id Hid.
    destruct (rule_based_product_total product reviews dog_breed age id Hid)
      as (r & Hr).
    exists r. split; [exact Hr |].
    destruct (Hscore r Hr) as [Hrange Hclamp].
    destruct (clamp_2_10_cases total) as (Hlow & Hhigh & Hmid).
    split; [exact Hrange |]. split; [exact Hclamp |].
    split; [| split]; intros H; rewrite Hclamp; auto.
  - apply rule_based_product_without_id.
  - exact Hscore.
Qed.

Lemma labrador_rule_total :
  rule_total "Labrador Adult Formula" [] "Labrador" "adult" = 5%Q.
Proof. vm_compute. reflexivity. Qed.

(** C4: with no usable credential, a product titled "Labrador Adult
    Formula" with no reviews, analysed for breed "Labrador" and age
    "adult", gets the score 5: 3 for the breed term in the title, 2 for
    the age term in the title, nothing from the reviews and nothing from
    the nutrition keywords. *)
Theorem labrador_adult_formula_scores_5 self_key api_key id url image_url
        price compare_price on_sale in_stock :
  truthy_key (py_or api_key (py_or self_key env_openai_api_key)) = false ->
  let product :=
    PetExpressScraper.mkProduct (Some id) "Labrador Adult Formula" url
      image_url price compare_price on_sale in_stock in
  let title := PyStr.lower "Labrador Adult Formula" in
  let text := PyStr.lower (all_review_content []) in
  (exists r,
     analyze self_key product [] "Labrador" "adult" api_key = Ok r
     /\ ProductRecommendation.suitability_score r == 5)
  /\ any_in (breed_terms "Labrador") title = true
  /\ any_in (age_terms "adult") title = true
  /\ mentions (breed_terms "Labrador") text = 0%nat
  /\ mentions (age_terms "adult") text = 0%nat
  /\ nutrition_score "Labrador" text == 0.
Proof.
  intros Hkey product title text.
  split; [| repeat split; reflexivity].
  rewrite analyze_without_key by exact Hkey.
  unfold rule_based_product, product. simpl PetExpressScraper.title.
  rewrite labrador_rule_total.
  eexists. split; [reflexivity | reflexivity].
Qed.

End Product.

Section Groomer.

Variable env_openai_api_key : option string.
Variable complete_groomer_json :
  string -> string -> string -> list string -> string ->
  result GroomerAnalysis.
Variable search_location : string -> option string.
Variable search_rating : string -> option pyfloat.
Variable search_contact : string -> option string.

#[local] Abbreviation analyze_groomer :=
  (analyze_groomer_suitability env_openai_api_key complete_groomer_json
     search_location search_rating search_contact).

Lemma analyze_groomer_ok groomer_data dog_breed api_key g :
  analyze_groomer groomer_data dog_breed api_key = Ok g ->
  fst (groomer_score env_openai_api_key complete_groomer_json groomer_data
                     dog_breed api_key)
  = Fin (GroomerRecommendation.suitability_score g)
  /\ GroomerRecommendation.url g = groomer_url groomer_data dog_breed
  /\ (0 <= GroomerRecommendation.suitability_score g <= 10)%Q.
Proof.
  unfold analyze_groomer_suitability.
  destruct (groomer_score _ _ _ _ _) as [s reason]. simpl.
  apply groomer_create_ok.
Qed.

(** C1: every recommendation that [analyze_product_suitability] or
    [analyze_groomer_suitability] returns, on the AI path or on the
    rule-based path, has a suitability score between 0 and 10. *)
Theorem suitability_score_between_0_and_10 :
  (forall complete_product_json float_str self_key product reviews dog_breed
          age api_key r,
     analyze_product_suitability env_openai_api_key complete_product_json
       float_str self_key product reviews dog_breed age api_key = Ok r ->
     (0 <= ProductRecommendation.suitability_score r <= 10)%Q)
  /\ (forall groomer_data dog_breed api_key g,
        analyze_groomer groomer_data dog_breed api_key = Ok g ->
        (0 <= GroomerRecommendation.suitability_score g <= 10)%Q).
Proof.
  split.
  - intros. eapply analyze_product_in_range. eassumption.
  - intros groomer_data dog_breed api_key g H.
    now apply analyze_groomer_ok in H.
Qed.

End Groomer.

End ScoreProps.

(* ===================================================================== *)
(** * Properties of the groomer agent *)
(* ===================================================================== *)

Section GroomerProps.
Import RecommendationAgent PyFloat.

Lemma qmin_Qmin a b : qmin a b == Qmin a b.
Proof.
  unfold qmin. destruct (Qlt_bool b a) eqn:E.
  - apply Qlt_bool_iff in E. symmetry. apply Q.min_r. now apply Qlt_le_weak.
  - apply Qlt_bool_false in E. symmetry. now apply Q.min_l.
Qed.

(** The loop over the experience indicators counts the matching ones. *)
Lemma indicator_loop (P : string -> bool) l : forall start,
  fold_left (fun acc indicator => if P indicator then acc + 1 else acc)%Q
            l start
  == start + inject_Z (Z.of_nat (List.length (filter P l))).
Proof.
  induction l as [|x l IH]; intros start; simpl.
  - unfold inject_Z. ring.
  - rewrite IH. destruct (P x); simpl List.length; [| reflexivity].
    rewrite Nat2Z.inj_succ, <- Z.add_1_r, inject_Z_plus.
    change (inject_Z 1) with 1%Q. ring.
Qed.

Lemma groomer_rule_score_bonus start dog_breed title content :
  groomer_rule_score start dog_breed title content
  == Qmin 10 (start + Spec.groomer_bonus dog_breed title content).
Proof.
  unfold groomer_rule_score, Spec.groomer_bonus.
  rewrite qmin_Qmin, indicator_loop.
  apply Q.min_compat; [reflexivity |].
  destruct (_ || _); ring.
Qed.

Lemma groomer_bonus_nonneg dog_breed title content :
  (0 <= Spec.groomer_bonus dog_breed title content)%Q.
Proof.
  unfold Spec.groomer_bonus.
  apply (Qplus_le_compat 0 _ 0).
  - destruct (_ || _); discriminate.
  - change 0%Q with (inject_Z 0). rewrite <- Zle_Qle. lia.
Qed.

Lemma contains_prefix p s : PyStr.startswith p s = true -> PyStr.contains p s = true.
Proof.
  intros H. destruct s as [|c s].
  - change (PyStr.contains p "") with (if PyStr.startswith p "" then true else false).
    now rewrite H.
  - change (PyStr.contains p (String c s))
      with (if PyStr.startswith p (String c s) then true else PyStr.contains p s).
    now rewrite H.
Qed.

Lemma contains_cons p c s :
  PyStr.contains p s = true -> PyStr.contains p (String c s) = true.
Proof.
  intros H. change (PyStr.contains p (String c s))
    with (if PyStr.startswith p (String c s) then true else PyStr.contains p s).
  rewrite H. now destruct (PyStr.startswith _ _).
Qed.

Lemma contains_app p a s :
  PyStr.contains p s = true -> PyStr.contains p (a ++ s) = true.
Proof.
  intros H. induction a as [|c a IH]; [exact H |].
  simpl append. now apply contains_cons.
Qed.

Lemma prefix_app p s : PyStr.startswith p (p ++ s) = true.
Proof.
  induction p as [|c p IH]; [reflexivity |].
  simpl. now rewrite Ascii.eqb_refl.
Qed.

(** A URL that contains one of the profile patterns is profile-shaped. *)
Lemma profile_shaped host pattern rest :
  In pattern profile_patterns ->
  is_profile_url (host ++ pattern ++ rest) = true.
Proof.
  intros Hin. unfold is_profile_url. apply existsb_exists.
  exists pattern. split; [exact Hin |].
  apply contains_app, contains_prefix, prefix_app.
Qed.

Section Agent.

Variable env_openai_api_key : option string.
Variable search_petbacker_groomers :
  string -> string -> Z -> result (list ScrapedGroomer).
Variable complete_groomer_json :
  string -> string -> string -> list string -> string ->
  result GroomerAnalysis.
Variable search_location : string -> option string.
Variable search_rating : string -> option pyfloat.
Variable search_contact : string -> option string.

#[local] Abbreviation analyze_groomer :=
  (analyze_groomer_suitability env_openai_api_key complete_groomer_json
     search_location search_rating search_contact).

(** C9: with no usable credential, a groomer whose [breed_compatibility]
    seed [v] satisfies [0 < v <= 10] is returned with exactly the score
    [v]; the +5 breed bonus and the +1 bonuses per experience keyword are
    computed when the seed is absent or zero. *)
Theorem groomer_seed_is_the_score groomer_data dog_breed api_key :
  truthy_key (py_or api_key env_openai_api_key) = false ->
  (forall v,
     gd_breed_compatibility groomer_data = Some (Fin v) ->
     (0 < v)%Q -> (v <= 10)%Q ->
     exists g,
       analyze_groomer groomer_data dog_breed api_key = Ok g
       /\ GroomerRecommendation.suitability_score g = v)
  /\ (forall q,
        get (gd_breed_compatibility groomer_data) (Fin 0) = Fin q ->
        q == 0 ->
        exists g,
          analyze_groomer groomer_data dog_breed api_key = Ok g
          /\ GroomerRecommendation.suitability_score g
             == Qmin 10 (Spec.groomer_bonus dog_breed
                           (get (gd_title groomer_data) "Unknown Groomer")
                           (get (gd_content groomer_data) ""))).
Proof.
  intros Hkey. split.
  - intros v Hseed Hpos Hle.
    unfold analyze_groomer_suitability, groomer_score.
    rewrite Hkey, Hseed. simpl andb. cbv iota. simpl get.
    assert (Hne : eq (Fin v) (Fin 0) = false).
    { simpl. destruct (Qeq_bool v 0) eqn:E; [| reflexivity].
      apply Qeq_bool_iff in E. rewrite E in Hpos.
      now apply Qlt_irrefl in Hpos. }
    rewrite Hne. rewrite groomer_create_in_range.
    + eexists. split; reflexivity.
    + split; [now apply Qlt_le_weak | exact Hle].
  - intros q Hseed Hzero.
    unfold analyze_groomer_suitability, groomer_score.
    rewrite Hkey. simpl andb. cbv iota. rewrite Hseed.
    assert (Heq : eq (Fin q) (Fin 0) = true)
      by (simpl; now apply Qeq_bool_iff).
    rewrite Heq.
    assert (Hscore :
              groomer_rule_score q dog_breed
                (get (gd_title groomer_data) "Unknown Groomer")
                (get (gd_content groomer_data) "")
              == Qmin 10 (Spec.groomer_bonus dog_breed
                            (get (gd_title groomer_data) "Unknown Groomer")
                            (get (gd_content groomer_data) ""))).
    { rewrite groomer_rule_score_bonus.
      apply Q.min_compat; [reflexivity |].
      rewrite Hzero. apply Qplus_0_l. }
    rewrite groomer_create_in_range.
    + eexists. split; [reflexivity |]. exact Hscore.
    + rewrite Hscore. split.
      * apply Q.min_glb; [discriminate | apply groomer_bonus_nonneg].
      * apply Q.le_min_l.
Qed.

(** C7, as the code has it: a profile-shaped URL is returned unchanged; an
    empty URL becomes the breed-specialist [/pet-sitter/] URL; a non-empty
    listing-shaped URL becomes [/profile/<id>] when the groomer has an id
    without "groomer-", else [/philippines/grooming/<location>/<name-slug>]
    when it contains "petbacker.ph/s/" (both profile-shaped and different
    from the input), and is otherwise returned unchanged. *)
Theorem groomer_url_canonicalization groomer_data dog_breed api_key g :
  analyze_groomer groomer_data dog_breed api_key = Ok g ->
  let url := get (gd_url groomer_data) "" in
  let id := get (gd_id groomer_data) "" in
  let title := get (gd_title groomer_data) "Unknown Groomer" in
  let out := GroomerRecommendation.url g in
  (is_profile_url url = true -> out = url)
  /\ (url = "" ->
      out = breed_specialist_url dog_breed /\ is_profile_url out = true)
  /\ (url <> "" -> is_profile_url url = false ->
      if PyStr.truthy id && negb (PyStr.contains "groomer-" id) then
        out = "https://www.petbacker.ph/profile/" ++ id
        /\ is_profile_url out = true /\ out <> url
      else if PyStr.contains "petbacker.ph/s/" url then
        out = "https://www.petbacker.ph/philippines/grooming/"
              ++ get (search_listing_location url) "metro-manila--philippines"
              ++ "/" ++ slug title
        /\ is_profile_url out = true /\ out <> url
      else out = url).
Proof.
  intros Hg url id title out.
  apply analyze_groomer_ok in Hg as (_ & Hurl & _).
  fold out in Hurl. unfold groomer_url in Hurl.
  fold url id title in Hurl.
  assert (Hdiff : forall s, is_profile_url url = false ->
                            is_profile_url s = true -> s <> url)
    by (intros s H0 H1 ->; congruence).
  split; [| split].
  - intros Hp. rewrite Hp in Hurl.
    destruct (PyStr.truthy url) eqn:Ht; [exact Hurl |].
    destruct url; [discriminate Hp | discriminate Ht].
  - intros Hempty. rewrite Hempty in Hurl. simpl in Hurl.
    split; [exact Hurl |]. rewrite Hurl. unfold breed_specialist_url.
    apply (profile_shaped "https://www.petbacker.ph" "/pet-sitter/").
    simpl. auto.
  - intros Hne Hlisting. rewrite Hlisting in Hurl.
    assert (Ht : PyStr.truthy url = true)
      by (destruct url; [now elim Hne | reflexivity]).
    rewrite Ht in Hurl. simpl negb in Hurl. cbv iota in Hurl.
    destruct (PyStr.truthy id && negb (PyStr.contains "groomer-" id)).
    + assert (Hp : is_profile_url out = true).
      { rewrite Hurl.
        apply (profile_shaped "https://www.petbacker.ph" "/profile/").
        simpl. auto. }
      auto.
    + destruct (PyStr.contains "/philippines/grooming/" url) eqn:Hpg.
      { exfalso. unfold is_profile_url, profile_patterns in Hlisting.
        simpl in Hlisting. rewrite Hpg in Hlisting.
        now rewrite !orb_true_r in Hlisting. }
      destruct (PyStr.contains "petbacker.ph/s/" url); [| exact Hurl].
      assert (Hp : is_profile_url out = true).
      { rewrite Hurl.
        apply (profile_shaped "https://www.petbacker.ph"
                              "/philippines/grooming/").
        simpl. auto. }
      split; [| auto].
      rewrite Hurl. unfold get.
      destruct (search_listing_location url); reflexivity.
Qed.

(** C8: [search_for_groomers] returns a non-empty list and does not raise:
    the converted scraper results when there are some, and one placeholder
    groomer when the scraper raised or found nothing. *)
Theorem search_for_groomers_never_empty dog_breed location max_results :
  exists results,
    search_for_groomers search_petbacker_groomers dog_breed location
                        max_results = Ok results
    /\ (1 <= List.length results)%nat
    /\ match search_petbacker_groomers dog_breed location max_results with
       | Ok (groomer :: groomers) =>
           results = map (convert_groomer location) (groomer :: groomers)
       | Ok [] | Raise _ => results = [mock_groomer dog_breed]
       end.
Proof.
  unfold search_for_groomers.
  destruct (search_petbacker_groomers dog_breed location max_results)
    as [[|groomer groomers] | e]; simpl.
  - eexists. repeat split. simpl. lia.
  - eexists. repeat split. simpl. lia.
  - eexists. repeat split. simpl. lia.
Qed.

End Agent.

End GroomerProps.

(** C7, as the specification states it, fails on scenario C: for breed
    "poodle" the listing URL on host "site" is returned as it is, so the
    returned URL is neither profile-shaped nor different from the input. *)
Lemma listing_url_not_always_rewritten :
  (exists g,
     RecommendationAgent.analyze_groomer_suitability None
       Samples.model_groomer_9 Samples.no_match Samples.no_match
       Samples.no_match Samples.scenario_c_groomer "poodle" None = Ok g
     /\ RecommendationAgent.GroomerRecommendation.url g
        = "https://site/s/dog-grooming/manila--metro-manila--philippines"
     /\ RecommendationAgent.is_profile_url
          (RecommendationAgent.GroomerRecommendation.url g) = false)
  /\ ~ Spec.listing_url_always_rewritten.
Proof.
  split.
  - eexists. split; [vm_compute; reflexivity |]. split; reflexivity.
  - intros H.
    destruct (H None Samples.model_groomer_9 Samples.no_match
                Samples.no_match Samples.no_match Samples.scenario_c_groomer
                "poodle" None _ eq_refl eq_refl) as [Hshape _].
    discriminate Hshape.
Qed.

(* ===================================================================== *)
(** * Properties of [get_product_recommendations] *)
(* ===================================================================== *)

Section PipelineProps.
Import RecommendationAgent PyFloat.

Variable env_openai_api_key : option string.
Variable complete_product_json :
  string -> PetExpressScraper.Product -> list ProductReview.t ->
  string -> string -> result ProductAnalysis.
Variable float_str : pyfloat -> string.
Variable search_petbacker_groomers :
  string -> string -> Z -> result (list ScrapedGroomer).
Variable complete_groomer_json :
  string -> string -> string -> list string -> string ->
  result GroomerAnalysis.
Variable search_location : string -> option string.
Variable search_rating : string -> option pyfloat.
Variable search_contact : string -> option string.
Variable search_for_reviews :
  option string -> string -> string -> string -> Z ->
  result (list ProductReview.t).
Variable generate_recommendations_summary :
  string -> string -> string -> list ProductRecommendation.t ->
  option string -> option string.
Variable generate_groomer_summary :
  string -> list GroomerRecommendation.t -> option string -> option string.

#[local] Abbreviation analysed_products :=
  (analyze_products env_openai_api_key complete_product_json float_str
                    search_for_reviews).
#[local] Abbreviation analysed_groomers :=
  (analyze_groomers env_openai_api_key complete_groomer_json search_location
                    search_rating search_contact).
#[local] Abbreviation groomers_of :=
  (groomer_block env_openai_api_key search_petbacker_groomers
                 complete_groomer_json search_location search_rating
                 search_contact generate_groomer_summary).
#[local] Abbreviation gscore := GroomerRecommendation.suitability_score.
#[local] Abbreviation pscore := ProductRecommendation.suitability_score.

Lemma descending_singleton {A} (key : A -> Q) x : PySorted.descending key [x].
Proof. repeat constructor. Qed.

Lemma fallback_groomer_ok dog_breed :
  exists g, fallback_groomer dog_breed = Ok g.
Proof. unfold fallback_groomer. rewrite groomer_create_in_range; [eauto |]. split; discriminate. Qed.

Lemma fallback_error_groomer_ok dog_breed :
  exists g, fallback_error_groomer dog_breed = Ok g.
Proof. unfold fallback_error_groomer. rewrite groomer_create_in_range; [eauto |]. split; discriminate. Qed.

(** The groomer list of a response is the stable descending sort of the
    analysed groomers, or a single placeholder. *)
Lemma groomer_block_spec dog_breed openai_api_key groomers text :
  groomers_of dog_breed openai_api_key = Ok (groomers, text) ->
  PySorted.descending gscore groomers
  /\ forall results,
       search_for_groomers search_petbacker_groomers dog_breed
                           "Philippines" 3 = Ok results ->
       analysed_groomers results dog_breed openai_api_key <> [] ->
       groomers
       = PySorted.sorted_reverse gscore
           (analysed_groomers results dog_breed openai_api_key).
Proof.
  unfold groomer_block.
  destruct (fallback_groomer_ok dog_breed) as (fb & Hfb).
  destruct (fallback_error_groomer_ok dog_breed) as (fe & Hfe).
  rewrite Hfb, Hfe.
  destruct (search_for_groomers search_petbacker_groomers dog_breed
                                "Philippines" 3) as [results | e]; simpl.
  - destruct results as [|r results]; simpl.
    + intros [= <- _]. split; [apply descending_singleton |].
      intros ? [= <-] Hne. now elim Hne.
    + destruct (analysed_groomers (r :: results) dog_breed openai_api_key)
        as [|g gs] eqn:Han; simpl.
      * intros [= <- _]. split; [apply descending_singleton |].
        intros ? [= <-] Hne. now rewrite Han in Hne.
      * intros [= <- _]. split; [apply sorted_reverse_descending |].
        intros ? [= <-] _. now rewrite Han.
  - intros [= <- _]. split; [apply descending_singleton |].
    intros ? [=].
Qed.

(** C2: in every response that [get_product_recommendations] builds, the
    product recommendations are the analysed products in descending order
    of suitability score, two of equal score keeping the order in which
    they were analysed; and so are the groomer recommendations when the
    response has them. *)
Theorem response_sorted_descending_stable products query dog_breed age
        tavily_api_key openai_api_key max_products include_groomers response :
  get_product_recommendations env_openai_api_key complete_product_json
    float_str search_petbacker_groomers complete_groomer_json search_location
    search_rating search_contact search_for_reviews
    generate_recommendations_summary generate_groomer_summary products query
    dog_breed age tavily_api_key openai_api_key max_products include_groomers
  = Ok response ->
  let analysed :=
    analysed_products
      (slice_to (Z.min (Z.of_nat (List.length products)) max_products)
                products)
      dog_breed age tavily_api_key openai_api_key in
  let recommendations := RecommendationResponse.recommendations response in
  PySorted.descending pscore recommendations
  /\ Permutation analysed recommendations
  /\ (forall s, PySorted.with_key pscore s recommendations
                = PySorted.with_key pscore s analysed)
  /\ match RecommendationResponse.groomer_recommendations response with
     | None => include_groomers = false
     | Some groomers =>
         PySorted.descending gscore groomers
         /\ forall results,
              search_for_groomers search_petbacker_groomers dog_breed
                                  "Philippines" 3 = Ok results ->
              let inputs :=
                analysed_groomers results dog_breed openai_api_key in
              inputs <> [] ->
              Permutation inputs groomers
              /\ forall s, PySorted.with_key gscore s groomers
                           = PySorted.with_key gscore s inputs
     end.
Proof.
  intros H analysed recommendations. unfold get_product_recommendations in H.
  fold analysed in H.
  assert (Hrec : recommendations = PySorted.sorted_reverse pscore analysed
                 /\ match RecommendationResponse.groomer_recommendations
                            response with
                    | None => include_groomers = false
                    | Some groomers =>
                        exists text,
                          groomers_of dog_breed openai_api_key
                          = Ok (groomers, text)
                    end).
  { unfold recommendations. destruct include_groomers.
    - destruct (groomers_of dog_breed openai_api_key) as [[gl text] | e]
        eqn:Hblock; simpl in H; [| discriminate].
      unfold RecommendationResponse.create in H.
      destruct (generate_recommendations_summary _ _ _ _ _);
        [| discriminate].
      injection H as <-. simpl. eauto.
    - simpl in H. unfold RecommendationResponse.create in H.
      destruct (generate_recommendations_summary _ _ _ _ _);
        [| discriminate].
      injection H as <-. simpl. auto. }
  destruct Hrec as [-> Hgroomers].
  split; [apply sorted_reverse_descending |].
  split; [apply sorted_reverse_perm |].
  split; [intros s; apply sorted_reverse_stable |].
  destruct (RecommendationResponse.groomer_recommendations response)
    as [groomers|]; [| exact Hgroomers].
  destruct Hgroomers as (text & Hblock).
  apply groomer_block_spec in Hblock as [Hdesc Hsorted].
  split; [exact Hdesc |].
  intros results Hsearch inputs Hne.
  rewrite (Hsorted results Hsearch Hne). fold inputs.
  split; [apply sorted_reverse_perm | intros s; apply sorted_reverse_stable].
Qed.

End PipelineProps.

(* ===================================================================== *)
(** * The theorems at concrete inputs *)
(* ===================================================================== *)

Lemma suitability_score_between_0_and_10_witness :
  (exists r,
     RecommendationAgent.analyze_product_suitability None
       Samples.model_overshoots Samples.no_float_str None
       (Samples.product "b" "Labrador Adult Formula")
       [Samples.review "Great for my labrador."] "Labrador" "adult"
       (Some "sk-test") = Ok r
     /\ RecommendationAgent.ProductRecommendation.suitability_score r == 10
     /\ (0 <= RecommendationAgent.ProductRecommendation.suitability_score r
         <= 10)%Q)
  /\ (exists g,
        RecommendationAgent.analyze_groomer_suitability (Some "sk-test")
          Samples.model_groomer_9 Samples.no_match Samples.no_match
          Samples.no_match Samples.unseeded_groomer "poodle" None = Ok g
        /\ RecommendationAgent.GroomerRecommendation.suitability_score g == 9
        /\ (0 <= RecommendationAgent.GroomerRecommendation.suitability_score g
            <= 10)%Q).
Proof.
  pose proof (suitability_score_between_0_and_10 (Some "sk-test")
                Samples.model_groomer_9 Samples.no_match Samples.no_match
                Samples.no_match) as [Hproduct Hgroomer].
  split.
  - eexists. split; [vm_compute; reflexivity |]. split; [reflexivity |].
    eapply (Hproduct Samples.model_overshoots Samples.no_float_str None
              (Samples.product "b" "Labrador Adult Formula")
              [Samples.review "Great for my labrador."] "Labrador" "adult"
              (Some "sk-test")).
    vm_compute. reflexivity.
  - eexists. split; [vm_compute; reflexivity |]. split; [reflexivity |].
    eapply (Hgroomer Samples.unseeded_groomer "poodle" None).
    vm_compute. reflexivity.
Defined.

Lemma rule_based_score_between_2_and_10_witness :
  (RecommendationAgent.rule_total "Bulldog Puppy Food"
                                  Samples.bulldog_reviews "Bulldog" "puppy"
   == 12)
  /\ (exists r,
        RecommendationAgent.analyze_product_suitability None
          Samples.model_down Samples.no_float_str None
          (Samples.product "a" "Bulldog Puppy Food")
          Samples.bulldog_reviews "Bulldog" "puppy" (Some "sk-test") = Ok r
        /\ RecommendationAgent.ProductRecommendation.suitability_score r
           == 10)
  /\ (exists r,
        RecommendationAgent.analyze_product_suitability None
          Samples.model_down Samples.no_float_str None
          (Samples.product "a" "Puppy Chow") [] "Labrador" "adult" None
        = Ok r
        /\ RecommendationAgent.ProductRecommendation.suitability_score r
           == 2).
Proof.
  split; [vm_compute; reflexivity |]. split.
  - destruct (proj1 (rule_based_score_between_2_and_10 None
                       Samples.model_down Samples.no_float_str None
                       (Samples.product "a" "Bulldog Puppy Food")
                       Samples.bulldog_reviews "Bulldog" "puppy"
                       (Some "sk-test")
                       (or_intror
                          (ex_intro _ "sk-test"
                             (ex_intro _ (OtherError "APIConnectionError")
                                       (conj eq_refl eq_refl)))))
                    "a" eq_refl)
      as (r & Hr & _ & _ & _ & Hcap & _).
    exists r. split; [exact Hr |]. apply Hcap. vm_compute. reflexivity.
  - destruct (proj1 (rule_based_score_between_2_and_10 None
                       Samples.model_down Samples.no_float_str None
                       (Samples.product "a" "Puppy Chow") [] "Labrador"
                       "adult" None (or_introl eq_refl))
                    "a" eq_refl)
      as (r & Hr & _ & _ & Hfloor & _).
    exists r. split; [exact Hr |]. apply Hfloor. vm_compute. reflexivity.
Defined.

Lemma labrador_adult_formula_scores_5_witness :
  exists r,
    RecommendationAgent.analyze_product_suitability None Samples.model_down
      Samples.no_float_str None
      (Samples.product "b" "Labrador Adult Formula") [] "Labrador" "adult"
      None = Ok r
    /\ RecommendationAgent.ProductRecommendation.suitability_score r == 5.
Proof.
  exact (proj1 (labrador_adult_formula_scores_5 None Samples.model_down
                  Samples.no_float_str None None "b"
                  "https://www.petexpress.com.ph/products/b" None "P500" None
                  false true eq_refl)).
Defined.

Lemma groomer_seed_is_the_score_witness :
  exists g,
    RecommendationAgent.analyze_groomer_suitability None
      Samples.model_groomer_9 Samples.no_match Samples.no_match
      Samples.no_match Samples.scenario_c_groomer "poodle" None = Ok g
    /\ RecommendationAgent.GroomerRecommendation.suitability_score g = 8%Q.
Proof.
  refine (proj1 (groomer_seed_is_the_score None Samples.model_groomer_9
                   Samples.no_match Samples.no_match Samples.no_match
                   Samples.scenario_c_groomer "poodle" None eq_refl)
                8%Q eq_refl _ _).
  - reflexivity.
  - unfold Qle. simpl. lia.
Defined.

Lemma groomer_url_canonicalization_witness :
  exists g,
    RecommendationAgent.analyze_groomer_suitability None
      Samples.model_groomer_9 Samples.no_match Samples.no_match
      Samples.no_match (RecommendationAgent.mock_groomer "poodle") "poodle"
      None = Ok g
    /\ RecommendationAgent.GroomerRecommendation.url g
       = "https://www.petbacker.ph/philippines/grooming/manila--metro-manila--philippines/professional-poodle-groomer"
    /\ RecommendationAgent.is_profile_url
         (RecommendationAgent.GroomerRecommendation.url g) = true.
Proof.
  eexists. split; [vm_compute; reflexivity |].
  pose proof (groomer_url_canonicalization None Samples.model_groomer_9
                Samples.no_match Samples.no_match Samples.no_match
                (RecommendationAgent.mock_groomer "poodle") "poodle" None _
                eq_refl) as (_ & _ & H).
  specialize (H ltac:(discriminate) eq_refl).
  destruct H as (Hout & Hshape & _).
  split; [exact Hout | exact Hshape].
Defined.

Lemma response_sorted_descending_stable_witness :
  exists response,
    RecommendationAgent.get_product_recommendations None Samples.model_down
      Samples.no_float_str Samples.two_groomers Samples.model_groomer_9
      Samples.no_match Samples.no_match Samples.no_match Samples.no_reviews
      Samples.fixed_summary Samples.fixed_groomer_summary
      Samples.three_products "dog food" "Labrador" "adult" None None 5 true
    = Ok response
    /\ map RecommendationAgent.ProductRecommendation.title
           (RecommendationAgent.RecommendationResponse.recommendations
              response)
       = ["Labrador Adult Formula"; "Adult Labrador Bites"; "Puppy Chow";
          "Senior Mix"]
    /\ option_map (map RecommendationAgent.GroomerRecommendation.name)
         (RecommendationAgent.RecommendationResponse.groomer_recommendations
            response)
       = Some ["Ben"; "Anna"; "Cleo"]
    /\ PySorted.descending
         RecommendationAgent.ProductRecommendation.suitability_score
         (RecommendationAgent.RecommendationResponse.recommendations
            response).
Proof.
  eexists. split; [vm_compute; reflexivity |].
  split; [reflexivity |]. split; [reflexivity |].
  refine (proj1 (response_sorted_descending_stable None Samples.model_down
                   Samples.no_float_str Samples.two_groomers
                   Samples.model_groomer_9 Samples.no_match Samples.no_match
                   Samples.no_match Samples.no_reviews Samples.fixed_summary
                   Samples.fixed_groomer_summary Samples.three_products
                   "dog food" "Labrador" "adult" None None 5 true _ _)).
  vm_compute. reflexivity.
Defined.

(* ===================================================================== *)
(** * Further properties of [HttpClient.get_async] *)
(* ===================================================================== *)

Section HttpMore.
Import HttpUtils.

Variable base_url : string.
Variable params_t : Type.
Variable client_get : string -> params_t -> nat -> attempt.

#[local] Abbreviation exhausted_message :=
  (fun max_retries : Z =>
     "Failed to get response after " ++ PyStr.str_of_int max_retries
     ++ " retries").

(** X1: With [max_retries <= 0] the loop body never runs: no request is sent
    and the call raises the generic exception. *)
Theorem get_async_without_attempts url params max_retries :
  max_retries <= 0 ->
  get_async base_url params_t client_get url params max_retries
  = Some (Raised (PlainException (exhausted_message max_retries)), 0%nat).
Proof.
  intros Hle. unfold get_async.
  replace (Z.to_nat max_retries) with 0%nat by lia. simpl.
  destruct (Z.ltb_spec 0 max_retries); [lia | reflexivity].
Qed.

(** When every attempt is transient the loop runs to the end. *)
Lemma retry_loop_all_transient url params m : forall fuel rc sent,
  rc < m -> (Z.to_nat (m - rc) <= fuel)%nat ->
  (forall k, (sent <= k)%nat -> Z.of_nat (k - sent) < m - rc ->
             retryable (client_get url params k) = true) ->
  let last := (sent + Z.to_nat (m - rc) - 1)%nat in
  retry_loop params_t client_get fuel url params m rc sent
  = Some (Raised match client_get url params last with
                 | Failed e => e
                 | Responded _ => PlainException (exhausted_message m)
                 end,
          S last).
Proof.
  induction fuel as [|fuel IH]; intros rc sent Hlt Hfuel Hall last;
    [lia |].
  simpl. destruct (Z.ltb_spec rc m) as [_ | ?]; [| lia].
  pose proof (Hall sent ltac:(lia) ltac:(lia)) as Hfirst.
  destruct (Z.eq_dec (rc + 1) m) as [Hend | Hmore].
  - assert (Hlast : last = sent) by (unfold last; lia).
    rewrite Hlast.
    destruct (client_get url params sent) as [r | e] eqn:Hget.
    + pose proof (body_tests_retryable (status_code r)) as Hb.
      simpl in Hfirst. rewrite Hfirst in Hb. simpl in Hb.
      apply orb_false_elim in Hb as [-> ->].
      destruct fuel; simpl;
        (destruct (Z.ltb_spec (rc + 1) m); [lia | reflexivity]).
    + rewrite caught_retryable, Hfirst.
      destruct (Z.geb_spec (rc + 1) m); [reflexivity | lia].
  - assert (Hnext : retry_loop params_t client_get fuel url params m
                      (rc + 1) (S sent)
                    = Some (Raised match client_get url params last with
                                   | Failed e => e
                                   | Responded _ =>
                                       PlainException (exhausted_message m)
                                   end, S last)).
    { replace last with (S sent + Z.to_nat (m - (rc + 1)) - 1)%nat
        by (unfold last; lia).
      apply IH; [lia | lia |].
      intros k Hk Hkm. apply Hall; lia. }
    destruct (client_get url params sent) as [r | e] eqn:Hget.
    + pose proof (body_tests_retryable (status_code r)) as Hb.
      simpl in Hfirst. rewrite Hfirst in Hb. simpl in Hb.
      apply orb_false_elim in Hb as [-> ->]. exact Hnext.
    + rewrite caught_retryable, Hfirst.
      destruct (Z.geb_spec (rc + 1) m); [lia | exact Hnext].
Qed.

(** X2: When all [max_retries] attempts are transient, exactly [max_retries]
    requests are sent; the call then re-raises the transport error of the
    last attempt, or raises the generic exception when the last attempt
    was a 429 or 5xx response. *)
Theorem get_async_exhaustion url params max_retries :
  0 < max_retries ->
  let request := client_get (full_url_of base_url url) params in
  (forall k, Z.of_nat k < max_retries -> retryable (request k) = true) ->
  get_async base_url params_t client_get url params max_retries
  = Some (Raised match request (Z.to_nat max_retries - 1)%nat with
                 | Failed e => e
                 | Responded _ =>
                     PlainException (exhausted_message max_retries)
                 end,
          Z.to_nat max_retries).
Proof.
  intros Hpos request Hall. unfold get_async.
  rewrite retry_loop_all_transient.
  - rewrite Z.sub_0_r. simpl Nat.add.
    replace (S (Z.to_nat max_retries - 1)) with (Z.to_nat max_retries)
      by lia.
    reflexivity.
  - exact Hpos.
  - lia.
  - intros k _ Hk. apply Hall. lia.
Qed.

(** X3: An exception other than the three caught ones is never retried: it
    leaves [get_async] at once. *)
Theorem get_async_other_exception_propagates url params max_retries k e :
  let request := client_get (full_url_of base_url url) params in
  Z.of_nat k < max_retries ->
  (forall j, (j < k)%nat -> retryable (request j) = true) ->
  request k = Failed e ->
  caught e = false ->
  get_async base_url params_t client_get url params max_retries = Some (Raised e, S k).
Proof.
  intros request Hk Hbefore Hget Hc.
  destruct (retry_loop_terminates params_t client_get
              (Z.to_nat max_retries) (full_url_of base_url url) params
              max_retries 0 0%nat) as (out & n & Hl).
  { rewrite Z.sub_0_r. lia. }
  unfold get_async. rewrite Hl.
  apply retry_loop_spec in Hl as (_ & _ & Hretry & Hout).
  fold request in Hretry, Hout. rewrite Nat.sub_0_r, Z.sub_0_r in Hout.
  assert (Hnk : retryable (request k) = false)
    by (rewrite Hget, <- caught_retryable; exact Hc).
  assert (Hn : (n <= S k)%nat).
  { destruct (Nat.le_gt_cases n (S k)) as [|Hgt]; [assumption |].
    specialize (Hretry k ltac:(lia) Hgt). congruence. }
  destruct out as [r | e'].
  - exfalso. destruct Hout as (k' & -> & _ & Hget' & Hnr).
    destruct (Nat.eq_dec k' k) as [-> | Hne]; [congruence |].
    specialize (Hbefore k' ltac:(lia)).
    rewrite Hget' in Hbefore. simpl in Hbefore. congruence.
  - destruct Hout as [(k' & -> & _ & Hget' & Hc') | (Hex & Hall)].
    + destruct (Nat.eq_dec k' k) as [-> | Hne]; [congruence |].
      exfalso. specialize (Hbefore k' ltac:(lia)).
      rewrite Hget', <- caught_retryable in Hbefore. congruence.
    + exfalso. specialize (Hall k ltac:(lia) ltac:(lia)). congruence.
Qed.

End HttpMore.

(* ===================================================================== *)
(** * Facts about the string operations *)
(* ===================================================================== *)

Section StripFacts.
Import PyStr Text.

Variable drop : ascii -> bool.

Lemma lstrip_first s c :
  first_char (lstrip_with drop s) = Some c -> drop c = false.
Proof.
  induction s as [|a s IH]; simpl; [discriminate |].
  destruct (drop a) eqn:Ha; [exact IH |].
  simpl. now intros [= <-].
Qed.

Lemma rstrip_cons_kept a s :
  drop a = false ->
  exists r, rstrip_with drop (String a s) = String a r.
Proof.
  intros Ha. simpl. destruct (rstrip_with drop s); [rewrite Ha |]; eauto.
Qed.

Lemma rstrip_last s c :
  last_char (rstrip_with drop s) = Some c -> drop c = false.
Proof.
  induction s as [|a s IH]; simpl; [discriminate |].
  destruct (rstrip_with drop s) as [|b r] eqn:Hr.
  - destruct (drop a) eqn:Ha; simpl; [discriminate |]. now intros [= <-].
  - exact IH.
Qed.

Lemma rstrip_first s c :
  first_char (rstrip_with drop s) = Some c -> first_char s = Some c.
Proof.
  destruct s as [|a s]; simpl; [discriminate |].
  destruct (rstrip_with drop s); [destruct (drop a) |]; simpl;
    congruence.
Qed.

(** A stripped string has clean ends. *)
Lemma strip_clean_ends s : clean_ends drop (strip_with drop s).
Proof.
  unfold strip_with. split.
  - intros c Hc. apply rstrip_first in Hc. now apply lstrip_first in Hc.
  - apply rstrip_last.
Qed.

Lemma lstrip_fixed s :
  (forall c, first_char s = Some c -> drop c = false) ->
  lstrip_with drop s = s.
Proof.
  destruct s as [|a s]; [reflexivity |]. intros H. simpl.
  now rewrite (H a eq_refl).
Qed.

Lemma rstrip_fixed s :
  (forall c, last_char s = Some c -> drop c = false) ->
  rstrip_with drop s = s.
Proof.
  induction s as [|a s IH]; [reflexivity |]. intros H.
  simpl. destruct s as [|b s].
  - simpl. now rewrite (H a eq_refl).
  - rewrite IH by (intros c Hc; apply H; exact Hc). reflexivity.
Qed.

(** Stripping a string with clean ends changes nothing. *)
Lemma strip_fixed s : clean_ends drop s -> strip_with drop s = s.
Proof.
  intros [Hf Hl]. unfold strip_with.
  rewrite lstrip_fixed by exact Hf. now apply rstrip_fixed.
Qed.

Lemma strip_idempotent s :
  strip_with drop (strip_with drop s) = strip_with drop s.
Proof. apply strip_fixed, strip_clean_ends. Qed.

Lemma all_chars_lstrip p s :
  all_chars p s = true -> all_chars p (lstrip_with drop s) = true.
Proof.
  induction s as [|a s IH]; [reflexivity |]. simpl.
  intros H. apply andb_prop in H as [Ha Hs].
  destruct (drop a); [now apply IH |]. simpl. now rewrite Ha, Hs.
Qed.

Lemma all_chars_rstrip p s :
  all_chars p s = true -> all_chars p (rstrip_with drop s) = true.
Proof.
  induction s as [|a s IH]; [reflexivity |]. simpl.
  intros H. apply andb_prop in H as [Ha Hs]. specialize (IH Hs).
  destruct (rstrip_with drop s).
  - destruct (drop a); [reflexivity |]. simpl. now rewrite Ha.
  - simpl. simpl in IH. now rewrite Ha, IH.
Qed.

Lemma all_chars_strip p s :
  all_chars p s = true -> all_chars p (strip_with drop s) = true.
Proof. intros H. now apply all_chars_rstrip, all_chars_lstrip. Qed.

End StripFacts.

Section SplitFacts.
Import PyStr.

Lemma split_from_nonempty sep s : forall skip cur,
  (1 <= List.length (split_from sep skip cur s))%nat.
Proof.
  induction s as [|c s IH]; intros [|k] cur; simpl; try lia.
  - destruct (startswith sep (String c s)); simpl; [lia | apply IH].
  - apply IH.
Qed.

(** Splitting a string on a separator that occurs in it gives at least two
    pieces. *)
Lemma split_has_second sep s :
  sep <> "" -> contains sep s = true ->
  forall cur, (2 <= List.length (split_from sep 0 cur s))%nat.
Proof.
  intros Hsep. induction s as [|c s IH]; intros Hin cur.
  - destruct sep; [now elim Hsep | discriminate Hin].
  - change (contains sep (String c s))
      with (if startswith sep (String c s) then true else contains sep s)
      in Hin.
    simpl split_from.
    destruct (startswith sep (String c s)).
    + simpl. pose proof (split_from_nonempty sep s
                           (String.length sep - 1) ""). lia.
    + now apply IH.
Qed.

End SplitFacts.

(* ===================================================================== *)
(** * Further properties of [extract_product_data] *)
(* ===================================================================== *)

Section ExtractMore.
Import PetExpressScraper.

Variable parse_html : string -> node.
Variable urljoin : string -> string -> result string.

(** The image rule turns a protocol-relative source into an [https:] one
    and keeps any other source. *)
Lemma image_url_normalized src :
  PyStr.startswith "//"
    (if PyStr.startswith "//" src then "https:" ++ src else src) = false.
Proof.
  destruct (PyStr.startswith "//" src) eqn:Hs; [reflexivity | exact Hs].
Qed.

(** The record appended for a card, field by field. *)
Lemma process_card_appended card p :
  process_card urljoin card = Ok (Appended p) ->
  (exists link,
     select_one ("a", "product-item__image-wrapper") card = Some link
     /\ urljoin BASE_URL (get link "href" "") = Ok (url p))
  /\ (product_id p
      = if PyStr.contains "products/" (url p)
        then nth_error (PyStr.split "products/" (url p)) 1
        else None)
  /\ (forall u, image_url p = Some u -> PyStr.startswith "//" u = false)
  /\ (on_sale p = true <-> compare_price p <> None)
  /\ PyStr.strip (title p) = title p
  /\ PyStr.strip (price p) = price p
  /\ (forall c, compare_price p = Some c -> PyStr.strip c = c).
Proof.
  unfold process_card.
  destruct (select_one ("a", "product-item__image-wrapper") card)
    as [link|]; [| discriminate].
  destruct (urljoin BASE_URL (get link "href" "")) as [product_url | e]
    eqn:Hjoin; [| discriminate].
  unfold bind at 1.
  destruct (PyStr.contains "products/" product_url) eqn:Hin.
  - destruct (nth_error (PyStr.split "products/" product_url) 1)
      as [piece|] eqn:Hnth; [| discriminate].
    unfold bind. intros [= <-].
    cbn [product_id url image_url on_sale compare_price title price].
    rewrite Hin. split; [exists link; split; [reflexivity | exact Hjoin] |].
    split; [now rewrite Hnth |].
    split; [| split; [| split; [| split]]].
    + destruct (select_one ("img", "product-item__primary-image") card)
        as [img|]; [| discriminate].
      intros u [= <-]. exact (image_url_normalized (get img "data-src" "")).
    + destruct (select_one ("span", "price--compare") card);
        split; congruence.
    + destruct (select_one ("a", "product-item__title") card);
        [apply strip_idempotent | reflexivity].
    + destruct (select_one ("span", "price") card);
        [apply strip_idempotent | reflexivity].
    + destruct (select_one ("span", "price--compare") card);
        [| discriminate].
      intros c [= <-]. apply strip_idempotent.
  - unfold bind. intros [= <-].
    cbn [product_id url image_url on_sale compare_price title price].
    rewrite Hin. split; [exists link; split; [reflexivity | exact Hjoin] |].
    split; [reflexivity |].
    split; [| split; [| split; [| split]]].
    + destruct (select_one ("img", "product-item__primary-image") card)
        as [img|]; [| discriminate].
      intros u [= <-]. exact (image_url_normalized (get img "data-src" "")).
    + destruct (select_one ("span", "price--compare") card);
        split; congruence.
    + destruct (select_one ("a", "product-item__title") card);
        [apply strip_idempotent | reflexivity].
    + destruct (select_one ("span", "price") card);
        [apply strip_idempotent | reflexivity].
    + destruct (select_one ("span", "price--compare") card);
        [| discriminate].
      intros c [= <-]. apply strip_idempotent.
Qed.

Lemma in_card_products card p :
  In p (card_products urljoin card) ->
  process_card urljoin card = Ok (Appended p).
Proof.
  unfold card_products.
  destruct (process_card urljoin card) as [[|q] | e]; simpl; try tauto.
  now intros [<- | []].
Qed.

(** X4: Every product that [extract_product_data] returns comes from a card
    with a link; its URL is the joined link; its identifier is the text
    after "products/" in that URL, or [None] when the URL has no
    "products/"; its image URL is never protocol-relative; it is on sale
    exactly when it has a compare price. *)
Theorem extracted_product_fields html_content products p :
  extract_product_data parse_html urljoin html_content = Ok products ->
  In p products ->
  (exists card link,
     In card (select ("div", "product-item") (parse_html html_content))
     /\ select_one ("a", "product-item__image-wrapper") card = Some link
     /\ urljoin BASE_URL (get link "href" "") = Ok (url p))
  /\ (PyStr.contains "products/" (url p) = true ->
      exists before id,
        product_id p = Some id
        /\ nth_error (PyStr.split "products/" (url p)) 0 = Some before
        /\ nth_error (PyStr.split "products/" (url p)) 1 = Some id)
  /\ (PyStr.contains "products/" (url p) = false -> product_id p = None)
  /\ (forall u, image_url p = Some u -> PyStr.startswith "//" u = false)
  /\ (on_sale p = true <-> compare_price p <> None).
Proof.
  unfold extract_product_data. rewrite process_cards_spec.
  intros [= <-] Hin. simpl in Hin.
  apply in_flat_map in Hin as (card & Hcard & Hp).
  apply in_card_products, process_card_appended in Hp
    as ((link & Hlink & Hjoin) & Hid & Himg & Hsale & _).
  split; [eauto |]. split; [| split; [| split]].
  - intros Hc. rewrite Hc in Hid.
    pose proof (split_has_second "products/" (url p) ltac:(discriminate)
                  Hc "") as Hlen.
    fold (PyStr.split "products/" (url p)) in Hlen.
    destruct (PyStr.split "products/" (url p)) as [|before [|id rest]];
      simpl in Hlen; try lia.
    exists before, id. simpl in Hid. auto.
  - intros Hc. now rewrite Hc in Hid.
  - exact Himg.
  - exact Hsale.
Qed.

(** X5: The title, the price and the compare price of every returned product
    are trimmed: they neither start nor end with whitespace. *)
Theorem extracted_product_text_trimmed html_content products p :
  extract_product_data parse_html urljoin html_content = Ok products ->
  In p products ->
  Text.clean_ends PyStr.is_space (title p)
  /\ Text.clean_ends PyStr.is_space (price p)
  /\ (forall c, compare_price p = Some c ->
                Text.clean_ends PyStr.is_space c).
Proof.
  unfold extract_product_data. rewrite process_cards_spec.
  intros [= <-] Hin. simpl in Hin.
  apply in_flat_map in Hin as (card & _ & Hp).
  apply in_card_products, process_card_appended in Hp
    as (_ & _ & _ & _ & Ht & Hpr & Hc).
  split; [| split].
  - rewrite <- Ht. apply strip_clean_ends.
  - rewrite <- Hpr. apply strip_clean_ends.
  - intros c Hcp. rewrite <- (Hc c Hcp). apply strip_clean_ends.
Qed.

(** X6: A card makes [process_card] raise only through [urljoin]; in
    particular indexing the split URL never raises. *)
Theorem process_card_raises_only_urljoin card e :
  process_card urljoin card = Raise e ->
  exists link,
    select_one ("a", "product-item__image-wrapper") card = Some link
    /\ urljoin BASE_URL (get link "href" "") = Raise e.
Proof.
  unfold process_card.
  destruct (select_one ("a", "product-item__image-wrapper") card)
    as [link|]; [| discriminate].
  destruct (urljoin BASE_URL (get link "href" "")) as [product_url | e']
    eqn:Hjoin.
  - unfold bind at 1.
    destruct (PyStr.contains "products/" product_url) eqn:Hin;
      [| discriminate].
    pose proof (split_has_second "products/" product_url
                  ltac:(discriminate) Hin "") as Hlen.
    fold (PyStr.split "products/" product_url) in Hlen.
    destruct (PyStr.split "products/" product_url) as [|a [|b rest]];
      simpl in Hlen; try lia.
    discriminate.
  - simpl. intros [= <-]. exists link. split; [reflexivity | exact Hjoin].
Qed.

(** At most one product per card. *)
Lemma extracted_products_at_most_cards html_content products :
  extract_product_data parse_html urljoin html_content = Ok products ->
  (List.length products
   <= List.length (select ("div", "product-item") (parse_html html_content)))%nat.
Proof.
  unfold extract_product_data. rewrite process_cards_spec.
  intros [= <-]. simpl.
  induction (select ("div", "product-item") (parse_html html_content))
    as [|card cards IH]; simpl; [lia |].
  rewrite length_app. unfold card_products at 1.
  destruct (process_card urljoin card) as [[|q] | e]; simpl; lia.
Qed.

End ExtractMore.

(* ===================================================================== *)
(** * Slugs and groomer identifiers *)
(* ===================================================================== *)

Section SlugFacts.
Import PyStr Text RecommendationAgent.

Lemma map_chars_all f p s :
  (forall c, p (f c) = true) -> all_chars p (map_chars f s) = true.
Proof.
  intros H. induction s as [|c s IH]; simpl; [reflexivity |].
  now rewrite H, IH.
Qed.

Lemma map_chars_fixed f p s :
  (forall c, p c = true -> f c = c) ->
  all_chars p s = true -> map_chars f s = s.
Proof.
  intros H. induction s as [|c s IH]; simpl; [reflexivity |].
  intros Hall. apply andb_prop in Hall as [Hc Hs].
  now rewrite (H c Hc), (IH Hs).
Qed.

Lemma map_chars_compose f g s :
  map_chars f (map_chars g s) = map_chars (fun c => f (g c)) s.
Proof. induction s as [|c s IH]; simpl; [reflexivity | now rewrite IH]. Qed.

Lemma slug_char_of c :
  slug_char (let c' := lower_char c in
             if is_alnum c' then c' else "-"%char) = true.
Proof. destruct c as [[] [] [] [] [] [] [] []]; reflexivity. Qed.

Lemma slug_char_lower c : slug_char c = true -> lower_char c = c.
Proof. destruct c as [[] [] [] [] [] [] [] []]; (reflexivity || discriminate). Qed.

Lemma slug_char_kept c :
  slug_char c = true -> (if is_alnum c then c else "-"%char) = c.
Proof. destruct c as [[] [] [] [] [] [] [] []]; (reflexivity || discriminate). Qed.

Lemma id_char_of c : id_char (if is_alnum c then c else "-"%char) = true.
Proof. destruct c as [[] [] [] [] [] [] [] []]; reflexivity. Qed.

(** X7: A slug consists of lower-case letters, digits and dashes, neither
    starts nor ends with a dash, and is its own slug. *)
Theorem slug_shape s :
  all_chars slug_char (slug s) = true
  /\ clean_ends is_dash (slug s)
  /\ slug (slug s) = slug s.
Proof.
  assert (Hall : all_chars slug_char (slug s) = true).
  { unfold slug, strip_dash. apply all_chars_strip.
    unfold sub_non_alnum, lower. rewrite map_chars_compose.
    apply map_chars_all. exact slug_char_of. }
  split; [exact Hall |]. split.
  - unfold slug, strip_dash. apply strip_clean_ends.
  - unfold slug at 1.
    unfold lower. rewrite (map_chars_fixed _ slug_char _ slug_char_lower Hall).
    unfold sub_non_alnum.
    rewrite (map_chars_fixed _ slug_char _ slug_char_kept Hall).
    unfold slug, strip_dash. apply strip_idempotent.
Qed.

End SlugFacts.

(* ===================================================================== *)
(** * Further properties of the groomer agent *)
(* ===================================================================== *)

Section GroomerMore.
Import RecommendationAgent PyFloat.

(** X8: The URL given to a recommendation is never empty, and it is either
    the input URL or a URL on www.petbacker.ph. *)
Theorem groomer_url_nonempty_on_host groomer_data dog_breed :
  let out := groomer_url groomer_data dog_breed in
  out <> ""
  /\ (out = get (gd_url groomer_data) ""
      \/ PyStr.startswith "https://www.petbacker.ph/" out = true).
Proof.
  unfold groomer_url.
  destruct (get (gd_url groomer_data) "") as [|c url] eqn:Hurl.
  - simpl. split; [discriminate | right; reflexivity].
  - cbn [PyStr.truthy negb].
    destruct (is_profile_url (String c url)); cbn [negb].
    + split; [discriminate | now left].
    + destruct (PyStr.truthy _ && negb _).
      * split; [discriminate | right; reflexivity].
      * destruct (PyStr.contains "/philippines/grooming/" (String c url)).
        { split; [discriminate | now left]. }
        destruct (PyStr.contains "petbacker.ph/s/" (String c url)).
        { split; [discriminate | right; reflexivity]. }
        split; [discriminate | now left].
Qed.

Lemma extract_services_invariant content kws : forall services,
  NoDup services ->
  incl services (map snd service_keywords) ->
  incl (map snd kws) (map snd service_keywords) ->
  let result :=
    fold_left (fun services kw =>
                 if PyStr.contains (fst kw) (PyStr.lower content) then
                   if existsb (String.eqb (snd kw)) services then services
                   else (services ++ [snd kw])%list
                 else services) kws services in
  NoDup result /\ incl result (map snd service_keywords).
Proof.
  induction kws as [|kw kws IH]; intros services Hnd Hincl Hkws; simpl.
  - auto.
  - assert (Hkws' : incl (map snd kws) (map snd service_keywords))
      by (intros x Hx; apply Hkws; now right).
    destruct (PyStr.contains (fst kw) (PyStr.lower content));
      [| now apply IH].
    destruct (existsb (String.eqb (snd kw)) services) eqn:Hex;
      [now apply IH |].
    apply IH; [| | exact Hkws'].
    + apply NoDup_app; [exact Hnd | repeat constructor; intros [] |].
      intros x Hx [<- | []].
      assert (existsb (String.eqb (snd kw)) services = true)
        by (apply existsb_exists; exists (snd kw);
            split; [exact Hx | apply String.eqb_refl]).
      congruence.
    + apply incl_app; [exact Hincl |].
      intros x [<- | []]. apply Hkws. now left.
Qed.

(** X9: The services read from a description are distinct, and each is one of
    the nine service names of the keyword table. *)
Theorem extract_services_distinct_known content :
  NoDup (extract_services content)
  /\ incl (extract_services content) (map snd service_keywords).
Proof.
  unfold extract_services.
  apply extract_services_invariant;
    [constructor | intros x [] | apply incl_refl].
Qed.

Section Agent.

Variable search_petbacker_groomers :
  string -> string -> Z -> result (list ScrapedGroomer).
Variable search_location : string -> option string.
Variable search_rating : string -> option pyfloat.
Variable search_contact : string -> option string.

(** A dictionary with a [breed_compatibility] key is scored without the
    language model and without looking at any credential. *)
Lemma seeded_groomer_without_model groomer_data dog_breed
      env1 env2 model1 model2 key1 key2 :
  gd_breed_compatibility groomer_data <> None ->
  analyze_groomer_suitability env1 model1 search_location search_rating
    search_contact groomer_data dog_breed key1
  = analyze_groomer_suitability env2 model2 search_location search_rating
      search_contact groomer_data dog_breed key2.
Proof.
  intros Hseed. unfold analyze_groomer_suitability, groomer_score.
  destruct (gd_breed_compatibility groomer_data); [| now elim Hseed].
  now rewrite !andb_false_r.
Qed.

(** X10: Every groomer that [search_for_groomers] returns carries a seed and
    no id, so its analysis never consults the language model: the result
    is the same for every model and every credential. *)
Theorem searched_groomers_scored_without_model dog_breed location max_results
        results groomer_data :
  search_for_groomers search_petbacker_groomers dog_breed location
                      max_results = Ok results ->
  In groomer_data results ->
  gd_id groomer_data = None
  /\ forall breed env1 env2 model1 model2 key1 key2,
       analyze_groomer_suitability env1 model1 search_location search_rating
         search_contact groomer_data breed key1
       = analyze_groomer_suitability env2 model2 search_location
           search_rating search_contact groomer_data breed key2.
Proof.
  unfold search_for_groomers.
  assert (Hseed : forall gd,
            In gd results ->
            (exists sg, gd = convert_groomer location sg)
            \/ gd = mock_groomer dog_breed ->
            gd_id gd = None /\ gd_breed_compatibility gd <> None).
  { intros gd _ [(sg & ->) | ->]; split; simpl; congruence. }
  intros Hres Hin.
  assert (Horigin : (exists sg, groomer_data = convert_groomer location sg)
                    \/ groomer_data = mock_groomer dog_breed).
  { destruct (search_petbacker_groomers dog_breed location max_results)
      as [[|sg sgs] | e]; simpl in Hres; injection Hres as <-.
    - destruct Hin as [<- | []]. now right.
    - left. change (In groomer_data (map (convert_groomer location)
                                         (sg :: sgs))) in Hin.
      apply in_map_iff in Hin as (sg' & <- & _). eauto.
    - destruct Hin as [<- | []]. now right. }
  destruct (Hseed groomer_data Hin Horigin) as [Hid Hcompat].
  split; [exact Hid |].
  intros. now apply seeded_groomer_without_model.
Qed.

End Agent.

End GroomerMore.

(* ===================================================================== *)
(** * Further properties of the analyses *)
(* ===================================================================== *)

Section AnalysisMore.
Import RecommendationAgent PyFloat.

Lemma groomer_create_inv id name url loc services rating reviews reason f
      image contact g :
  GroomerRecommendation.create id name url loc services rating reviews
    reason f image contact = Ok g ->
  exists q,
    f = Fin q /\ (0 <= q <= 10)%Q
    /\ g = GroomerRecommendation.mk id name url loc services rating reviews
             reason q image contact.
Proof.
  unfold GroomerRecommendation.create.
  destruct f as [q | | |]; try discriminate. simpl.
  destruct (Qle_bool 0 q) eqn:H0; [| discriminate].
  destruct (Qle_bool q 10) eqn:H10; [| discriminate].
  intros [= <-]. apply Qle_bool_iff in H0, H10. eauto.
Qed.

Lemma groomer_create_out_of_range id name url loc services rating reviews
      reason q image contact :
  ~ (0 <= q <= 10)%Q ->
  GroomerRecommendation.create id name url loc services rating reviews
    reason (Fin q) image contact = Raise ValidationError.
Proof.
  intros Hout. unfold GroomerRecommendation.create. simpl.
  destruct (Qle_bool 0 q) eqn:H0; [| reflexivity].
  destruct (Qle_bool q 10) eqn:H10; [| reflexivity].
  apply Qle_bool_iff in H0, H10. now elim Hout.
Qed.

Lemma product_create_negative pid title url price image reviews reason q :
  (q < 0)%Q ->
  ProductRecommendation.create pid title url price image reviews reason
    (Fin q) = Raise ValidationError.
Proof.
  intros Hneg. unfold ProductRecommendation.create.
  destruct pid; [| reflexivity]. simpl.
  destruct (Qle_bool 0 q) eqn:H0; [| reflexivity].
  apply Qle_bool_iff in H0. exfalso. eapply Qlt_not_le; eassumption.
Qed.

Lemma min_10_finite q : min (Fin 10) (Fin q) = Fin (qmin 10 q).
Proof. unfold min, qmin, lt. now destruct (Qlt_bool q 10). Qed.

Section Product.

Variable env_openai_api_key : option string.
Variable complete_product_json :
  string -> PetExpressScraper.Product -> list ProductReview.t ->
  string -> string -> result ProductAnalysis.
Variable float_str : pyfloat -> string.

#[local] Abbreviation analyze :=
  (analyze_product_suitability env_openai_api_key complete_product_json
                               float_str).

(** X11: On the AI path a score above 10 is capped to 10 and a missing score
    counts as 7, while a negative score is rejected by the model class
    inside the [try] block, so that the rule-based result is returned
    instead. *)
Theorem ai_product_score_capped_or_replaced self_key product reviews
        dog_breed age api_key k analysis q :
  py_or api_key (py_or self_key env_openai_api_key) = Some k ->
  PyStr.truthy k = true ->
  complete_product_json k product reviews dog_breed age = Ok analysis ->
  get (pa_suitability_score analysis) (Fin 7) = Fin q ->
  ((0 <= q)%Q ->
   forall id, PetExpressScraper.product_id product = Some id ->
   exists r,
     analyze self_key product reviews dog_breed age api_key = Ok r
     /\ ProductRecommendation.suitability_score r == Qmin 10 q)
  /\ ((q < 0)%Q ->
      analyze self_key product reviews dog_breed age api_key
      = rule_based_product product reviews dog_breed age).
Proof.
  intros Hkey Htruthy Hmodel Hscore.
  unfold analyze_product_suitability. rewrite Hkey, Htruthy.
  unfold ai_product. rewrite Hmodel. cbn [bind].
  change (match pa_suitability_score analysis with
          | Some f => f
          | None => Fin 7
          end) with (get (pa_suitability_score analysis) (Fin 7)).
  rewrite Hscore, min_10_finite.
  split.
  - intros Hpos id Hid. rewrite Hid, product_create_in_range.
    + eexists. split; [reflexivity |]. simpl. apply qmin_Qmin.
    + rewrite qmin_Qmin. split.
      * apply Q.min_glb; [discriminate | exact Hpos].
      * apply Q.le_min_l.
  - intros Hneg. rewrite product_create_negative; [reflexivity |].
    rewrite qmin_Qmin.
    eapply Qle_lt_trans; [apply Q.le_min_r | exact Hneg].
Qed.

End Product.

Section Groomer.

Variable env_openai_api_key : option string.
Variable complete_groomer_json :
  string -> string -> string -> list string -> string ->
  result GroomerAnalysis.
Variable search_location : string -> option string.
Variable search_rating : string -> option pyfloat.
Variable search_contact : string -> option string.

#[local] Abbreviation analyze_groomer :=
  (analyze_groomer_suitability env_openai_api_key complete_groomer_json
     search_location search_rating search_contact).

(** X12: The groomer analysis does not cap the language model's score: with a
    credential and no seed, a score within 0..10 is returned as it is with
    the model's reason, and a score outside makes the call raise. *)
Theorem ai_groomer_score_unclamped groomer_data dog_breed api_key k
        analysis q :
  py_or api_key env_openai_api_key = Some k ->
  PyStr.truthy k = true ->
  gd_breed_compatibility groomer_data = None ->
  complete_groomer_json k
    (get (gd_title groomer_data) "Unknown Groomer")
    (get (gd_content groomer_data) "")
    (extract_services (get (gd_content groomer_data) "")) dog_breed
  = Ok analysis ->
  get (ga_suitability_score analysis) (Fin 7) = Fin q ->
  ((0 <= q <= 10)%Q ->
   exists g,
     analyze_groomer groomer_data dog_breed api_key = Ok g
     /\ GroomerRecommendation.suitability_score g = q
     /\ GroomerRecommendation.recommendation_reason g
        = get (ga_recommendation_reason analysis)
              ("AI-analyzed groomer for " ++ dog_breed ++ " dogs."))
  /\ (~ (0 <= q <= 10)%Q ->
      analyze_groomer groomer_data dog_breed api_key
      = Raise ValidationError).
Proof.
  intros Hkey Htruthy Hseed Hmodel Hscore.
  unfold analyze_groomer_suitability, groomer_score.
  rewrite Hkey, Hseed. cbn [truthy_key get]. rewrite Htruthy.
  cbn [andb]. rewrite Hmodel, Hscore.
  split.
  - intros Hrange. rewrite groomer_create_in_range by exact Hrange.
    eexists. repeat split.
  - intros Hout. now apply groomer_create_out_of_range.
Qed.

(** X13: The identifier of a returned groomer is made of letters, digits and
    dashes and neither starts nor ends with a dash. *)
Theorem groomer_id_shape groomer_data dog_breed api_key g :
  analyze_groomer groomer_data dog_breed api_key = Ok g ->
  Text.all_chars Text.id_char (GroomerRecommendation.groomer_id g) = true
  /\ Text.clean_ends Text.is_dash (GroomerRecommendation.groomer_id g).
Proof.
  unfold analyze_groomer_suitability.
  destruct (groomer_score _ _ _ _ _) as [s reason].
  intros H. apply groomer_create_inv in H as (q & _ & _ & ->). simpl.
  unfold PyStr.strip_dash. split.
  - apply all_chars_strip. unfold PyStr.sub_non_alnum.
    apply map_chars_all. exact id_char_of.
  - apply strip_clean_ends.
Qed.

End Groomer.

End AnalysisMore.

(* ===================================================================== *)
(** * Further properties of [get_product_recommendations] *)
(* ===================================================================== *)

Section PipelineMore.
Import RecommendationAgent PyFloat.

Variable env_openai_api_key : option string.
Variable complete_product_json :
  string -> PetExpressScraper.Product -> list ProductReview.t ->
  string -> string -> result ProductAnalysis.
Variable float_str : pyfloat -> string.
Variable search_petbacker_groomers :
  string -> string -> Z -> result (list ScrapedGroomer).
Variable complete_groomer_json :
  string -> string -> string -> list string -> string ->
  result GroomerAnalysis.
Variable search_location : string -> option string.
Variable search_rating : string -> option pyfloat.
Variable search_contact : string -> option string.
Variable search_for_reviews :
  option string -> string -> string -> string -> Z ->
  result (list ProductReview.t).
Variable generate_recommendations_summary :
  string -> string -> string -> list ProductRecommendation.t ->
  option string -> option string.
Variable generate_groomer_summary :
  string -> list GroomerRecommendation.t -> option string -> option string.

#[local] Abbreviation analysed_products :=
  (analyze_products env_openai_api_key complete_product_json float_str
                    search_for_reviews).
#[local] Abbreviation analysed_groomers :=
  (analyze_groomers env_openai_api_key complete_groomer_json search_location
                    search_rating search_contact).
#[local] Abbreviation analyze_groomer :=
  (analyze_groomer_suitability env_openai_api_key complete_groomer_json
     search_location search_rating search_contact).
#[local] Abbreviation groomers_of :=
  (groomer_block env_openai_api_key search_petbacker_groomers
                 complete_groomer_json search_location search_rating
                 search_contact generate_groomer_summary).
#[local] Abbreviation recommend :=
  (get_product_recommendations env_openai_api_key complete_product_json
     float_str search_petbacker_groomers complete_groomer_json
     search_location search_rating search_contact search_for_reviews
     generate_recommendations_summary generate_groomer_summary).
#[local] Abbreviation gscore := GroomerRecommendation.suitability_score.
#[local] Abbreviation pscore := ProductRecommendation.suitability_score.

(** What the analysis loop does with one product: it is analysed with the
    reviews found, or with no reviews when the review search raised. *)
#[local] Abbreviation analysis_of :=
  (fun (dog_breed age : string) (tavily_api_key openai_api_key : option string)
       (product : PetExpressScraper.Product) =>
     analyze_product_suitability env_openai_api_key complete_product_json
       float_str openai_api_key product
       match search_for_reviews tavily_api_key
               (PetExpressScraper.title product) dog_breed age 5 with
       | Ok found => found
       | Raise _ => []
       end
       dog_breed age openai_api_key).

Lemma analyze_products_fold dog_breed age tavily_api_key openai_api_key
      products : forall acc,
  fold_left
    (fun recommendations product =>
       match analysis_of dog_breed age tavily_api_key openai_api_key
                         product with
       | Ok recommendation => (recommendations ++ [recommendation])%list
       | Raise _ => recommendations
       end) products acc
  = (acc ++ flat_map
              (fun product =>
                 analysed_products [product] dog_breed age tavily_api_key
                                   openai_api_key) products)%list.
Proof.
  induction products as [|p products IH]; intros acc; simpl.
  - now rewrite app_nil_r.
  - rewrite IH. unfold analyze_products at 2. simpl.
    destruct (analyze_product_suitability _ _ _ _ _ _ _ _ _);
      simpl; [now rewrite <- app_assoc | reflexivity].
Qed.

Lemma analyze_products_flat dog_breed age tavily_api_key openai_api_key
      products :
  analysed_products products dog_breed age tavily_api_key openai_api_key
  = flat_map (fun product =>
                analysed_products [product] dog_breed age tavily_api_key
                                  openai_api_key) products.
Proof. unfold analyze_products at 1. now rewrite analyze_products_fold. Qed.

(** X14: Failure isolation: analysing a list of products gives the same as
    analysing its parts one after the other; one product contributes its
    recommendation, or nothing when its analysis raises, and a failed
    review search counts as no reviews. *)
Theorem analyze_products_isolated dog_breed age tavily_api_key
        openai_api_key before after product :
  analysed_products (before ++ product :: after) dog_breed age
                    tavily_api_key openai_api_key
  = (analysed_products before dog_breed age tavily_api_key openai_api_key
     ++ match analysis_of dog_breed age tavily_api_key openai_api_key
                          product with
        | Ok recommendation => [recommendation]
        | Raise _ => []
        end
     ++ analysed_products after dog_breed age tavily_api_key
                          openai_api_key)%list.
Proof.
  rewrite !(analyze_products_flat _ _ _ _ (_ ++ _)), flat_map_app.
  simpl. rewrite <- !analyze_products_flat.
  f_equal; f_equal; unfold analyze_products; simpl;
    now destruct (analyze_product_suitability _ _ _ _ _ _ _ _ _).
Qed.

Lemma analysed_products_forall (P : ProductRecommendation.t -> Prop)
      dog_breed age tavily_api_key openai_api_key products :
  (forall product r,
     In product products ->
     analysis_of dog_breed age tavily_api_key openai_api_key product = Ok r ->
     P r) ->
  Forall P (analysed_products products dog_breed age tavily_api_key
                              openai_api_key).
Proof.
  intros H. rewrite analyze_products_flat. apply Forall_forall.
  intros r Hr. apply in_flat_map in Hr as (product & Hin & Hr).
  unfold analyze_products in Hr. simpl in Hr.
  destruct (analyze_product_suitability _ _ _ _ _ _ _ _ _) as [r' | e]
    eqn:Ha; simpl in Hr; [| contradiction].
  destruct Hr as [<- | []]. eapply H; eassumption.
Qed.

Lemma analysed_products_length dog_breed age tavily_api_key openai_api_key
      products :
  (List.length (analysed_products products dog_breed age tavily_api_key
                                  openai_api_key)
   <= List.length products)%nat.
Proof.
  rewrite analyze_products_flat.
  induction products as [|p products IH]; simpl; [lia |].
  rewrite length_app. unfold analyze_products at 1. simpl.
  destruct (analyze_product_suitability _ _ _ _ _ _ _ _ _); simpl; lia.
Qed.

Lemma analysed_groomers_forall (P : GroomerRecommendation.t -> Prop)
      dog_breed openai_api_key results :
  (forall groomer_data g,
     analyze_groomer groomer_data dog_breed openai_api_key = Ok g -> P g) ->
  forall acc, Forall P acc ->
  Forall P
    (fold_left
       (fun groomer_recommendations groomer_data =>
          match analyze_groomer groomer_data dog_breed openai_api_key with
          | Ok groomer => (groomer_recommendations ++ [groomer])%list
          | Raise _ => groomer_recommendations
          end) results acc).
Proof.
  intros H. induction results as [|gd results IH]; intros acc Hacc; simpl.
  - exact Hacc.
  - apply IH.
    destruct (analyze_groomer gd dog_breed openai_api_key) eqn:Ha;
      [| exact Hacc].
    apply Forall_app. split; [exact Hacc |].
    constructor; [| constructor]. eapply H. eassumption.
Qed.

Lemma slice_to_length {A} k (l : list A) :
  (List.length (slice_to k l) <= List.length l)%nat
  /\ (0 <= k -> (List.length (slice_to k l) <= Z.to_nat k)%nat).
Proof.
  unfold slice_to. destruct (Z.leb_spec 0 k).
  - rewrite length_firstn. lia.
  - rewrite length_firstn. lia.
Qed.

(** The groomer block always produces a non-empty list of groomers, all
    with a suitability score between 0 and 10. *)
Lemma groomer_block_total dog_breed openai_api_key :
  exists groomers text,
    groomers_of dog_breed openai_api_key = Ok (groomers, text)
    /\ groomers <> []
    /\ Forall (fun g => (0 <= gscore g <= 10)%Q) groomers.
Proof.
  unfold groomer_block.
  destruct (fallback_groomer_ok dog_breed) as (fb & Hfb).
  destruct (fallback_error_groomer_ok dog_breed) as (fe & Hfe).
  assert (Hfbr : (0 <= gscore fb <= 10)%Q)
    by (unfold fallback_groomer in Hfb; now apply groomer_create_ok in Hfb).
  assert (Hfer : (0 <= gscore fe <= 10)%Q)
    by (unfold fallback_error_groomer in Hfe;
        now apply groomer_create_ok in Hfe).
  rewrite Hfb, Hfe.
  destruct (search_for_groomers search_petbacker_groomers dog_breed
                                "Philippines" 3) as [results | e]; simpl.
  - destruct results as [|r results]; simpl.
    + exists [fb]. eexists. repeat split; [discriminate | auto].
    + destruct (analysed_groomers (r :: results) dog_breed openai_api_key)
        as [|g gs] eqn:Han; simpl.
      * exists [fb]. eexists. repeat split; [discriminate | auto].
      * eexists. eexists. split; [reflexivity |]. split.
        -- intros Hnil.
           pose proof (sorted_reverse_perm gscore (g :: gs)) as Hp.
           rewrite Hnil in Hp. apply Permutation_sym in Hp.
           now apply Permutation_nil in Hp.
        -- eapply Permutation_Forall; [apply sorted_reverse_perm |].
           rewrite <- Han. unfold analyze_groomers.
           apply analysed_groomers_forall; [| constructor].
           intros gd g' Hg'. now apply analyze_groomer_ok in Hg'.
  - exists [fe]. eexists. repeat split; [discriminate | auto].
Qed.

(** X15: The call raises only for want of a summary text: whatever the
    products, the searches and the language model do, a summary text
    gives a response carrying it, and a completion without text makes the
    response's validation fail. *)
Theorem response_built_when_summary products query dog_breed age
        tavily_api_key openai_api_key max_products include_groomers :
  let sorted_recommendations :=
    PySorted.sorted_reverse pscore
      (analysed_products
         (slice_to (Z.min (Z.of_nat (List.length products)) max_products)
                   products)
         dog_breed age tavily_api_key openai_api_key) in
  match generate_recommendations_summary query dog_breed age
          sorted_recommendations openai_api_key with
  | Some text =>
      exists response,
        recommend products query dog_breed age tavily_api_key openai_api_key
                  max_products include_groomers = Ok response
        /\ RecommendationResponse.summary response = text
        /\ RecommendationResponse.recommendations response
           = sorted_recommendations
  | None =>
      recommend products query dog_breed age tavily_api_key openai_api_key
                max_products include_groomers = Raise ValidationError
  end.
Proof.
  intros sorted_recommendations. unfold get_product_recommendations.
  fold sorted_recommendations.
  destruct (groomer_block_total dog_breed openai_api_key)
    as (groomers & text & Hblock & _).
  destruct include_groomers.
  - rewrite Hblock. simpl.
    destruct (generate_recommendations_summary _ _ _ _ _); simpl;
      [eexists; repeat split | reflexivity].
  - simpl.
    destruct (generate_recommendations_summary _ _ _ _ _); simpl;
      [eexists; repeat split | reflexivity].
Qed.

(** X16: With [include_groomers] every response has at least one groomer (a
    placeholder when none could be analysed); without it the response has
    neither a groomer list nor a groomer summary. *)
Theorem response_groomers_present products query dog_breed age
        tavily_api_key openai_api_key max_products include_groomers response :
  recommend products query dog_breed age tavily_api_key openai_api_key
            max_products include_groomers = Ok response ->
  if include_groomers then
    exists groomer groomers,
      RecommendationResponse.groomer_recommendations response
      = Some (groomer :: groomers)
  else
    RecommendationResponse.groomer_recommendations response = None
    /\ RecommendationResponse.groomer_summary response = None.
Proof.
  unfold get_product_recommendations.
  destruct (groomer_block_total dog_breed openai_api_key)
    as (groomers & text & Hblock & Hne & _).
  destruct include_groomers.
  - rewrite Hblock. simpl. unfold RecommendationResponse.create.
    destruct (generate_recommendations_summary _ _ _ _ _); [| discriminate].
    intros [= <-]. simpl.
    destruct groomers as [|g gs]; [now elim Hne | eauto].
  - simpl. unfold RecommendationResponse.create.
    destruct (generate_recommendations_summary _ _ _ _ _); [| discriminate].
    intros [= <-]. simpl. auto.
Qed.

Lemma response_recommendations products query dog_breed age tavily_api_key
      openai_api_key max_products include_groomers response :
  recommend products query dog_breed age tavily_api_key openai_api_key
            max_products include_groomers = Ok response ->
  RecommendationResponse.recommendations response
  = PySorted.sorted_reverse pscore
      (analysed_products
         (slice_to (Z.min (Z.of_nat (List.length products)) max_products)
                   products)
         dog_breed age tavily_api_key openai_api_key)
  /\ match RecommendationResponse.groomer_recommendations response with
     | Some groomers =>
         exists text, groomers_of dog_breed openai_api_key
                      = Ok (groomers, text)
     | None => True
     end.
Proof.
  unfold get_product_recommendations.
  destruct include_groomers.
  - destruct (groomers_of dog_breed openai_api_key) as [[gl text] | e];
      simpl; [| discriminate].
    unfold RecommendationResponse.create.
    destruct (generate_recommendations_summary _ _ _ _ _); [| discriminate].
    intros [= <-]. simpl. eauto.
  - simpl. unfold RecommendationResponse.create.
    destruct (generate_recommendations_summary _ _ _ _ _); [| discriminate].
    intros [= <-]. simpl. auto.
Qed.

(** X17: A response never has more product recommendations than products
    given, nor more than [max_products] when that is not negative. *)
Theorem response_recommendation_count products query dog_breed age
        tavily_api_key openai_api_key max_products include_groomers response :
  recommend products query dog_breed age tavily_api_key openai_api_key
            max_products include_groomers = Ok response ->
  (List.length (RecommendationResponse.recommendations response)
   <= List.length products)%nat
  /\ (0 <= max_products ->
      Z.of_nat (List.length (RecommendationResponse.recommendations response))
      <= max_products).
Proof.
  intros H. apply response_recommendations in H as [-> _].
  rewrite <- (Permutation_length (sorted_reverse_perm pscore _)).
  pose proof (analysed_products_length dog_breed age tavily_api_key
                openai_api_key
                (slice_to (Z.min (Z.of_nat (List.length products))
                                 max_products) products)) as Hlen.
  destruct (slice_to_length
              (Z.min (Z.of_nat (List.length products)) max_products)
              products) as [Hl Hk].
  split; [lia |]. intros Hpos. specialize (Hk ltac:(lia)). lia.
Qed.

(** Every score of a response, of a product or of a groomer, placeholders
    included, lies between 0 and 10. *)
Lemma response_scores_in_range products query dog_breed age
        tavily_api_key openai_api_key max_products include_groomers response :
  recommend products query dog_breed age tavily_api_key openai_api_key
            max_products include_groomers = Ok response ->
  Forall (fun r => (0 <= pscore r <= 10)%Q)
         (RecommendationResponse.recommendations response)
  /\ match RecommendationResponse.groomer_recommendations response with
     | Some groomers => Forall (fun g => (0 <= gscore g <= 10)%Q) groomers
     | None => True
     end.
Proof.
  intros H. apply response_recommendations in H as [-> Hg]. split.
  - eapply Permutation_Forall; [apply sorted_reverse_perm |].
    apply analysed_products_forall.
    intros product r _ Hr. eapply analyze_product_in_range. exact Hr.
  - destruct (RecommendationResponse.groomer_recommendations response)
      as [groomers|]; [| exact I].
    destruct Hg as (text & Hblock).
    destruct (groomer_block_total dog_breed openai_api_key)
      as (groomers' & text' & Hblock' & _ & Hall).
    rewrite Hblock in Hblock'. now injection Hblock' as <- _.
Qed.

(** Without any usable credential every product of a response is scored
    by the rules: its score is the rule total of the reviews found for
    it, clamped to the interval from 2 to 10. *)
Lemma response_scores_without_credential products query dog_breed age
        tavily_api_key openai_api_key max_products include_groomers response :
  truthy_key openai_api_key = false ->
  truthy_key env_openai_api_key = false ->
  recommend products query dog_breed age tavily_api_key openai_api_key
            max_products include_groomers = Ok response ->
  Forall (fun r => (2 <= pscore r <= 10)%Q)
         (RecommendationResponse.recommendations response).
Proof.
  intros Hkey Henv H. apply response_recommendations in H as [-> _].
  eapply Permutation_Forall; [apply sorted_reverse_perm |].
  apply analysed_products_forall.
  intros product r _ Hr.
  rewrite analyze_without_key in Hr.
  - apply rule_based_product_score in Hr. rewrite Hr.
    apply clamp_2_10_range.
  - unfold py_or. rewrite !Hkey. exact Henv.
Qed.

End PipelineMore.

(* ===================================================================== *)
(** * The synthetic groomer *)
(* ===================================================================== *)

Section SyntheticGroomer.
Import RecommendationAgent PyFloat.

Variable env_openai_api_key : option string.
Variable complete_product_json :
  string -> PetExpressScraper.Product -> list ProductReview.t ->
  string -> string -> result ProductAnalysis.
Variable float_str : pyfloat -> string.
Variable search_petbacker_groomers :
  string -> string -> Z -> result (list ScrapedGroomer).
Variable complete_groomer_json :
  string -> string -> string -> list string -> string ->
  result GroomerAnalysis.
Variable search_location : string -> option string.
Variable search_rating : string -> option pyfloat.
Variable search_contact : string -> option string.
Variable search_for_reviews :
  option string -> string -> string -> string -> Z ->
  result (list ProductReview.t).
Variable generate_recommendations_summary :
  string -> string -> string -> list ProductRecommendation.t ->
  option string -> option string.
Variable generate_groomer_summary :
  string -> list GroomerRecommendation.t -> option string -> option string.

#[local] Abbreviation analyze_groomer :=
  (analyze_groomer_suitability env_openai_api_key complete_groomer_json
     search_location search_rating search_contact).
#[local] Abbreviation recommend :=
  (get_product_recommendations env_openai_api_key complete_product_json
     float_str search_petbacker_groomers complete_groomer_json
     search_location search_rating search_contact search_for_reviews
     generate_recommendations_summary generate_groomer_summary).

Lemma mock_groomer_url dog_breed :
  groomer_url (mock_groomer dog_breed) dog_breed
  = "https://www.petbacker.ph/philippines/grooming/manila--metro-manila--philippines/"
    ++ slug ("Professional " ++ dog_breed ++ " Groomer").
Proof. reflexivity. Qed.

(** The analysis of the placeholder of [search_for_groomers]: its seed 8
    is the score, and its listing URL becomes a profile-shaped one. *)
Lemma analyze_mock_groomer dog_breed openai_api_key :
  exists g,
    analyze_groomer (mock_groomer dog_breed) dog_breed openai_api_key = Ok g
    /\ GroomerRecommendation.suitability_score g = 8%Q
    /\ GroomerRecommendation.name g
       = "Professional " ++ dog_breed ++ " Groomer"
    /\ GroomerRecommendation.url g
       = "https://www.petbacker.ph/philippines/grooming/manila--metro-manila--philippines/"
         ++ slug ("Professional " ++ dog_breed ++ " Groomer").
Proof.
  unfold analyze_groomer_suitability, groomer_score.
  rewrite mock_groomer_url.
  cbn [mock_groomer gd_breed_compatibility gd_title gd_content get].
  rewrite andb_false_r.
  change (eq (Fin 8) (Fin 0)) with false. cbv iota.
  rewrite groomer_create_in_range by (split; discriminate).
  eexists. repeat split.
Qed.

(** X18: When the PetBacker scraper raises or finds nothing, a response with
    groomers has exactly one: the placeholder "Professional <breed>
    Groomer", with score 8 and the profile-shaped URL made from its
    listing URL; the groomer summary is written for that one groomer. *)
Theorem scraper_failure_gives_one_placeholder products query dog_breed age
        tavily_api_key openai_api_key max_products response :
  search_petbacker_groomers dog_breed "Philippines" 3 = Ok []
  \/ (exists e, search_petbacker_groomers dog_breed "Philippines" 3
                = Raise e) ->
  recommend products query dog_breed age tavily_api_key openai_api_key
            max_products true = Ok response ->
  exists g,
    RecommendationResponse.groomer_recommendations response = Some [g]
    /\ GroomerRecommendation.suitability_score g = 8%Q
    /\ GroomerRecommendation.name g
       = "Professional " ++ dog_breed ++ " Groomer"
    /\ GroomerRecommendation.url g
       = "https://www.petbacker.ph/philippines/grooming/manila--metro-manila--philippines/"
         ++ slug ("Professional " ++ dog_breed ++ " Groomer")
    /\ is_profile_url (GroomerRecommendation.url g) = true
    /\ RecommendationResponse.groomer_summary response
       = generate_groomer_summary dog_breed [g] openai_api_key.
Proof.
  intros Hscraper.
  destruct (analyze_mock_groomer dog_breed openai_api_key)
    as (g & Hg & Hscore & Hname & Hurl).
  assert (Hsearch : search_for_groomers search_petbacker_groomers dog_breed
                      "Philippines" 3 = Ok [mock_groomer dog_breed]).
  { unfold search_for_groomers.
    destruct Hscraper as [-> | (e & ->)]; reflexivity. }
  unfold get_product_recommendations, groomer_block.
  rewrite Hsearch. cbn [bind try_catch].
  unfold analyze_groomers. cbn [fold_left]. rewrite Hg.
  cbn [app PySorted.sorted_reverse PySorted.sort rev fold_right
       PySorted.insert bind fst snd].
  unfold RecommendationResponse.create.
  destruct (generate_recommendations_summary _ _ _ _ _); [| discriminate].
  intros [= <-]. exists g. cbn.
  repeat split; try assumption.
  rewrite Hurl.
  apply (profile_shaped "https://www.petbacker.ph" "/philippines/grooming/").
  simpl. auto.
Qed.

End SyntheticGroomer.

(* ===================================================================== *)
(** * Properties of the fetching functions of the product scraper *)
(* ===================================================================== *)

Section SliceFacts.
Import PyList.

Context {A : Type}.

(** A page window: for [0 <= a <= b] the slice [l[a:min(b, len(l))]] is
    the [b - a] elements that follow the first [a]. *)
Lemma slice_window (a b : Z) (l : list A) :
  0 <= a <= b ->
  slice a (Z.min b (Z.of_nat (List.length l))) l
  = firstn (Z.to_nat (b - a)) (skipn (Z.to_nat a) l).
Proof.
  intros [Ha Hb]. unfold slice, bound.
  destruct (Z.ltb_spec a 0); [lia |].
  destruct (Z.ltb_spec (Z.min b (Z.of_nat (List.length l))) 0); [lia |].
  destruct (Nat.le_gt_cases (List.length l) (Z.to_nat a)) as [Hlong | Hshort].
  - rewrite Nat.min_r by lia.
    rewrite !skipn_all2 by lia. now rewrite !firstn_nil.
  - rewrite (Nat.min_l (Z.to_nat a)) by lia.
    destruct (Z.le_gt_cases b (Z.of_nat (List.length l))) as [Hin | Hout].
    + rewrite Z.min_l by lia. rewrite Nat.min_l by lia.
      f_equal. lia.
    + rewrite Z.min_r by lia. rewrite Nat2Z.id, Nat.min_id.
      rewrite !firstn_all2; [reflexivity | |];
        rewrite length_skipn; lia.
Qed.

Lemma descending_firstn (key : A -> Q) n l :
  PySorted.descending key l -> PySorted.descending key (firstn n l).
Proof.
  unfold PySorted.descending. intros H. revert n.
  induction H as [|x l Hs IH Hall]; intros [|n]; simpl; try constructor.
  - apply IH.
  - apply Forall_forall. intros y Hy.
    apply (proj1 (Forall_forall _ _) Hall).
    rewrite <- (firstn_skipn n l). apply in_or_app. now left.
Qed.

Lemma descending_skipn (key : A -> Q) n l :
  PySorted.descending key l -> PySorted.descending key (skipn n l).
Proof.
  unfold PySorted.descending. intros H. revert n.
  induction H as [|x l Hs IH Hall]; intros [|n]; simpl;
    try constructor; auto.
Qed.

Lemma firstn_skipn_next n k (l : list A) :
  (firstn n (skipn k l) ++ firstn n (skipn (k + n) l))%list
  = firstn (n + n) (skipn k l).
Proof.
  rewrite Nat.add_comm with (n := k), <- skipn_skipn.
  generalize (skipn k l). clear l k. intros l.
  rewrite <- (firstn_skipn n l) at 3.
  rewrite firstn_app, firstn_firstn.
  replace (Nat.min (n + n) n) with n by lia.
  rewrite length_firstn.
  destruct (Nat.le_gt_cases n (List.length l)).
  - rewrite Nat.min_l by lia. now replace (n + n - n)%nat with n by lia.
  - rewrite (skipn_all2 l) by lia. now rewrite !firstn_nil.
Qed.

End SliceFacts.

Section FetchProps.
Import PetExpressScraper PetExpressFetch.

Variable parse_html : string -> node.
Variable urljoin : string -> string -> result string.
Variable quote_plus : string -> string.
Variable client_get : string -> result HttpUtils.Response.

#[local] Abbreviation search :=
  (search_products parse_html urljoin quote_plus client_get).
#[local] Abbreviation listing :=
  (get_all_products parse_html urljoin client_get).
#[local] Abbreviation extracted :=
  (fun html =>
     flat_map (card_products urljoin)
              (select ("div", "product-item") (parse_html html))).

Lemma extract_product_data_value html :
  extract_product_data parse_html urljoin html = Ok (extracted html).
Proof. unfold extract_product_data. now rewrite process_cards_spec. Qed.

(** The outcomes of [search_products]: an empty query raises [ValueError]
    whatever the site would answer; otherwise an exception of the
    transport propagates, any status other than 200 raises, and only a
    200 response gives a result. *)
Lemma search_products_outcomes query page limit :
  (query = "" -> search query page limit = Raise ValueError)
  /\ (query <> "" ->
      match client_get (search_url quote_plus query) with
      | Raise e => search query page limit = Raise e
      | Ok response =>
          if HttpUtils.status_code response =? 200 then
            exists hits, search query page limit = Ok hits
          else
            search query page limit
            = Raise (PlainException
                       ("Failed to search products: HTTP "
                        ++ PyStr.str_of_int (HttpUtils.status_code response)))
      end).
Proof.
  unfold search_products. split.
  - now intros ->.
  - intros Hq. destruct query; [now elim Hq |]. cbn [PyStr.truthy negb].
    destruct (client_get _) as [response | e]; cbn [bind]; [| reflexivity].
    destruct (HttpUtils.status_code response =? 200); cbn [negb];
      [| reflexivity].
    rewrite extract_product_data_value. cbn [bind]. eauto.
Qed.

(** X19: Pagination of the search: for [page >= 1] and [limit >= 0] a
    successful search returns the [limit] hits that follow the first
    [(page - 1) * limit] of the ranking, in descending order of relevance;
    a page and the next one together are the next [2 * limit] hits. *)
Theorem search_products_pages query page limit response :
  query <> "" ->
  client_get (search_url quote_plus query) = Ok response ->
  HttpUtils.status_code response = 200 ->
  1 <= page -> 0 <= limit ->
  let ranked := ranked_hits query (extracted (HttpUtils.text response)) in
  let window (p : Z) :=
    firstn (Z.to_nat limit) (skipn (Z.to_nat ((p - 1) * limit)) ranked) in
  search query page limit = Ok (window page)
  /\ search query (page + 1) limit = Ok (window (page + 1))
  /\ (List.length (window page) <= Z.to_nat limit)%nat
  /\ PySorted.descending by_relevance (window page)
  /\ (window page ++ window (page + 1))%list
     = firstn (Z.to_nat (2 * limit))
              (skipn (Z.to_nat ((page - 1) * limit)) ranked).
Proof.
  intros Hq Hget H200 Hpage Hlimit ranked window.
  assert (Hsearch : forall p, 1 <= p -> search query p limit = Ok (window p)).
  { intros p Hp. unfold search_products.
    destruct query; [now elim Hq |]. cbn [PyStr.truthy negb].
    rewrite Hget. cbn [bind]. rewrite H200. cbn [Z.eqb Pos.eqb negb].
    rewrite extract_product_data_value. cbn [bind].
    fold ranked. rewrite slice_window by nia.
    unfold window. do 2 f_equal. lia. }
  split; [now apply Hsearch |]. split; [apply Hsearch; lia |].
  split; [unfold window; rewrite length_firstn; lia |]. split.
  - unfold window. apply descending_firstn, descending_skipn.
    apply sorted_reverse_descending.
  - unfold window.
    replace (Z.to_nat ((page + 1 - 1) * limit))
      with (Z.to_nat ((page - 1) * limit) + Z.to_nat limit)%nat by nia.
    rewrite firstn_skipn_next. f_equal. lia.
Qed.

Lemma partial_match_loop (P : string -> bool) words : forall start,
  fold_left (fun score qw => if P qw then score + 5 else score) words start
  = start + 5 * Z.of_nat (List.length (filter P words)).
Proof.
  induction words as [|w words IH]; intros start;
    cbn [fold_left filter List.length]; [lia |].
  rewrite IH. destruct (P w); cbn [List.length]; lia.
Qed.

(** X20: The relevance score is 0 unless the query occurs in the title (case
    ignored); otherwise it is 5 for every query word found inside a title
    word, plus 10 when a query word equals a title word: a multiple of 5
    between 0 and [10 + 5 * (number of query words)]. *)
Theorem relevance_bounds query title :
  let query_words := PyList.split_ws (PyStr.lower query) in
  0 <= relevance query title <= 10 + 5 * Z.of_nat (List.length query_words)
  /\ (5 | relevance query title)
  /\ (PyStr.contains (PyStr.lower query) (PyStr.lower title) = false ->
      relevance query title = 0).
Proof.
  intros query_words. unfold relevance. fold query_words.
  destruct (PyStr.truthy title
            && PyStr.contains (PyStr.lower query) (PyStr.lower title))
    eqn:Hin.
  - rewrite partial_match_loop.
    match goal with
    | |- context [filter ?P query_words] =>
        pose proof (filter_length_le P query_words) as Hlen;
        set (matched := List.length (filter P query_words)) in *
    end.
    split; [| split].
    + destruct (existsb _ query_words); lia.
    + destruct (existsb _ query_words).
      * exists (2 + Z.of_nat matched). lia.
      * exists (Z.of_nat matched). lia.
    + intros Hc. rewrite Hc, andb_false_r in Hin. discriminate.
  - split; [lia |]. split; [exists 0; lia | reflexivity].
Qed.

(** X21: [get_all_products] asks the site for page [page] of the collection and
    then skips [(page - 1) * limit] products of that page again: for
    [page >= 1] and [limit >= 0] it returns the [limit] products of the
    fetched page that follow its first [(page - 1) * limit]. *)
Theorem get_all_products_window category page limit response :
  client_get (collection_url category page) = Ok response ->
  HttpUtils.status_code response = 200 ->
  1 <= page -> 0 <= limit ->
  listing category page limit
  = Ok (firstn (Z.to_nat limit)
          (skipn (Z.to_nat ((page - 1) * limit))
                 (extracted (HttpUtils.text response))))
  /\ (Z.of_nat (List.length (extracted (HttpUtils.text response)))
      <= (page - 1) * limit ->
      listing category page limit = Ok []).
Proof.
  intros Hget H200 Hpage Hlimit.
  assert (Hvalue : listing category page limit
                   = Ok (firstn (Z.to_nat limit)
                           (skipn (Z.to_nat ((page - 1) * limit))
                                  (extracted (HttpUtils.text response))))).
  { unfold get_all_products. rewrite Hget. cbn [bind].
    rewrite H200. cbn [Z.eqb Pos.eqb negb].
    rewrite extract_product_data_value. cbn [bind].
    rewrite slice_window by nia. do 2 f_equal. lia. }
  split; [exact Hvalue |].
  intros Hshort. rewrite Hvalue, skipn_all2 by lia. now rewrite firstn_nil.
Qed.

End FetchProps.

(* ===================================================================== *)
(** * Counting occurrences *)
(* ===================================================================== *)

Section CountFacts.
Import ReviewScraper.

Lemma drop_nil n : PyStr.drop n "" = "".
Proof. now destruct n. Qed.

Lemma drop_drop a b s : PyStr.drop a (PyStr.drop b s) = PyStr.drop (b + a) s.
Proof.
  revert s. induction b as [|b IH]; intros s; [reflexivity |].
  destruct s as [|c s]; simpl; [apply drop_nil | apply IH].
Qed.

Lemma drop_length n s : (String.length (PyStr.drop n s) <= String.length s)%nat.
Proof.
  revert s. induction n as [|n IH]; intros s; [simpl; lia |].
  destruct s as [|c s]; simpl; [lia |]. specialize (IH s). lia.
Qed.

Lemma drop_app_length a b : PyStr.drop (String.length a) (a ++ b) = b.
Proof. induction a as [|c a IH]; [reflexivity | exact IH]. Qed.

Lemma append_assoc' (a b c : string) : (a ++ b) ++ c = a ++ b ++ c.
Proof. induction a as [|x a IH]; [reflexivity | simpl; now rewrite IH]. Qed.

Lemma append_length (a b : string) :
  String.length (a ++ b) = (String.length a + String.length b)%nat.
Proof. induction a as [|x a IH]; [reflexivity | simpl; now rewrite IH]. Qed.

Lemma lower_app a b : PyStr.lower (a ++ b) = PyStr.lower a ++ PyStr.lower b.
Proof.
  unfold PyStr.lower.
  induction a as [|x a IH]; [reflexivity | simpl; now rewrite IH].
Qed.

Lemma app_nonempty_head (q y : string) :
  q <> "" ->
  exists a r, q ++ y = String a r
              /\ PyStr.drop (String.length q - 1) r = y.
Proof.
  destruct q as [|a q]; [congruence |]. intros _.
  exists a, (q ++ y). split; [reflexivity |].
  simpl String.length. replace (S (String.length q) - 1)%nat
    with (String.length q) by lia.
  apply drop_app_length.
Qed.

Lemma nonempty_length (q : string) : q <> "" -> (1 <= String.length q)%nat.
Proof. destruct q; [congruence | simpl; lia]. Qed.

Variable p : string.
Hypothesis p_nonempty : p <> "".

Lemma startswith_nil : PyStr.startswith p "" = false.
Proof.
  generalize p_nonempty. generalize p as q.
  intros [|a q] H; [congruence | reflexivity].
Qed.

Lemma count_from_drop k s :
  PyStr.count_from p k s = PyStr.count p (PyStr.drop k s).
Proof.
  unfold PyStr.count. revert s.
  induction k as [|k IH]; intros s; [reflexivity |].
  destruct s as [|c s]; [| exact (IH s)].
  simpl. now rewrite startswith_nil.
Qed.

Lemma count_nil : PyStr.count p "" = 0%nat.
Proof. unfold PyStr.count. simpl. now rewrite startswith_nil. Qed.

Lemma count_cons c s :
  PyStr.count p (String c s)
  = if PyStr.startswith p (String c s)
    then S (PyStr.count p (PyStr.drop (String.length p - 1) s))
    else PyStr.count p s.
Proof.
  unfold PyStr.count at 1.
  change (PyStr.count_from p 0 (String c s))
    with (if PyStr.startswith p (String c s)
          then S (PyStr.count_from p (String.length p - 1) s)
          else PyStr.count_from p 0 s).
  now rewrite count_from_drop.
Qed.

(** Dropping a prefix never adds occurrences, and dropping at most the
    length of the pattern loses at most one. *)
Lemma count_drop n :
  forall s, (String.length s <= n)%nat ->
    (forall j, (PyStr.count p (PyStr.drop j s) <= PyStr.count p s)%nat)
    /\ (forall m, (m <= String.length p)%nat ->
                  (PyStr.count p s <= S (PyStr.count p (PyStr.drop m s)))%nat).
Proof.
  induction n as [|n IH]; intros s Hlen.
  - destruct s; [| simpl in Hlen; lia].
    split; intros; rewrite drop_nil; lia.
  - destruct s as [|c s].
    + split; intros; rewrite drop_nil; lia.
    + simpl in Hlen. assert (Hs : (String.length s <= n)%nat) by lia.
      destruct (IH s Hs) as [Hsuf Hstep]. split.
      * intros [|j]; [simpl; lia |].
        change (PyStr.drop (S j) (String c s)) with (PyStr.drop j s).
        rewrite count_cons. destruct (PyStr.startswith p (String c s)).
        -- specialize (Hsuf j).
           specialize (Hstep (String.length p - 1)%nat ltac:(lia)). lia.
        -- apply Hsuf.
      * intros [|m] Hm; [simpl; lia |].
        change (PyStr.drop (S m) (String c s)) with (PyStr.drop m s).
        rewrite count_cons. destruct (PyStr.startswith p (String c s)).
        -- replace (String.length p - 1)%nat
             with (m + (String.length p - 1 - m))%nat by lia.
           rewrite <- drop_drop.
           assert (Hd : (String.length (PyStr.drop m s) <= n)%nat)
             by (pose proof (drop_length m s); lia).
           destruct (IH _ Hd) as [Hsuf' _].
           specialize (Hsuf' (String.length p - 1 - m)%nat). lia.
        -- specialize (Hstep m ltac:(lia)). lia.
Qed.

Lemma count_suffix j s : (PyStr.count p (PyStr.drop j s) <= PyStr.count p s)%nat.
Proof. now apply (count_drop (String.length s) s). Qed.

(** An occurrence in front of [y] adds at least one to the count of [y]. *)
Lemma count_occurrence x y :
  (S (PyStr.count p y) <= PyStr.count p (x ++ p ++ y))%nat.
Proof.
  pose proof (nonempty_length p p_nonempty) as Hp.
  induction x as [|c x IH].
  - change ("" ++ p ++ y) with (p ++ y).
    pose proof (prefix_app p y) as Hst.
    destruct (app_nonempty_head p y p_nonempty) as (a & r & E & Hr).
    rewrite E in Hst |- *. rewrite count_cons, Hst, Hr. lia.
  - change (String c x ++ p ++ y) with (String c (x ++ p ++ y)).
    rewrite count_cons. destruct (PyStr.startswith p _); [| exact IH].
    apply le_n_S.
    assert (Hy : y = PyStr.drop (S (String.length x))
                       (PyStr.drop (String.length p - 1) (x ++ p ++ y))).
    { rewrite drop_drop.
      replace (String.length p - 1 + S (String.length x))%nat
        with (String.length (x ++ p)) by (rewrite append_length; lia).
      rewrite <- append_assoc'. now rewrite drop_app_length. }
    rewrite Hy at 1. apply count_suffix.
Qed.

Lemma occurs_count k s : occurs p k s -> (k <= PyStr.count p s)%nat.
Proof.
  induction 1 as [s | k x y _ IH]; [lia |].
  pose proof (count_occurrence x y). lia.
Qed.

Lemma occurs_contains k s : occurs p (S k) s -> PyStr.contains p s = true.
Proof.
  inversion 1; subst. apply contains_app, contains_prefix, prefix_app.
Qed.

End CountFacts.

Section MockReviews.
Import RecommendationAgent ReviewScraper PyFloat.

Lemma occurs_app_l p k x s : occurs p k s -> occurs p k (x ++ s).
Proof.
  destruct 1 as [s | k x' y H]; [constructor |].
  rewrite <- append_assoc'. now constructor.
Qed.

Lemma occurs_app_r p k s z : occurs p k s -> occurs p k (s ++ z).
Proof.
  induction 1 as [s | k x y H IH]; [constructor |].
  rewrite !append_assoc'. now constructor.
Qed.

Lemma occurs_app p j k s1 s2 :
  occurs p j s1 -> occurs p k s2 -> occurs p (j + k) (s1 ++ s2).
Proof.
  induction 1 as [s | j x y H IH]; intros H2.
  - now apply occurs_app_l.
  - rewrite !append_assoc'. simpl. constructor. now apply IH.
Qed.

Lemma occurs_once p x y : occurs p 1 (x ++ p ++ y).
Proof. repeat constructor. Qed.

Lemma occurs_lower p k s :
  occurs p k s -> occurs (PyStr.lower p) k (PyStr.lower s).
Proof.
  induction 1 as [s | k x y H IH]; [constructor |].
  rewrite !lower_app. now constructor.
Qed.

Lemma truthy_nonempty s : s <> "" -> PyStr.truthy s = true.
Proof. destruct s; [congruence | reflexivity]. Qed.

Ltac find_occurrence :=
  solve [ apply occurs_once
        | apply occurs_app_l; find_occurrence
        | apply occurs_app_r; find_occurrence ].

Lemma mock_breed_occurrences product_title dog_breed age :
  dog_breed <> "" -> age <> "" ->
  occurs dog_breed 3
         (all_review_content (mock_reviews product_title dog_breed age)).
Proof.
  intros Hb Ha. unfold mock_reviews, all_review_content.
  rewrite (truthy_nonempty _ Hb), (truthy_nonempty _ Ha).
  cbn [app fold_left ProductReview.content].
  apply occurs_app_r.
  apply (occurs_app _ 2 1); [apply (occurs_app _ 1 1) |]; find_occurrence.
Qed.

Lemma mock_age_occurrences product_title dog_breed age :
  age <> "" ->
  occurs age 2
         (all_review_content
            (slice_to 5 (mock_reviews product_title dog_breed age))).
Proof.
  intros Ha. unfold mock_reviews, all_review_content.
  rewrite (truthy_nonempty _ Ha).
  destruct (PyStr.truthy dog_breed);
    cbn [app fold_left ProductReview.content slice_to Z.leb Z.compare Z.to_nat
         Pos.to_nat Pos.iter_op Nat.add firstn].
  - do 2 apply occurs_app_r.
    apply (occurs_app _ 1 1); find_occurrence.
  - apply occurs_app_r.
    apply (occurs_app _ 1 1); find_occurrence.
Qed.

Lemma mock_reviews_uncut product_title dog_breed age :
  slice_to 5 (mock_reviews product_title dog_breed age)
  = mock_reviews product_title dog_breed age.
Proof.
  unfold mock_reviews.
  destruct (PyStr.truthy dog_breed), (PyStr.truthy age); reflexivity.
Qed.

Lemma mentions_from terms text : forall n,
  (n <= fold_left (fun n term =>
                     if PyStr.contains term text
                     then (n + PyStr.count term text)%nat else n) terms n)%nat.
Proof.
  induction terms as [|t terms IH]; intros n; simpl; [lia |].
  destruct (PyStr.contains t text).
  - specialize (IH (n + PyStr.count t text)%nat). lia.
  - apply IH.
Qed.

(** The first search term contributes every occurrence it has. *)
Lemma mentions_first term terms text k :
  term <> "" -> occurs term k text ->
  (k <= mentions (term :: terms) text)%nat.
Proof.
  intros Hne Hocc. unfold mentions.
  cbn [fold_left]. destruct k as [|k]; [lia |].
  rewrite (occurs_contains term k text Hocc).
  pose proof (occurs_count term Hne _ _ Hocc).
  pose proof (mentions_from terms text (0 + PyStr.count term text)).
  lia.
Qed.

Lemma nutrition_from terms text : forall acc,
  (acc <= fold_left (fun acc term =>
                       if PyStr.contains term text
                       then (acc + (1 # 2))%Q else acc) terms acc)%Q.
Proof.
  induction terms as [|t terms IH]; intros acc; simpl; [apply Qle_refl |].
  destruct (PyStr.contains t text); [| apply IH].
  eapply Qle_trans; [| apply IH].
  rewrite <- (Qplus_0_r acc) at 1. apply Qplus_le_r. discriminate.
Qed.

Lemma nutrition_bonus_nonneg dog_breed text :
  (0 <= qmin 2 (nutrition_score dog_breed text))%Q.
Proof.
  rewrite qmin_Qmin. apply Q.min_glb; [discriminate |].
  apply nutrition_from.
Qed.

Lemma lower_nonempty s : s <> "" -> PyStr.lower s <> "".
Proof. destruct s; [congruence | discriminate]. Qed.

(** With at least three mentions of the breed and two of the age in the
    reviews, the rules add up to 5 or more. *)
Lemma rule_total_with_mentions title reviews dog_breed age :
  (3 <= mentions (breed_terms dog_breed)
                 (PyStr.lower (all_review_content reviews)))%nat ->
  (2 <= mentions (age_terms age)
                 (PyStr.lower (all_review_content reviews)))%nat ->
  (5 <= rule_total title reviews dog_breed age)%Q.
Proof.
  intros Hb Ha. unfold rule_total.
  pose proof (nutrition_bonus_nonneg
                dog_breed (PyStr.lower (all_review_content reviews))) as Hn.
  set (bm := mentions (breed_terms dog_breed) _) in *.
  set (am := mentions (age_terms age) _) in *.
  set (nb := qmin 2 _) in *.
  assert (Hb0 : (0 <? bm)%nat = true) by (apply Nat.ltb_lt; lia).
  assert (Ha0 : (0 <? am)%nat = true) by (apply Nat.ltb_lt; lia).
  rewrite Hb0, Ha0.
  replace (Nat.min 3 bm) with 3%nat by lia.
  replace (Nat.min 2 am) with 2%nat by lia.
  rewrite <- (Qplus_0_r 5).
  destruct (any_in (breed_terms dog_breed) _), (any_in (age_terms age) _);
    (apply Qplus_le_compat; [vm_compute; discriminate | exact Hn]).
Qed.

Lemma mock_rule_total title product_title dog_breed age :
  dog_breed <> "" -> age <> "" ->
  (5 <= rule_total title (mock_reviews product_title dog_breed age)
                   dog_breed age)%Q.
Proof.
  intros Hb Ha. apply rule_total_with_mentions.
  - apply mentions_first; [now apply lower_nonempty |].
    apply occurs_lower. now apply mock_breed_occurrences.
  - unfold age_terms. apply mentions_first; [now apply lower_nonempty |].
    apply occurs_lower. rewrite <- mock_reviews_uncut.
    now apply mock_age_occurrences.
Qed.

Lemma clamp_2_10_above total lo :
  (2 <= lo)%Q -> (lo <= 10)%Q -> (lo <= total)%Q ->
  (lo <= Spec.clamp_2_10 total <= 10)%Q.
Proof.
  intros H2 H10 Ht. unfold Spec.clamp_2_10.
  destruct (Qlt_bool total 2) eqn:E2.
  { apply Qlt_bool_iff in E2. exfalso. apply (Qlt_irrefl total).
    eapply Qlt_le_trans; [exact E2 |]. eapply Qle_trans; eassumption. }
  destruct (Qlt_bool 10 total) eqn:E10; [split; [exact H10 | apply Qle_refl] |].
  apply Qlt_bool_false in E10. now split.
Qed.

End MockReviews.

Section MockSearch.
Import RecommendationAgent ReviewScraper PyFloat Text.

Variable tavily_reviews :
  string -> string -> string -> string -> Z -> result (list ProductReview.t).

Lemma search_without_key tavily_api_key product_title dog_breed age
      max_results :
  truthy_key tavily_api_key = false ->
  search_for_reviews tavily_reviews tavily_api_key product_title dog_breed
                     age max_results
  = Ok (slice_to max_results (mock_reviews product_title dog_breed age)).
Proof.
  unfold search_for_reviews.
  destruct tavily_api_key as [[|c key]|]; simpl; congruence.
Qed.

(** Without a Tavily key the review search never raises and never asks
    Tavily: when at least four results are allowed it returns two reviews,
    one more when a breed is given and one more when an age is given, all
    for the same product identifier and each rated between 3.9 and 4.2. *)
Lemma search_for_reviews_without_key tavily_api_key product_title
        dog_breed age max_results :
  truthy_key tavily_api_key = false ->
  4 <= max_results ->
  exists reviews,
    search_for_reviews tavily_reviews tavily_api_key product_title dog_breed
                       age max_results = Ok reviews
    /\ List.length reviews
       = (2 + (if PyStr.truthy dog_breed then 1 else 0)
          + (if PyStr.truthy age then 1 else 0))%nat
    /\ Forall (fun review =>
                 ProductReview.product_id review
                 = spaces_to_dashes (PyStr.lower (clean_title product_title))
                 /\ exists q, ProductReview.rating review = Some (Fin q)
                              /\ (39 # 10 <= q <= 42 # 10)%Q)
              reviews.
Proof.
  intros Hkey Hmax. rewrite search_without_key by exact Hkey.
  eexists. split; [reflexivity |].
  assert (Hcut : slice_to max_results
                          (mock_reviews product_title dog_breed age)
                 = mock_reviews product_title dog_breed age).
  { unfold slice_to. destruct (Z.leb_spec 0 max_results); [| lia].
    apply firstn_all2. unfold mock_reviews.
    destruct (PyStr.truthy dog_breed), (PyStr.truthy age);
      cbn [app List.length]; lia. }
  rewrite Hcut. unfold mock_reviews.
  destruct (PyStr.truthy dog_breed), (PyStr.truthy age);
    cbn [app List.length]; (split; [reflexivity |]);
    repeat constructor; cbn [ProductReview.rating rating];
    eexists; (split; [reflexivity |]); split; discriminate.
Qed.

(** X22: The cleaned title holds only letters, digits, underscores and white
    space, and neither starts nor ends with white space. *)
Theorem clean_title_shape product_title :
  all_chars (fun c => is_word c || PyStr.is_space c)
            (clean_title product_title) = true
  /\ clean_ends PyStr.is_space (clean_title product_title).
Proof.
  unfold clean_title, PyStr.strip. split.
  - apply all_chars_strip. unfold blank_punctuation.
    apply map_chars_all. intros c.
    destruct (is_word c || PyStr.is_space c) eqn:E; [exact E | reflexivity].
  - apply strip_clean_ends.
Qed.

End MockSearch.

Section MockPipeline.
Import RecommendationAgent ReviewScraper PyFloat.

Variable env_openai_api_key : option string.
Variable complete_product_json :
  string -> PetExpressScraper.Product -> list ProductReview.t ->
  string -> string -> result ProductAnalysis.
Variable float_str : pyfloat -> string.
Variable search_petbacker_groomers :
  string -> string -> Z -> result (list ScrapedGroomer).
Variable complete_groomer_json :
  string -> string -> string -> list string -> string ->
  result GroomerAnalysis.
Variable search_location : string -> option string.
Variable search_rating : string -> option pyfloat.
Variable search_contact : string -> option string.
Variable tavily_reviews :
  string -> string -> string -> string -> Z -> result (list ProductReview.t).
Variable generate_recommendations_summary :
  string -> string -> string -> list ProductRecommendation.t ->
  option string -> option string.
Variable generate_groomer_summary :
  string -> list GroomerRecommendation.t -> option string -> option string.

(** X23: Without a Tavily key and without an OpenAI credential, and for a
    non-empty breed and age, every product of the response scores between
    5 and 10: the made-up reviews name the breed three times and the age
    twice, which the rules reward with 3 + 2 points. *)
Theorem mock_reviews_lift_scores products query dog_breed age tavily_api_key
        openai_api_key max_products include_groomers response :
  truthy_key tavily_api_key = false ->
  truthy_key openai_api_key = false ->
  truthy_key env_openai_api_key = false ->
  dog_breed <> "" -> age <> "" ->
  get_product_recommendations env_openai_api_key complete_product_json
    float_str search_petbacker_groomers complete_groomer_json
    search_location search_rating search_contact
    (search_for_reviews tavily_reviews)
    generate_recommendations_summary generate_groomer_summary
    products query dog_breed age tavily_api_key openai_api_key
    max_products include_groomers = Ok response ->
  Forall (fun r =>
            (5 <= ProductRecommendation.suitability_score r <= 10)%Q)
         (RecommendationResponse.recommendations response).
Proof.
  intros Htav Hkey Henv Hb Ha H.
  apply response_recommendations in H as [-> _].
  eapply Permutation_Forall; [apply sorted_reverse_perm |].
  apply analysed_products_forall.
  intros product r _ Hr.
  rewrite search_without_key in Hr by exact Htav.
  rewrite analyze_without_key in Hr.
  - apply rule_based_product_score in Hr. rewrite Hr.
    rewrite mock_reviews_uncut.
    apply clamp_2_10_above; [discriminate | discriminate |].
    now apply mock_rule_total.
  - unfold py_or. rewrite !Hkey. exact Henv.
Qed.

End MockPipeline.

(* ===================================================================== *)
(** * The product page *)
(* ===================================================================== *)

Section DetailsProps.
Import PetExpressScraper PetExpressDetails Text.

Lemma fold_left_invariant {A B} (P : A -> Prop) (f : A -> B -> A) l :
  (forall acc x, P acc -> P (f acc x)) ->
  forall acc, P acc -> P (fold_left f l acc).
Proof.
  intros Hstep. induction l as [|x l IH]; intros acc Hacc; simpl; auto.
Qed.

Lemma strip_nonempty_clean s :
  clean_ends PyStr.is_space (PyStr.strip s).
Proof. apply strip_clean_ends. Qed.

(** X24: The lists of a product page: every image address is non-empty and
    none starts with ["//"], a protocol-relative address having been
    completed with ["https:"]; every variant name is non-empty and has no
    white space at its ends. *)
Theorem product_page_lists_clean parse_html html_content :
  let details := extract_product_details parse_html html_content in
  Forall (fun img_url => img_url <> ""
                         /\ PyStr.startswith "//" img_url = false)
         (images details)
  /\ Forall (fun name => name <> "" /\ clean_ends PyStr.is_space name)
            (variants details).
Proof.
  cbn [images variants extract_product_details]. split.
  - unfold collect_images. apply fold_left_invariant; [| constructor].
    intros acc img Hacc.
    destruct (PyStr.truthy (get img "data-zoom" (get img "src" ""))) eqn:Ht;
      [| exact Hacc].
    apply Forall_app. split; [exact Hacc |]. constructor; [| constructor].
    destruct (PyStr.startswith "//" _) eqn:Hs.
    + split; [discriminate | reflexivity].
    + split; [| exact Hs]. intros E. rewrite E in Ht. discriminate.
  - unfold collect_variants. apply fold_left_invariant; [| constructor].
    intros acc variant Hacc.
    destruct (select_one _ variant) as [e|]; [| exact Hacc].
    destruct (PyStr.strip (text e)) as [|c rest] eqn:E; [exact Hacc |].
    apply Forall_app. split; [exact Hacc |]. constructor; [| constructor].
    split; [discriminate |]. rewrite <- E. apply strip_clean_ends.
Qed.

Lemma assoc_dict_set_same k v d : assoc k (dict_set k v d) = Some v.
Proof.
  induction d as [|[k' v'] d IH]; simpl.
  - now rewrite String.eqb_refl.
  - destruct (String.eqb k k') eqn:E; simpl; rewrite E; [reflexivity | exact IH].
Qed.

Lemma assoc_dict_set_other k v d k2 :
  k2 <> k -> assoc k2 (dict_set k v d) = assoc k2 d.
Proof.
  intros Hne. induction d as [|[k' v'] d IH]; simpl.
  - destruct (String.eqb k2 k) eqn:E; [| reflexivity].
    apply String.eqb_eq in E. contradiction.
  - destruct (String.eqb k k') eqn:E; simpl.
    + apply String.eqb_eq in E. subst k'.
      destruct (String.eqb k2 k) eqn:E2; [| reflexivity].
      apply String.eqb_eq in E2. contradiction.
    + now rewrite IH.
Qed.

Lemma dict_set_keys k v d :
  map fst (dict_set k v d)
  = if existsb (String.eqb k) (map fst d) then map fst d
    else (map fst d ++ [k])%list.
Proof.
  induction d as [|[k' v'] d IH]; simpl; [reflexivity |].
  destruct (String.eqb k k') eqn:E; simpl; [reflexivity |].
  rewrite IH. now destruct (existsb _ _).
Qed.

Lemma dict_set_nodup k v d :
  NoDup (map fst d) -> NoDup (map fst (dict_set k v d)).
Proof.
  intros Hd. rewrite dict_set_keys.
  destruct (existsb (String.eqb k) (map fst d)) eqn:E; [exact Hd |].
  apply NoDup_app; [exact Hd | repeat constructor; intros [] |].
  intros x Hx [Ek | []]. subst x.
  assert (existsb (String.eqb k) (map fst d) = true).
  { apply existsb_exists. exists k. split; [exact Hx | apply String.eqb_refl]. }
  congruence.
Qed.

Lemma collect_specs_snoc rows row :
  collect_specs (rows ++ [row])
  = match select_below [] ("td", None) row with
    | [cell0; cell1] =>
        dict_set (PyStr.strip (text cell0)) (PyStr.strip (text cell1))
                 (collect_specs rows)
    | _ => collect_specs rows
    end.
Proof. unfold collect_specs. now rewrite fold_left_app. Qed.

(** X25: The specification table is a dictionary: its keys are distinct; a row
    of exactly two cells sets the (trimmed) text of the first to the
    (trimmed) text of the second, replacing what an earlier row gave for
    the same key and leaving the other keys alone; a row of any other
    width is ignored. *)
Theorem specification_rows rows row :
  NoDup (map fst (collect_specs rows))
  /\ match select_below [] ("td", None) row with
     | [cell0; cell1] =>
         let key := PyStr.strip (text cell0) in
         assoc key (collect_specs (rows ++ [row]))
         = Some (PyStr.strip (text cell1))
         /\ forall other, other <> key ->
              assoc other (collect_specs (rows ++ [row]))
              = assoc other (collect_specs rows)
     | _ => collect_specs (rows ++ [row]) = collect_specs rows
     end.
Proof.
  split.
  - unfold collect_specs. apply fold_left_invariant; [| constructor].
    intros acc r Hacc.
    destruct (select_below [] ("td", None) r) as [|c0 [|c1 [|c2 l]]];
      try exact Hacc.
    now apply dict_set_nodup.
  - rewrite collect_specs_snoc.
    destruct (select_below [] ("td", None) row) as [|c0 [|c1 [|c2 l]]];
      try reflexivity.
    split; [apply assoc_dict_set_same |].
    intros other Hne. now apply assoc_dict_set_other.
Qed.

End DetailsProps.

(* ===================================================================== *)
(** * The routes *)
(* ===================================================================== *)

Section RouteProps.
Import PetExpressScraper PetExpressFetch PetExpressDetails RecommendationAgent
       Routes PyFloat.

Variable parse_html : string -> node.
Variable urljoin : string -> string -> result string.
Variable quote_plus : string -> string.
Variable client_get : string -> result HttpUtils.Response.
Variable env_tavily_api_key : option string.
Variable env_openai_api_key : option string.
Variable complete_product_json :
  string -> Product -> list ProductReview.t ->
  string -> string -> result ProductAnalysis.
Variable float_str : pyfloat -> string.
Variable search_petbacker_groomers :
  string -> string -> Z -> result (list ScrapedGroomer).
Variable complete_groomer_json :
  string -> string -> string -> list string -> string ->
  result GroomerAnalysis.
Variable search_location : string -> option string.
Variable search_rating : string -> option pyfloat.
Variable search_contact : string -> option string.
Variable tavily_reviews :
  string -> string -> string -> string -> Z -> result (list ProductReview.t).
Variable generate_recommendations_summary :
  string -> string -> string -> list ProductRecommendation.t ->
  option string -> option string.
Variable generate_groomer_summary :
  string -> list GroomerRecommendation.t -> option string -> option string.
Variable exception_text : exn -> string.
Variable other_is_value_error : string -> bool.

#[local] Abbreviation search_hits :=
  (search_products parse_html urljoin quote_plus client_get).
#[local] Abbreviation search_route :=
  (Routes.search parse_html urljoin quote_plus client_get exception_text
                 other_is_value_error).
#[local] Abbreviation product_route :=
  (Routes.get_product parse_html client_get exception_text).
#[local] Abbreviation pipeline :=
  (get_product_recommendations env_openai_api_key complete_product_json
     float_str search_petbacker_groomers complete_groomer_json
     search_location search_rating search_contact
     (ReviewScraper.search_for_reviews tavily_reviews)
     generate_recommendations_summary generate_groomer_summary).
#[local] Abbreviation recommend_route :=
  (Routes.recommend parse_html urljoin quote_plus client_get
     env_tavily_api_key env_openai_api_key complete_product_json float_str
     search_petbacker_groomers complete_groomer_json search_location
     search_rating search_contact tavily_reviews
     generate_recommendations_summary generate_groomer_summary
     exception_text other_is_value_error).
#[local] Abbreviation gscore := GroomerRecommendation.suitability_score.
#[local] Abbreviation pscore := ProductRecommendation.suitability_score.

Lemma search_hits_cases query page limit :
  match query with
  | EmptyString => search_hits query page limit = Raise ValueError
  | _ =>
      match client_get (search_url quote_plus query) with
      | Raise e => search_hits query page limit = Raise e
      | Ok response =>
          if HttpUtils.status_code response =? 200 then
            exists hits, search_hits query page limit = Ok hits
          else
            search_hits query page limit
            = Raise (PlainException
                       ("Failed to search products: HTTP "
                        ++ PyStr.str_of_int (HttpUtils.status_code response)))
      end
  end.
Proof.
  unfold search_products. destruct query as [|c query]; [reflexivity |].
  cbn [PyStr.truthy negb].
  destruct (client_get _) as [response | e]; cbn [bind]; [| reflexivity].
  destruct (HttpUtils.status_code response =? 200); cbn [negb];
    [| reflexivity].
  rewrite extract_product_data_value. cbn [bind]. eauto.
Qed.

(** X26: The replies of [GET /search]: an empty query is answered 400 without
    any request to the shop; a shop answer other than 200 is answered 500
    with the shop's status in the detail; a transport exception is
    answered 500 or, when it is a [ValueError], 400; a 200 answer gives
    the body, whose count is the number of hits it carries. *)
Theorem search_route_replies query page limit :
  match query with
  | EmptyString =>
      search_route query page limit
      = HTTPException 400 (exception_text ValueError)
  | _ =>
      match client_get (search_url quote_plus query) with
      | Raise e =>
          search_route query page limit
          = HTTPException
              (if is_value_error other_is_value_error e then 400 else 500)
              (str exception_text e)
      | Ok response =>
          if HttpUtils.status_code response =? 200 then
            exists hits,
              search_hits query page limit = Ok hits
              /\ search_route query page limit
                 = Body (mkSearchBody true query (List.length hits) page
                                      limit hits)
          else
            search_route query page limit
            = HTTPException 500
                ("Failed to search products: HTTP "
                 ++ PyStr.str_of_int (HttpUtils.status_code response))
      end
  end.
Proof.
  pose proof (search_hits_cases query page limit) as H.
  unfold Routes.search. destruct query as [|c query].
  - now rewrite H.
  - destruct (client_get _) as [response | e].
    + destruct (HttpUtils.status_code response =? 200).
      * destruct H as (hits & H). exists hits. now rewrite H.
      * now rewrite H.
    + rewrite H. unfold value_error_or_500.
      now destruct (is_value_error _ e).
Qed.

(** X27: The replies of [GET /product/{product_id}]: the shop's 404 is the
    only 404, with the detail "Product not found"; a 200 answer gives the
    details of the page; every other status and every exception,
    a [ValueError] included, is answered 500. *)
Theorem get_product_route_replies product_id :
  match client_get (BASE_URL ++ "/products/" ++ product_id) with
  | Raise e =>
      product_route product_id = HTTPException 500 (str exception_text e)
  | Ok response =>
      if HttpUtils.status_code response =? 404 then
        product_route product_id = HTTPException 404 "Product not found"
      else if HttpUtils.status_code response =? 200 then
        product_route product_id
        = Body (mkProductBody true
                  (extract_product_details parse_html
                                           (HttpUtils.text response)))
      else
        product_route product_id
        = HTTPException 500
            ("Failed to fetch product details: HTTP "
             ++ PyStr.str_of_int (HttpUtils.status_code response))
  end.
Proof.
  unfold Routes.get_product, get_product_details.
  destruct (client_get _) as [response | e]; cbn [bind]; [| reflexivity].
  destruct (HttpUtils.status_code response =? 404); [reflexivity |].
  now destruct (HttpUtils.status_code response =? 200).
Qed.

Lemma pipeline_groomers products query dog_breed age tavily_api_key
      openai_api_key max_products response :
  pipeline products query dog_breed age tavily_api_key openai_api_key
           max_products true = Ok response ->
  exists groomer groomers,
    RecommendationResponse.groomer_recommendations response
    = Some (groomer :: groomers)
    /\ PySorted.descending gscore (groomer :: groomers)
    /\ Forall (fun g => (0 <= gscore g <= 10)%Q) (groomer :: groomers).
Proof.
  unfold get_product_recommendations.
  destruct (groomer_block_total env_openai_api_key search_petbacker_groomers
              complete_groomer_json search_location search_rating
              search_contact generate_groomer_summary dog_breed
              openai_api_key)
    as (groomers & text & Hblock & Hne & Hall).
  rewrite Hblock. simpl. unfold RecommendationResponse.create.
  destruct (generate_recommendations_summary _ _ _ _ _); [| discriminate].
  intros [= <-]. simpl.
  apply groomer_block_spec in Hblock as [Hdesc _].
  destruct groomers as [|g gs]; [now elim Hne | eauto].
Qed.

Lemma pipeline_without_groomers products query dog_breed age tavily_api_key
      openai_api_key max_products response :
  pipeline products query dog_breed age tavily_api_key openai_api_key
           max_products false = Ok response ->
  RecommendationResponse.groomer_recommendations response = None.
Proof.
  unfold get_product_recommendations. simpl.
  unfold RecommendationResponse.create.
  destruct (generate_recommendations_summary _ _ _ _ _); [| discriminate].
  now intros [= <-].
Qed.

Lemma value_error_or_500_not_body {A} e (a : A) :
  value_error_or_500 exception_text other_is_value_error e <> Body a.
Proof. unfold value_error_or_500. now destruct (is_value_error _ e). Qed.

(** X28: The groomer part of [GET /recommend]: when the search finds no
    product the reply is the empty body without groomers, whatever
    [include_groomers] says; when it finds one, a reply built with
    [include_groomers] always carries at least one groomer, counted
    rightly, in descending order of score and scored between 0 and 10,
    and a reply built without it carries none. *)
Theorem recommend_route_groomers query dog_breed age page limit
        max_recommendations include_groomers :
  match search_hits query page limit with
  | Raise _ => True
  | Ok [] =>
      recommend_route query dog_breed age page limit max_recommendations
                      include_groomers
      = Body (mkRecommendBody true query dog_breed age 0 []
                ("No products found for search term '" ++ query ++ "'")
                None)
  | Ok (_ :: _) =>
      forall body,
        recommend_route query dog_breed age page limit max_recommendations
                        include_groomers = Body body ->
        if include_groomers then
          exists part,
            rb_groomers body = Some part
            /\ (1 <= groomer_count part)%nat
            /\ groomer_count part
               = List.length (Routes.groomer_recommendations part)
            /\ PySorted.descending gscore (Routes.groomer_recommendations part)
            /\ Forall (fun g => (0 <= gscore g <= 10)%Q)
                      (Routes.groomer_recommendations part)
        else rb_groomers body = None
  end.
Proof.
  unfold Routes.recommend.
  destruct (search_hits query page limit) as [[|hit hits] | e];
    [reflexivity | | exact I].
  intros body.
  destruct (get_product_recommendations _ _ _ _ _ _ _ _ _ _ _ _ _ _ _ _ _ _ _)
    as [response | e] eqn:Hp;
    [| intros H; now apply value_error_or_500_not_body in H].
  intros [= <-]. cbn [rb_groomers]. destruct include_groomers.
  - apply pipeline_groomers in Hp as (g & gs & -> & Hdesc & Hall).
    eexists. split; [reflexivity |].
    cbn [groomer_count Routes.groomer_recommendations List.length].
    repeat split; [lia | exact Hdesc | exact Hall].
  - reflexivity.
Qed.

Lemma pipeline_mock_scores products query dog_breed age tavily_api_key
      openai_api_key max_products include_groomers response :
  truthy_key tavily_api_key = false ->
  truthy_key openai_api_key = false ->
  truthy_key env_openai_api_key = false ->
  dog_breed <> "" -> age <> "" ->
  pipeline products query dog_breed age tavily_api_key openai_api_key
           max_products include_groomers = Ok response ->
  Forall (fun r => (5 <= pscore r <= 10)%Q)
         (RecommendationResponse.recommendations response).
Proof.
  intros Htav Hkey Henv Hb Ha H.
  apply response_recommendations in H as [-> _].
  eapply Permutation_Forall; [apply sorted_reverse_perm |].
  apply analysed_products_forall.
  intros product r _ Hr.
  rewrite search_without_key in Hr by exact Htav.
  rewrite analyze_without_key in Hr.
  - apply rule_based_product_score in Hr. rewrite Hr.
    rewrite mock_reviews_uncut.
    apply clamp_2_10_above; [discriminate | discriminate |].
    now apply mock_rule_total.
  - unfold py_or. rewrite !Hkey. exact Henv.
Qed.

Lemma pipeline_count products query dog_breed age tavily_api_key
      openai_api_key max_products include_groomers response :
  pipeline products query dog_breed age tavily_api_key openai_api_key
           max_products include_groomers = Ok response ->
  PySorted.descending pscore
                      (RecommendationResponse.recommendations response)
  /\ (0 <= max_products ->
      Z.of_nat (List.length (RecommendationResponse.recommendations response))
      <= max_products).
Proof.
  intros H. apply response_recommendations in H as [-> _].
  split; [apply sorted_reverse_descending |].
  rewrite <- (Permutation_length (sorted_reverse_perm pscore _)).
  match goal with
  | |- context [analyze_products _ _ _ ?sr ?l ?b ?a ?t ?k] =>
      pose proof (analysed_products_length env_openai_api_key
                    complete_product_json float_str sr b a t k l) as Hlen
  end.
  destruct (slice_to_length
              (Z.min (Z.of_nat (List.length products)) max_products)
              products) as [Hl Hk].
  intros Hpos. specialize (Hk ltac:(lia)). lia.
Qed.

(** X29: [GET /recommend] without a Tavily key and without an OpenAI key in
    the environment, for a non-empty breed and age: the body's count is
    the number of its recommendations and at most [max_recommendations];
    the recommendations come in descending order of score, and every
    score lies between 5 and 10, since the made-up reviews name the breed
    three times and the age twice. *)
Theorem recommend_route_without_keys query dog_breed age page limit
        max_recommendations include_groomers body :
  truthy_key env_tavily_api_key = false ->
  truthy_key env_openai_api_key = false ->
  dog_breed <> "" -> age <> "" ->
  recommend_route query dog_breed age page limit max_recommendations
                  include_groomers = Body body ->
  rb_count body = List.length (rb_recommendations body)
  /\ (0 <= max_recommendations ->
      Z.of_nat (rb_count body) <= max_recommendations)
  /\ PySorted.descending pscore (rb_recommendations body)
  /\ Forall (fun r => (5 <= pscore r <= 10)%Q) (rb_recommendations body).
Proof.
  intros Htav Hkey Hb Ha. unfold Routes.recommend.
  destruct (search_hits query page limit) as [[|hit hits] | e].
  - intros [= <-]. cbn [rb_count rb_recommendations List.length].
    split; [reflexivity |]. split; [simpl; lia |].
    split; constructor.
  - destruct (get_product_recommendations
                _ _ _ _ _ _ _ _ _ _ _ _ _ _ _ _ _ _ _)
      as [response | e] eqn:Hp;
      [| intros H; now apply value_error_or_500_not_body in H].
    intros [= <-]. cbn [rb_count rb_recommendations].
    destruct (pipeline_count _ _ _ _ _ _ _ _ _ Hp) as [Hdesc Hcount].
    split; [reflexivity |]. split; [exact Hcount |].
    split; [exact Hdesc |].
    exact (pipeline_mock_scores _ _ _ _ _ _ _ _ _ Htav Hkey Hkey Hb Ha Hp).
  - intros H. now apply value_error_or_500_not_body in H.
Qed.

End RouteProps.

(* ===================================================================== *)
(** * The errors of [GET /recommend] *)
(* ===================================================================== *)

Section RouteErrors.
Import PetExpressScraper PetExpressFetch RecommendationAgent Routes PyFloat.

Variable parse_html : string -> node.
Variable urljoin : string -> string -> result string.
Variable quote_plus : string -> string.
Variable client_get : string -> result HttpUtils.Response.
Variable env_tavily_api_key : option string.
Variable env_openai_api_key : option string.
Variable complete_product_json :
  string -> Product -> list ProductReview.t ->
  string -> string -> result ProductAnalysis.
Variable float_str : pyfloat -> string.
Variable search_petbacker_groomers :
  string -> string -> Z -> result (list ScrapedGroomer).
Variable complete_groomer_json :
  string -> string -> string -> list string -> string ->
  result GroomerAnalysis.
Variable search_location : string -> option string.
Variable search_rating : string -> option pyfloat.
Variable search_contact : string -> option string.
Variable tavily_reviews :
  string -> string -> string -> string -> Z -> result (list ProductReview.t).
Variable complete_summary :
  string -> string -> string -> string -> list ProductRecommendation.t ->
  result (option string).
Variable format_score : Q -> string.
Variable generate_groomer_summary :
  string -> list GroomerRecommendation.t -> option string -> option string.
Variable exception_text : exn -> string.
Variable other_is_value_error : string -> bool.

#[local] Abbreviation search_hits :=
  (search_products parse_html urljoin quote_plus client_get).
#[local] Abbreviation summary_writer :=
  (RecommendationSummary.summary_of_agent env_openai_api_key
     complete_summary format_score).
#[local] Abbreviation recommend_route :=
  (Routes.recommend parse_html urljoin quote_plus client_get
     env_tavily_api_key env_openai_api_key complete_product_json float_str
     search_petbacker_groomers complete_groomer_json search_location
     search_rating search_contact tavily_reviews summary_writer
     generate_groomer_summary exception_text other_is_value_error).

(** The sorted recommendations that the summary is written for. *)
#[local] Abbreviation recommended :=
  (fun (hits : list SearchHit) (dog_breed age : string)
       (max_recommendations : Z) =>
     PySorted.sorted_reverse ProductRecommendation.suitability_score
       (analyze_products env_openai_api_key complete_product_json float_str
          (ReviewScraper.search_for_reviews tavily_reviews)
          (slice_to
             (Z.min (Z.of_nat (List.length (map PetExpressFetch.product hits)))
                    max_recommendations)
             (map PetExpressFetch.product hits))
          dog_breed age env_tavily_api_key env_openai_api_key)).

(** Without a usable key the summary is the template's text, or the fixed
    text for no recommendations. *)
Lemma summary_without_key query dog_breed age recommendations :
  truthy_key env_openai_api_key = false ->
  exists text,
    summary_writer query dog_breed age recommendations env_openai_api_key
    = Some text.
Proof.
  intros Hkey. unfold RecommendationSummary.summary_of_agent,
    RecommendationSummary.generate_recommendations_summary.
  destruct recommendations as [|r recommendations]; [eauto |].
  unfold py_or. rewrite !Hkey.
  destruct env_openai_api_key as [k|]; [| eauto].
  simpl in Hkey. rewrite Hkey. eauto.
Qed.

(** With a usable key and recommendations the summary is the content of
    the completion. *)
Lemma summary_with_key query dog_breed age recommendations key content :
  env_openai_api_key = Some key ->
  PyStr.truthy key = true ->
  recommendations <> [] ->
  complete_summary key query dog_breed age recommendations = Ok content ->
  summary_writer query dog_breed age recommendations env_openai_api_key
  = content.
Proof.
  intros Henv Hkey Hne Hc. unfold RecommendationSummary.summary_of_agent,
    RecommendationSummary.generate_recommendations_summary.
  destruct recommendations as [|r recommendations]; [now elim Hne |].
  unfold py_or, truthy_key. rewrite Henv, Hkey. now rewrite Hkey, Hc.
Qed.

(** Once products are found, a summary of [None] is answered 400. *)
Lemma recommend_without_summary query dog_breed age page limit
      max_recommendations include_groomers hits :
  search_hits query page limit = Ok hits ->
  hits <> [] ->
  summary_writer query dog_breed age
                 (recommended hits dog_breed age max_recommendations)
                 env_openai_api_key = None ->
  recommend_route query dog_breed age page limit max_recommendations
                  include_groomers
  = HTTPException 400 (exception_text ValidationError).
Proof.
  intros Hs Hne Hnone. unfold Routes.recommend. rewrite Hs.
  destruct hits as [|hit hits]; [now elim Hne |].
  unfold get_product_recommendations. rewrite Hnone.
  destruct (groomer_block_total env_openai_api_key
              search_petbacker_groomers complete_groomer_json
              search_location search_rating search_contact
              generate_groomer_summary dog_breed env_openai_api_key)
    as (groomers & text & Hblock & _).
  destruct include_groomers; [rewrite Hblock |]; reflexivity.
Qed.

(** X30: where [GET /recommend] answers with an error.  An empty query is
    answered 400.  A shop answer other than 200 is answered 500 with the
    shop's status in the detail.  When products were found, there is a
    usable OpenAI key, at least one product was analysed and the summary
    completion has no content, the response model rejects the summary
    [None], and its validation error, being a [ValueError], is answered
    400 and not 500.  Without a usable OpenAI key a search that found
    products is never answered with an error. *)
Theorem recommend_route_errors query dog_breed age page limit
        max_recommendations include_groomers :
  match query with
  | EmptyString =>
      recommend_route query dog_breed age page limit max_recommendations
                      include_groomers
      = HTTPException 400 (exception_text ValueError)
  | _ =>
      match client_get (search_url quote_plus query) with
      | Raise _ => True
      | Ok response =>
          if HttpUtils.status_code response =? 200 then
            forall hits,
              search_hits query page limit = Ok hits ->
              hits <> [] ->
              let recommendations :=
                recommended hits dog_breed age max_recommendations in
              (forall key,
                 env_openai_api_key = Some key ->
                 PyStr.truthy key = true ->
                 recommendations <> [] ->
                 complete_summary key query dog_breed age recommendations
                 = Ok None ->
                 recommend_route query dog_breed age page limit
                                 max_recommendations include_groomers
                 = HTTPException 400 (exception_text ValidationError))
              /\ (truthy_key env_openai_api_key = false ->
                  exists body,
                    recommend_route query dog_breed age page limit
                                    max_recommendations include_groomers
                    = Body body)
          else
            recommend_route query dog_breed age page limit
                            max_recommendations include_groomers
            = HTTPException 500
                ("Failed to search products: HTTP "
                 ++ PyStr.str_of_int (HttpUtils.status_code response))
      end
  end.
Proof.
  pose proof (search_hits_cases parse_html urljoin quote_plus client_get
                                query page limit) as H.
  destruct query as [|c query].
  - unfold Routes.recommend. now rewrite H.
  - destruct (client_get _) as [response | e]; [| exact I].
    destruct (HttpUtils.status_code response =? 200);
      [| unfold Routes.recommend; now rewrite H].
    intros hits Hs Hne recommendations. split.
    + intros key Henv Hkey Hrecs Hnone.
      apply (recommend_without_summary _ _ _ _ _ _ _ _ Hs Hne).
      exact (summary_with_key _ _ _ _ _ _ Henv Hkey Hrecs Hnone).
    + intros Hkey.
      destruct (summary_without_key (String c query) dog_breed age
                  recommendations Hkey) as (text & Htext).
      unfold Routes.recommend. rewrite Hs.
      destruct hits as [|hit hits]; [now elim Hne |].
      unfold get_product_recommendations.
      fold recommendations. rewrite Htext.
      destruct (groomer_block_total env_openai_api_key
                  search_petbacker_groomers complete_groomer_json
                  search_location search_rating search_contact
                  generate_groomer_summary dog_breed env_openai_api_key)
        as (groomers & gtext & Hblock & _).
      destruct include_groomers; [rewrite Hblock |]; simpl; eauto.
Qed.

End RouteErrors.


(* ===================================================================== *)
(** * The further properties at concrete inputs *)
(* ===================================================================== *)

Lemma get_async_without_attempts_witness :
  HttpUtils.get_async "https://api.example" unit MoreSamples.always_503
                      "/items" tt 0
  = Some (HttpUtils.Raised
            (PlainException "Failed to get response after 0 retries"),
          0%nat).
Proof.
  apply (get_async_without_attempts "https://api.example" unit
           MoreSamples.always_503 "/items" tt 0).
  lia.
Defined.

Lemma get_async_exhaustion_witness :
  HttpUtils.get_async "https://api.example" unit MoreSamples.always_503
                      "/items" tt 3
  = Some (HttpUtils.Raised
            (PlainException "Failed to get response after 3 retries"),
          3%nat).
Proof.
  apply (get_async_exhaustion "https://api.example" unit
           MoreSamples.always_503 "/items" tt 3).
  - lia.
  - intros k _. reflexivity.
Defined.

Lemma get_async_other_exception_propagates_witness :
  HttpUtils.get_async "https://api.example" unit
                      MoreSamples.timeout_then_tls_error "/items" tt 3
  = Some (HttpUtils.Raised (OtherError "SSLError"), 2%nat).
Proof.
  apply (get_async_other_exception_propagates "https://api.example" unit
           MoreSamples.timeout_then_tls_error "/items" tt 3 1
           (OtherError "SSLError")).
  - lia.
  - intros j Hj. assert (j = 0%nat) as -> by lia. reflexivity.
  - reflexivity.
  - reflexivity.
Defined.

Lemma extracted_product_fields_witness :
  exists before id,
    PetExpressScraper.product_id MoreSamples.kibble = Some id
    /\ nth_error (PyStr.split "products/"
                              (PetExpressScraper.url MoreSamples.kibble)) 0
       = Some before
    /\ nth_error (PyStr.split "products/"
                              (PetExpressScraper.url MoreSamples.kibble)) 1
       = Some id.
Proof.
  refine (proj1 (proj2 (extracted_product_fields Samples.sample_page
                          Samples.sample_urljoin "<html>"
                          [MoreSamples.kibble;
                           PetExpressScraper.mkProduct (Some "treats")
                             "Treats"
                             "https://www.petexpress.com.ph/products/treats"
                             None "Price not available" None false true]
                          MoreSamples.kibble _ _)) _).
  - vm_compute. reflexivity.
  - simpl. left. reflexivity.
  - vm_compute. reflexivity.
Defined.

Lemma extracted_product_text_trimmed_witness :
  PetExpressScraper.extract_product_data MoreSamples.nbsp_page
    Samples.sample_urljoin "<html>" = Ok [MoreSamples.kibble]
  /\ Text.clean_ends PyStr.is_space
                     (PetExpressScraper.title MoreSamples.kibble).
Proof.
  split; [vm_compute; reflexivity |].
  refine (proj1 (extracted_product_text_trimmed MoreSamples.nbsp_page
                   Samples.sample_urljoin "<html>" [MoreSamples.kibble]
                   MoreSamples.kibble _ _)).
  - vm_compute. reflexivity.
  - simpl. left. reflexivity.
Defined.

Lemma process_card_raises_only_urljoin_witness :
  exists link,
    PetExpressScraper.select_one ("a", "product-item__image-wrapper")
                                 MoreSamples.broken_card = Some link
    /\ Samples.sample_urljoin PetExpressScraper.BASE_URL
                              (PetExpressScraper.get link "href" "")
       = Raise ValueError.
Proof.
  apply (process_card_raises_only_urljoin Samples.sample_urljoin
           MoreSamples.broken_card ValueError).
  vm_compute. reflexivity.
Defined.

Lemma searched_groomers_scored_without_model_witness :
  RecommendationAgent.gd_id MoreSamples.first_found_groomer = None
  /\ RecommendationAgent.analyze_groomer_suitability
       None Samples.model_groomer_9 Samples.no_match Samples.no_match
       Samples.no_match MoreSamples.first_found_groomer "poodle" None
     = RecommendationAgent.analyze_groomer_suitability
         (Some "sk-test") Samples.model_down Samples.no_match
         Samples.no_match Samples.no_match MoreSamples.first_found_groomer
         "poodle" (Some "sk-other").
Proof.
  destruct (searched_groomers_scored_without_model Samples.two_groomers
              Samples.no_match Samples.no_match Samples.no_match
              "poodle" "Philippines" 3 MoreSamples.found_groomers
              MoreSamples.first_found_groomer)
    as [Hid Hsame].
  - vm_compute. reflexivity.
  - vm_compute. left. reflexivity.
  - split; [exact Hid | apply Hsame].
Defined.

Lemma ai_product_score_capped_or_replaced_witness :
  exists r,
    RecommendationAgent.analyze_product_suitability None
      Samples.model_overshoots Samples.no_float_str None
      (Samples.product "b" "Labrador Adult Formula")
      [Samples.review "Great for my labrador."] "Labrador" "adult"
      (Some "sk-test") = Ok r
    /\ RecommendationAgent.ProductRecommendation.suitability_score r
       == Qmin 10 (125 # 10).
Proof.
  refine (proj1 (ai_product_score_capped_or_replaced None
                   Samples.model_overshoots Samples.no_float_str None
                   (Samples.product "b" "Labrador Adult Formula")
                   [Samples.review "Great for my labrador."] "Labrador"
                   "adult" (Some "sk-test") "sk-test"
                   (RecommendationAgent.mkProductAnalysis
                      (Some (PyFloat.Fin (125 # 10))) None
                      ["Joint support"] [])
                   (125 # 10) _ _ _ _) _ "b" _).
  - reflexivity.
  - reflexivity.
  - reflexivity.
  - reflexivity.
  - unfold Qle. simpl. lia.
  - reflexivity.
Defined.

Lemma ai_groomer_score_unclamped_witness :
  exists g,
    RecommendationAgent.analyze_groomer_suitability (Some "sk-test")
      Samples.model_groomer_9 Samples.no_match Samples.no_match
      Samples.no_match Samples.unseeded_groomer "poodle" None = Ok g
    /\ RecommendationAgent.GroomerRecommendation.suitability_score g = 9%Q
    /\ RecommendationAgent.GroomerRecommendation.recommendation_reason g
       = "Breed specialist.".
Proof.
  refine (proj1 (ai_groomer_score_unclamped (Some "sk-test")
                   Samples.model_groomer_9 Samples.no_match Samples.no_match
                   Samples.no_match Samples.unseeded_groomer "poodle" None
                   "sk-test"
                   (RecommendationAgent.mkGroomerAnalysis
                      (Some (PyFloat.Fin 9)) (Some "Breed specialist."))
                   9%Q _ _ _ _ _) _).
  - reflexivity.
  - reflexivity.
  - reflexivity.
  - reflexivity.
  - reflexivity.
  - unfold Qle. simpl. lia.
Defined.

Lemma groomer_id_shape_witness :
  exists g,
    RecommendationAgent.analyze_groomer_suitability None
      Samples.model_groomer_9 Samples.no_match Samples.no_match
      Samples.no_match Samples.scenario_c_groomer "poodle" None = Ok g
    /\ Text.all_chars Text.id_char
         (RecommendationAgent.GroomerRecommendation.groomer_id g) = true
    /\ Text.clean_ends Text.is_dash
         (RecommendationAgent.GroomerRecommendation.groomer_id g).
Proof.
  eexists. split; [vm_compute; reflexivity |].
  apply (groomer_id_shape None Samples.model_groomer_9 Samples.no_match
           Samples.no_match Samples.no_match Samples.scenario_c_groomer
           "poodle" None).
  vm_compute. reflexivity.
Defined.

Lemma response_groomers_present_witness :
  exists response,
    RecommendationAgent.get_product_recommendations None Samples.model_down
      Samples.no_float_str MoreSamples.no_groomers Samples.model_groomer_9
      Samples.no_match Samples.no_match Samples.no_match Samples.no_reviews
      Samples.fixed_summary Samples.fixed_groomer_summary
      Samples.three_products "dog food" "Labrador" "adult" None None 5 true
    = Ok response
    /\ exists groomer groomers,
         RecommendationAgent.RecommendationResponse.groomer_recommendations
           response = Some (groomer :: groomers).
Proof.
  eexists. split; [vm_compute; reflexivity |].
  apply (response_groomers_present None Samples.model_down
           Samples.no_float_str MoreSamples.no_groomers
           Samples.model_groomer_9 Samples.no_match Samples.no_match
           Samples.no_match Samples.no_reviews Samples.fixed_summary
           Samples.fixed_groomer_summary Samples.three_products "dog food"
           "Labrador" "adult" None None 5 true).
  vm_compute. reflexivity.
Defined.

Lemma response_recommendation_count_witness :
  exists response,
    RecommendationAgent.get_product_recommendations None Samples.model_down
      Samples.no_float_str Samples.two_groomers Samples.model_groomer_9
      Samples.no_match Samples.no_match Samples.no_match Samples.no_reviews
      Samples.fixed_summary Samples.fixed_groomer_summary
      Samples.three_products "dog food" "Labrador" "adult" None None 2 false
    = Ok response
    /\ Z.of_nat
         (List.length
            (RecommendationAgent.RecommendationResponse.recommendations
               response)) <= 2.
Proof.
  eexists. split; [vm_compute; reflexivity |].
  refine (proj2 (response_recommendation_count None Samples.model_down
                   Samples.no_float_str Samples.two_groomers
                   Samples.model_groomer_9 Samples.no_match Samples.no_match
                   Samples.no_match Samples.no_reviews Samples.fixed_summary
                   Samples.fixed_groomer_summary Samples.three_products
                   "dog food" "Labrador" "adult" None None 2 false _ _) _).
  - vm_compute. reflexivity.
  - lia.
Defined.

Lemma scraper_failure_gives_one_placeholder_witness :
  exists response g,
    RecommendationAgent.get_product_recommendations None Samples.model_down
      Samples.no_float_str MoreSamples.no_groomers Samples.model_groomer_9
      Samples.no_match Samples.no_match Samples.no_match Samples.no_reviews
      Samples.fixed_summary Samples.fixed_groomer_summary
      Samples.three_products "dog food" "poodle" "adult" None None 5 true
    = Ok response
    /\ RecommendationAgent.RecommendationResponse.groomer_recommendations
         response = Some [g]
    /\ RecommendationAgent.GroomerRecommendation.suitability_score g = 8%Q
    /\ RecommendationAgent.GroomerRecommendation.name g
       = "Professional poodle Groomer".
Proof.
  eexists.
  destruct (scraper_failure_gives_one_placeholder None Samples.model_down
              Samples.no_float_str MoreSamples.no_groomers
              Samples.model_groomer_9 Samples.no_match Samples.no_match
              Samples.no_match Samples.no_reviews Samples.fixed_summary
              Samples.fixed_groomer_summary Samples.three_products
              "dog food" "poodle" "adult" None None 5 _
              (or_introl eq_refl) ltac:(vm_compute; reflexivity))
    as (g & Hg & Hscore & Hname & _).
  exists g. split; [vm_compute; reflexivity |].
  split; [exact Hg |]. split; [exact Hscore | exact Hname].
Defined.

Lemma search_products_pages_witness :
  exists hits,
    PetExpressFetch.search_products Samples.sample_page
      Samples.sample_urljoin MoreSamples.plain_query MoreSamples.shop
      "treats" 1 10 = Ok hits
    /\ (List.length hits <= 10)%nat
    /\ PySorted.descending PetExpressFetch.by_relevance hits.
Proof.
  pose proof (search_products_pages Samples.sample_page
                Samples.sample_urljoin MoreSamples.plain_query
                MoreSamples.shop "treats" 1 10
                (HttpUtils.mkResponse 200 "<html>")
                ltac:(discriminate) eq_refl eq_refl ltac:(lia) ltac:(lia))
    as H.
  cbv zeta in H. destruct H as (H1 & _ & H3 & H4 & _).
  eexists. split; [exact H1 |]. split; [exact H3 | exact H4].
Defined.

Lemma get_all_products_window_witness :
  PetExpressFetch.get_all_products Samples.sample_page
    Samples.sample_urljoin MoreSamples.shop (Some "dog-food") 2 10 = Ok [].
Proof.
  refine (proj2 (get_all_products_window Samples.sample_page
                   Samples.sample_urljoin MoreSamples.shop
                   (Some "dog-food") 2 10
                   (HttpUtils.mkResponse 200 "<html>") _ _ _ _) _).
  - reflexivity.
  - reflexivity.
  - lia.
  - lia.
  - vm_compute. discriminate.
Defined.

Lemma mock_reviews_lift_scores_witness :
  exists response,
    RecommendationAgent.get_product_recommendations None Samples.model_down
      Samples.no_float_str Samples.two_groomers Samples.model_groomer_9
      Samples.no_match Samples.no_match Samples.no_match
      (ReviewScraper.search_for_reviews MoreSamples.tavily_down)
      Samples.fixed_summary Samples.fixed_groomer_summary
      Samples.three_products "dog food" "Labrador" "adult" None None 5 false
    = Ok response
    /\ Forall (fun r =>
                 (5 <= RecommendationAgent.ProductRecommendation.suitability_score r
                  <= 10)%Q)
              (RecommendationAgent.RecommendationResponse.recommendations
                 response).
Proof.
  eexists. split; [vm_compute; reflexivity |].
  apply (mock_reviews_lift_scores None Samples.model_down
           Samples.no_float_str Samples.two_groomers Samples.model_groomer_9
           Samples.no_match Samples.no_match Samples.no_match
           MoreSamples.tavily_down Samples.fixed_summary
           Samples.fixed_groomer_summary Samples.three_products "dog food"
           "Labrador" "adult" None None 5 false).
  - reflexivity.
  - reflexivity.
  - reflexivity.
  - discriminate.
  - discriminate.
  - vm_compute. reflexivity.
Defined.

Lemma recommend_route_without_keys_witness :
  exists body,
    Routes.recommend Samples.sample_page Samples.sample_urljoin
      MoreSamples.plain_query MoreSamples.shop None None Samples.model_down
      Samples.no_float_str Samples.two_groomers Samples.model_groomer_9
      Samples.no_match Samples.no_match Samples.no_match
      MoreSamples.tavily_down Samples.fixed_summary
      Samples.fixed_groomer_summary MoreSamples.no_text
      MoreSamples.never_value_error "treats" "Labrador" "adult" 1 10 5 true
    = Routes.Body body
    /\ Routes.rb_count body = 2%nat
    /\ Forall (fun r =>
                 (5 <= RecommendationAgent.ProductRecommendation.suitability_score r
                  <= 10)%Q)
              (Routes.rb_recommendations body).
Proof.
  eexists. split; [vm_compute; reflexivity |].
  split; [reflexivity |].
  refine (proj2 (proj2 (proj2
            (recommend_route_without_keys Samples.sample_page
               Samples.sample_urljoin MoreSamples.plain_query
               MoreSamples.shop None None Samples.model_down
               Samples.no_float_str Samples.two_groomers
               Samples.model_groomer_9 Samples.no_match Samples.no_match
               Samples.no_match MoreSamples.tavily_down Samples.fixed_summary
               Samples.fixed_groomer_summary MoreSamples.no_text
               MoreSamples.never_value_error "treats" "Labrador" "adult"
               1 10 5 true _ _ _ _ _ _)))).
  - reflexivity.
  - reflexivity.
  - discriminate.
  - discriminate.
  - vm_compute. reflexivity.
Defined.

Lemma recommend_route_errors_witness :
  Routes.recommend Samples.sample_page Samples.sample_urljoin
    MoreSamples.plain_query MoreSamples.shop None (Some "sk-test")
    Samples.model_overshoots Samples.no_float_str Samples.two_groomers
    Samples.model_groomer_9 Samples.no_match Samples.no_match
    Samples.no_match MoreSamples.tavily_down
    (RecommendationSummary.summary_of_agent (Some "sk-test")
       MoreSamples.completion_without_text MoreSamples.one_decimal)
    Samples.fixed_groomer_summary MoreSamples.no_text
    MoreSamples.never_value_error "treats" "Labrador" "adult" 1 10 5 true
  = Routes.HTTPException 400 "".
Proof.
  refine (proj1 (recommend_route_errors Samples.sample_page
                   Samples.sample_urljoin MoreSamples.plain_query
                   MoreSamples.shop None (Some "sk-test")
                   Samples.model_overshoots Samples.no_float_str
                   Samples.two_groomers Samples.model_groomer_9
                   Samples.no_match Samples.no_match Samples.no_match
                   MoreSamples.tavily_down
                   MoreSamples.completion_without_text
                   MoreSamples.one_decimal Samples.fixed_groomer_summary
                   MoreSamples.no_text MoreSamples.never_value_error
                   "treats" "Labrador" "adult" 1 10 5 true
                   MoreSamples.treat_hits _ _)
                "sk-test" _ _ _ _).
  - vm_compute. reflexivity.
  - vm_compute. discriminate.
  - reflexivity.
  - reflexivity.
  - vm_compute. discriminate.
  - reflexivity.
Defined.
